(** * login.js and the snowflake HTML downloader

    A shallow embedding of the two Puppeteer scripts of the project:

    - the session capture script ([login.js]), which opens the login page,
      waits for a manual login and saves the site's cookies to
      [cookies.json];
    - the batch downloader (the second script of the same source file), which
      reads [snowflake_chart.csv], restores the cookies and dumps the HTML of
      every ticker page into [html_dump/], logging failures to [errors.log].

    JavaScript strings are sequences of UTF-16 code units.  Effects are
    threaded through an explicit world: the files the scripts touch, the
    console, a trace of every external call, and the state of the host
    (Chrome driven by Puppeteer, the network, the clock).  The host is an
    interface: the scripts are verified for every implementation of it.

    What the model takes for granted:
    - [fs.writeFileSync] and [fs.appendFileSync] either do what they are
      asked or throw and leave the files as they were; a path that is a
      directory is never written, and for any other path it is the operating
      system (a part of the host) that says whether the call throws: a
      missing directory, a permission, a full disk;
    - [fs.readFileSync] and [fs.createReadStream] fail for a path that is
      not a file, and for no other reason;
    - what the host throws is an [Error] object, with a [message];
    - the cells of a row of csv-parser are strings, and its stream ends
      either with ['end'] or with ['error'];
    - [path.join], [path.resolve], [JSON.stringify], [JSON.parse] and
      [Date.prototype.toISOString] are the platform's: functions of their
      arguments about which nothing else is assumed. *)

From Stdlib Require Import NArith String Ascii List Bool Lia.
From stdpp Require Import base option list gmap.

Set Default Proof Using "Type".
Open Scope N_scope.

(* ===================================================================== *)
(** ** JavaScript strings *)
(* ===================================================================== *)

(** A string value: its UTF-16 code units. *)
Abbreviation jsstring := (list N).

Module JsString.

(** Code points of a UTF-8 byte sequence (string literals of this file are
    UTF-8, as the source file is).  Malformed bytes are kept as they are. *)
Fixpoint code_points (bs : list N) : list N :=
  match bs with
  | [] => []
  | b0 :: r0 =>
    if b0 <? 0x80 then b0 :: code_points r0
    else match r0 with
    | [] => [b0]
    | b1 :: r1 =>
      if b0 <? 0xE0 then ((b0 - 0xC0) * 64 + (b1 - 0x80)) :: code_points r1
      else match r1 with
      | [] => [b0; b1]
      | b2 :: r2 =>
        if b0 <? 0xF0
        then ((b0 - 0xE0) * 4096 + (b1 - 0x80) * 64 + (b2 - 0x80))
               :: code_points r2
        else match r2 with
        | [] => [b0; b1; b2]
        | b3 :: r3 =>
          ((b0 - 0xF0) * 262144 + (b1 - 0x80) * 4096
           + (b2 - 0x80) * 64 + (b3 - 0x80)) :: code_points r3
        end
      end
    end
  end.

(** UTF-16 code units of one code point (a surrogate pair above the BMP). *)
Definition code_units (cp : N) : list N :=
  if cp <? 0x10000 then [cp]
  else [0xD800 + (cp - 0x10000) / 1024; 0xDC00 + (cp - 0x10000) mod 1024].

(** The string value of a literal. *)
Definition js (s : string) : jsstring :=
  flat_map code_units
    (code_points (List.map N_of_ascii (list_ascii_of_string s))).

(** WhiteSpace and LineTerminator code units, the ones
    [String.prototype.trim] removes. *)
Definition is_space (c : N) : bool :=
  (c =? 0x9) || (c =? 0xA) || (c =? 0xB) || (c =? 0xC) || (c =? 0xD)
  || (c =? 0x20) || (c =? 0xA0) || (c =? 0x1680)
  || ((0x2000 <=? c) && (c <=? 0x200A))
  || (c =? 0x2028) || (c =? 0x2029) || (c =? 0x202F) || (c =? 0x205F)
  || (c =? 0x3000) || (c =? 0xFEFF).

Fixpoint trimStart (s : jsstring) : jsstring :=
  match s with
  | [] => []
  | c :: r => if is_space c then trimStart r else s
  end.

Definition trimEnd (s : jsstring) : jsstring := rev (trimStart (rev s)).

(** [s.trim()] *)
Definition trim (s : jsstring) : jsstring := trimEnd (trimStart s).

(** [s.startsWith(p)] *)
Fixpoint startsWith (s p : jsstring) {struct p} : bool :=
  match p, s with
  | [], _ => true
  | _ :: _, [] => false
  | a :: p', b :: s' => (a =? b) && startsWith s' p'
  end.

(** [s.includes(p)]: [p] occurs somewhere in [s]. *)
Fixpoint includes (s p : jsstring) : bool :=
  startsWith s p ||
  match s with
  | [] => false
  | _ :: r => includes r p
  end.

(** [s.endsWith(p)] *)
Definition endsWith (s p : jsstring) : bool := startsWith (rev s) (rev p).

End JsString.
Export JsString.

(* ===================================================================== *)
(** ** Values, exceptions and the world *)
(* ===================================================================== *)

(** A thrown [Error] object; the scripts read only [err.message]. *)
Record JsError := mkError { err_name : jsstring; err_message : jsstring }.

(** How a call completes: it returns, or it throws (for an awaited promise:
    it is fulfilled, or rejected). *)
Inductive Completion (A : Type) : Type :=
| Normal (a : A)
| Abrupt (e : JsError).
Arguments Normal {A} a.
Arguments Abrupt {A} e.

(** What running a piece of a script gives: a value, a thrown exception, or
    an error raised outside the promise chain, which no [catch] of the script
    sees and which ends the process. *)
Inductive Result (A : Type) : Type :=
| Ok (a : A)
| Throw (e : JsError)
| Uncaught (e : JsError).
Arguments Ok {A} a.
Arguments Throw {A} e.
Arguments Uncaught {A} e.

Definition completed {A} (c : Completion A) : Result A :=
  match c with
  | Normal a => Ok a
  | Abrupt e => Throw e
  end.

(** A cookie record as Puppeteer hands it out. *)
Record Cookie := mkCookie {
  cookie_name : jsstring;
  cookie_value : jsstring;
  cookie_domain : jsstring;
  cookie_path : jsstring;
  cookie_expires : Z;
  cookie_httpOnly : bool;
  cookie_secure : bool;
  cookie_sameSite : option jsstring
}.

(** A row object emitted by csv-parser: column header to cell text. *)
Abbreviation Row := (gmap jsstring jsstring).

Inductive WaitUntil := domcontentloaded | networkidle2.

(** The options of [puppeteer.launch] in which the two scripts differ (both
    launch the installed Chrome, visible and maximised). *)
Record LaunchOptions := mkLaunch {
  executablePath : jsstring;
  userDataDir : option jsstring
}.

(** Every call that leaves the script, in the order it is made.  A call of
    [fs.writeFileSync] or [fs.appendFileSync] is recorded with the way it
    ended: it returned, or it threw. *)
Inductive Event :=
| EvLaunch (o : LaunchOptions)
| EvNewPage
| EvGoto (url : jsstring) (wait : WaitUntil) (timeout : N)
| EvTimeout (ms : N)
| EvCookies
| EvSetCookie (cs : list Cookie)
| EvContent
| EvClose
| EvCreateReadStream (p : jsstring)
| EvExists (p : jsstring)
| EvMkdir (p : jsstring)
| EvReadFile (p : jsstring)
| EvWriteFile (p : jsstring) (data : jsstring)
| EvAppendFile (p : jsstring) (data : jsstring)
| EvWriteFileThrew (p : jsstring) (data : jsstring) (e : JsError)
| EvAppendFileThrew (p : jsstring) (data : jsstring) (e : JsError)
| EvDate.

(** A call that writes to the file system. *)
Inductive FsCall :=
| FsWrite (p : jsstring) (data : jsstring)
| FsAppend (p : jsstring) (data : jsstring).

Definition fs_path (c : FsCall) : jsstring :=
  match c with
  | FsWrite p _ => p
  | FsAppend p _ => p
  end.

(** An argument of [console.log] / [console.error]. *)
Inductive LogArg :=
| LStr (s : jsstring)
| LCookies (cs : list Cookie).

Inductive Stream := Stdout | Stderr.

(** The host: Chrome under Puppeteer, timers, the clock, and the library
    functions whose result depends on the platform.  [E] is the host's own
    state; every call may change it and may throw. *)
Class Host (E : Type) := {
  puppeteer_launch : LaunchOptions -> E -> Completion unit * E;
  browser_newPage : E -> Completion unit * E;
  page_goto : jsstring -> WaitUntil -> N -> E -> Completion unit * E;
  page_cookies : E -> Completion (list Cookie) * E;
  page_setCookie : list Cookie -> E -> Completion unit * E;
  page_content : E -> Completion jsstring * E;
  browser_close : E -> Completion unit * E;
  (** [setTimeout(resolve, ms)] awaited: time passes *)
  wait_timeout : N -> E -> E;
  (** [new Date().toISOString()] *)
  Date_toISOString : E -> jsstring;
  (** the rows csv-parser emits for a file's text, then ['end'] ([None])
      or ['error'] *)
  csv : jsstring -> list Row * option JsError;
  (** [JSON.stringify(cookies, null, 2)] *)
  JSON_stringify : list Cookie -> jsstring;
  (** the cookies a JSON text holds; throws on any other text *)
  JSON_parse : jsstring -> Completion (list Cookie);
  path_join : jsstring -> jsstring -> jsstring;
  path_resolve : jsstring -> jsstring -> jsstring;
  (** [__dirname] of login.js *)
  dirname : jsstring;
  (** what the operating system throws at a write to a path that is not a
      directory, the files and the directories being what they are; [None]:
      the write goes through *)
  fs_fault : FsCall -> gmap jsstring jsstring -> gset jsstring -> E ->
             option JsError
}.

(** The world a script runs in: the host, the files with their text, the
    directories, the console and the trace of the calls. *)
Record World (E : Type) := mkWorld {
  host : E;
  files : gmap jsstring jsstring;
  dirs : gset jsstring;
  console : list (Stream * list LogArg);
  trace : list Event
}.
Arguments mkWorld {E}.
Arguments host {E}.
Arguments files {E}.
Arguments dirs {E}.
Arguments console {E}.
Arguments trace {E}.

(** A computation: from a world to a result and the world it leaves. *)
Definition M (E A : Type) : Type := World E -> Result A * World E.

Definition ret {E A} (a : A) : M E A := fun w => (Ok a, w).

Definition throw {E A} (e : JsError) : M E A := fun w => (Throw e, w).

Definition bind {E A B} (m : M E A) (k : A -> M E B) : M E B :=
  fun w =>
    match m w with
    | (Ok a, w') => k a w'
    | (Throw e, w') => (Throw e, w')
    | (Uncaught e, w') => (Uncaught e, w')
    end.

(** [try { body } catch (err) { handler }]: whatever [body] did before it
    threw stays done. *)
Definition try_catch {E A} (body : M E A) (handler : JsError -> M E A)
  : M E A :=
  fun w =>
    match body w with
    | (Ok a, w') => (Ok a, w')
    | (Throw e, w') => handler e w'
    | (Uncaught e, w') => (Uncaught e, w')
    end.

Declare Scope js_scope.
Delimit Scope js_scope with js.
Notation "x ← y ; z" := (bind y (fun x => z))
  (at level 20, y at level 100, z at level 200, only parsing) : js_scope.
Notation "x ;; z" := (bind x (fun _ => z))
  (at level 100, z at level 200, only parsing, right associativity)
  : js_scope.
Open Scope js_scope.

(** [for (const x of xs) body] *)
Fixpoint for_of {E A} (xs : list A) (body : A -> M E unit) : M E unit :=
  match xs with
  | [] => ret tt
  | x :: r => body x ;; for_of r body
  end.

(* ===================================================================== *)
(** ** Calls into the host, the store and the console *)
(* ===================================================================== *)

Definition dquote : jsstring := [34].
Definition squote : jsstring := [39].
Definition newline : jsstring := [10].

Section Primitives.
Context {E : Type} `{Host E}.

(** A call into the host, recorded in the trace. *)
Definition call {A} (ev : Event) (f : E -> Completion A * E) : M E A :=
  fun w =>
    let r := f (host w) in
    (completed r.1, mkWorld r.2 (files w) (dirs w) (console w) (trace w ++ [ev])).

Definition launch (o : LaunchOptions) : M E unit :=
  call (EvLaunch o) (puppeteer_launch o).
Definition newPage : M E unit := call EvNewPage browser_newPage.
Definition goto (url : jsstring) (wait : WaitUntil) (timeout : N)
  : M E unit :=
  call (EvGoto url wait timeout) (page_goto url wait timeout).
Definition cookies : M E (list Cookie) := call EvCookies page_cookies.
Definition setCookie (cs : list Cookie) : M E unit :=
  call (EvSetCookie cs) (page_setCookie cs).
Definition content : M E jsstring := call EvContent page_content.
Definition close : M E unit := call EvClose browser_close.

(** [await new Promise(resolve => setTimeout(resolve, ms))] *)
Definition setTimeout (ms : N) : M E unit :=
  call (EvTimeout ms) (fun h => (Normal tt, wait_timeout ms h)).

(** [new Date().toISOString()] *)
Definition toISOString : M E jsstring :=
  call EvDate (fun h => (Normal (Date_toISOString h), h)).

(** A step on the store, recorded in the trace. *)
Definition fs_step {A} (ev : Event)
    (f : gmap jsstring jsstring -> gset jsstring ->
         Result A * gmap jsstring jsstring * gset jsstring)
  : M E A :=
  fun w =>
    let r := f (files w) (dirs w) in
    (r.1.1, mkWorld (host w) r.1.2 r.2 (console w) (trace w ++ [ev])).

Definition ENOENT (p : jsstring) : JsError :=
  mkError (js "Error")
    (js "ENOENT: no such file or directory, open " ++ squote ++ p ++ squote).
Definition EISDIR : JsError :=
  mkError (js "Error") (js "EISDIR: illegal operation on a directory, read").
Definition EISDIR_open (p : jsstring) : JsError :=
  mkError (js "Error")
    (js "EISDIR: illegal operation on a directory, open "
     ++ squote ++ p ++ squote).
Definition EEXIST (p : jsstring) : JsError :=
  mkError (js "Error")
    (js "EEXIST: file already exists, mkdir " ++ squote ++ p ++ squote).

Definition exists_in (fs : gmap jsstring jsstring) (ds : gset jsstring)
    (p : jsstring) : bool :=
  match fs !! p with
  | Some _ => true
  | None => bool_decide (p ∈ ds)
  end.

Definition existsSync (p : jsstring) : M E bool :=
  fs_step (EvExists p) (fun fs ds => (Ok (exists_in fs ds p), fs, ds)).

Definition mkdirSync (p : jsstring) : M E unit :=
  fs_step (EvMkdir p) (fun fs ds =>
    if exists_in fs ds p then (Throw (EEXIST p), fs, ds)
    else (Ok tt, fs, {[p]} ∪ ds)).

Definition readFileSync (p : jsstring) : M E jsstring :=
  fs_step (EvReadFile p) (fun fs ds =>
    match fs !! p with
    | Some text => (Ok text, fs, ds)
    | None =>
      (Throw (if bool_decide (p ∈ ds) then EISDIR else ENOENT p), fs, ds)
    end).

(** What a write throws, if it throws: a directory cannot be opened for
    writing; for any other path the operating system decides. *)
Definition fs_error (c : FsCall) (fs : gmap jsstring jsstring)
    (ds : gset jsstring) (h : E) : option JsError :=
  if bool_decide (fs_path c ∈ ds) then Some (EISDIR_open (fs_path c))
  else fs_fault c fs ds h.

(** [fs.writeFileSync(p, data)]: the file is created or replaced, unless
    the call throws. *)
Definition writeFileSync (p data : jsstring) : M E unit :=
  fun w =>
    match fs_error (FsWrite p data) (files w) (dirs w) (host w) with
    | Some e =>
      (Throw e,
       mkWorld (host w) (files w) (dirs w) (console w)
         (trace w ++ [EvWriteFileThrew p data e]))
    | None =>
      (Ok tt,
       mkWorld (host w) (<[p := data]> (files w)) (dirs w) (console w)
         (trace w ++ [EvWriteFile p data]))
    end.

(** [fs.appendFileSync(p, data)]: the file is created if absent, and what
    it holds is kept, unless the call throws. *)
Definition appendFileSync (p data : jsstring) : M E unit :=
  fun w =>
    match fs_error (FsAppend p data) (files w) (dirs w) (host w) with
    | Some e =>
      (Throw e,
       mkWorld (host w) (files w) (dirs w) (console w)
         (trace w ++ [EvAppendFileThrew p data e]))
    | None =>
      (Ok tt,
       mkWorld (host w) (<[p := default [] (files w !! p) ++ data]> (files w))
         (dirs w) (console w) (trace w ++ [EvAppendFile p data]))
    end.

Definition console_print (s : Stream) (args : list LogArg) : M E unit :=
  fun w =>
    (Ok tt,
     mkWorld (host w) (files w) (dirs w) (console w ++ [(s, args)])
       (trace w)).
Definition console_log := console_print Stdout.
Definition console_error := console_print Stderr.

(** The value of an expression that may throw but has no other effect. *)
Definition eval {A} (c : Completion A) : M E A :=
  fun w => (completed c, w).

End Primitives.

(* ===================================================================== *)
(** ** login.js: the session capture script *)
(* ===================================================================== *)

Definition chrome : jsstring :=
  js "C:/Program Files/Google/Chrome/Application/chrome.exe".

Definition profilePath : jsstring :=
  js "C:/Users/hanse/AppData/Local/Google/Chrome/User Data/Default".

Definition LOGIN_URL : jsstring := js "https://simplywall.st/login".

(** The callback of [cookies.filter]. *)
Definition is_session_cookie (c : Cookie) : bool :=
  includes (cookie_domain c) (js "simplywall.st").

Section Login.
Context {E : Type} `{Host E}.

Definition cookiePath : jsstring := path_resolve dirname (js "cookies.json").

(** The body of the script (its async IIFE). *)
Definition login_js : M E unit :=
  launch (mkLaunch chrome (Some profilePath));;
  newPage;;
  goto LOGIN_URL domcontentloaded 60000;;
  console_log
    [LStr (js "🧑‍💻 Please log in manually in the opened browser...")];;
  console_log
    [LStr (js "⏳ Waiting 30 seconds for login and session to persist...")];;
  setTimeout 30000;;
  jar ← cookies;
  let sessionCookies := List.filter is_session_cookie jar in
  console_log
    [LStr (js "🍪 Simply Wall Street session cookies:");
     LCookies sessionCookies];;
  writeFileSync cookiePath (JSON_stringify sessionCookies);;
  console_log [LStr (js "✅ Saved session cookies to " ++ cookiePath)];;
  close.

End Login.

(* ===================================================================== *)
(** ** The batch downloader *)
(* ===================================================================== *)

Definition CSV_FILE : jsstring := js "snowflake_chart.csv".
Definition COOKIES_FILE : jsstring := js "cookies.json".
Definition HTML_DUMP_FOLDER : jsstring := js "html_dump".
Definition BASE_URL : jsstring := js "https://simplywall.st".
Definition ERROR_LOG : jsstring := js "errors.log".

(** [rows.push(row)] for every ['data'] event, in the order of the events. *)
Definition push_all (emitted : list Row) : list Row :=
  fold_left (fun rows row => rows ++ [row]) emitted [].

(** What [undefined.trim()] throws. *)
Definition trim_of_undefined : JsError :=
  mkError (js "TypeError")
    (js "Cannot read properties of undefined (reading 'trim')").

Definition cookies_not_found : JsError :=
  mkError (js "Error")
    (js "Cookies file " ++ dquote ++ COOKIES_FILE ++ dquote
     ++ js " not found. Run login.js first.").

(** The line [logError] appends. *)
Definition logMsg (now ticker error : jsstring) : jsstring :=
  now ++ js " | " ++ ticker ++ js " | " ++ error ++ newline.

(** The two streams of [readCSV]: the file stream that
    [fs.createReadStream] returns, and the csv stream it is piped into. *)
Inductive Emitter := FileStream | CsvStream.

(** Whether [readCSV] has a listener for ['error'] on a stream.  Its three
    [.on] calls are chained on the value of [.pipe(csv())], which is the csv
    stream; [pipe] does not forward errors. *)
Definition listens_error (em : Emitter) : bool :=
  match em with
  | CsvStream => true
  | FileStream => false
  end.

(** A stream emits ['error']: the listener [reject] rejects the promise;
    where there is no listener the emitter throws the error itself, out of
    an I/O callback that no promise belongs to. *)
Definition emit_error {A} (em : Emitter) (e : JsError) : Result A :=
  if listens_error em then Throw e else Uncaught e.

Section Downloader.
Context {E : Type} `{Host E}.

(** The promise of [readCSV].  A path that cannot be read as a file makes
    the file stream emit ['error'] (no such file, or a directory); the text
    of a file goes through the csv stream, which emits its rows and then
    ['end'], whose listener resolves the promise with the rows pushed, or
    ['error']. *)
Definition readCSV : M E (list Row) :=
  fun w =>
    let w' :=
      mkWorld (host w) (files w) (dirs w) (console w)
        (trace w ++ [EvCreateReadStream CSV_FILE]) in
    match files w !! CSV_FILE with
    | None =>
      (emit_error FileStream
         (if bool_decide (CSV_FILE ∈ dirs w) then EISDIR
          else ENOENT CSV_FILE),
       w')
    | Some text =>
      match (csv text).2 with
      | None => (Ok (push_all (csv text).1), w')
      | Some e => (emit_error CsvStream e, w')
      end
    end.

Definition applyCookies : M E unit :=
  found ← existsSync COOKIES_FILE;
  (if negb found then throw cookies_not_found else ret tt);;
  cookieData ← readFileSync COOKIES_FILE;
  cookies ← eval (JSON_parse cookieData);
  setCookie cookies;;
  console_log [LStr (js "🍪 Cookies applied")].

Definition logError (ticker error : jsstring) : M E unit :=
  now ← toISOString;
  appendFileSync ERROR_LOG (logMsg now ticker error).

(** [row[column].trim()] *)
Definition trimmed (row : Row) (column : jsstring) : M E jsstring :=
  match row !! column with
  | Some cell => ret (trim cell)
  | None => throw trim_of_undefined
  end.

Definition htmlPath (ticker : jsstring) : jsstring :=
  path_join HTML_DUMP_FOLDER (ticker ++ js ".html").

(** The [try] block of the loop. *)
Definition dump_try (ticker fullUrl : jsstring) : M E unit :=
  console_log [LStr (js "🌐 Visiting " ++ fullUrl)];;
  goto fullUrl networkidle2 60000;;
  setTimeout 5000;;
  htmlContent ← content;
  writeFileSync (htmlPath ticker) htmlContent;;
  console_log [LStr (js "📝 HTML dumped for " ++ ticker)].

(** The [catch] block of the loop. *)
Definition dump_catch (ticker : jsstring) (err : JsError) : M E unit :=
  console_error
    [LStr (js "❌ Error dumping " ++ ticker ++ js ": " ++ err_message err)];;
  logError ticker (err_message err).

(** The body of the loop, for one row. *)
Definition dump_row (row : Row) : M E unit :=
  ticker ← trimmed row (js "tickers");
  pathUrl ← trimmed row (js "canonical_url");
  let fullUrl := BASE_URL ++ pathUrl in
  try_catch (dump_try ticker fullUrl) (dump_catch ticker).

(** The statements of [dumpHTML] before its loop. *)
Definition dumpHTML_begin : M E unit :=
  launch (mkLaunch chrome None);;
  newPage;;
  applyCookies;;
  found ← existsSync HTML_DUMP_FOLDER;
  if negb found then mkdirSync HTML_DUMP_FOLDER else ret tt.

(** The statements of [dumpHTML] after its loop. *)
Definition dumpHTML_end : M E unit :=
  close;;
  console_log [LStr (js "✅ All HTML files created")].

Definition dumpHTML (rows : list Row) : M E unit :=
  dumpHTML_begin;;
  for_of rows dump_row;;
  dumpHTML_end.

Definition main : M E unit :=
  try_catch
    (tickers ← readCSV; dumpHTML tickers)
    (fun err =>
       console_error [LStr (js "🚨 Fatal error:"); LStr (err_message err)]).

End Downloader.

(* ===================================================================== *)
(** ** What a run can be observed to have done *)
(* ===================================================================== *)

(** The URLs navigated to, in order. *)
Definition gotos (tr : list Event) : list jsstring :=
  flat_map (fun ev => match ev with EvGoto url _ _ => [url] | _ => [] end) tr.

(** The files written (the calls of [fs.writeFileSync] that returned), in
    order. *)
Definition writes (tr : list Event) : list (jsstring * jsstring) :=
  flat_map
    (fun ev => match ev with EvWriteFile p data => [(p, data)] | _ => [] end)
    tr.

(** The texts appended to files (the calls of [fs.appendFileSync] that
    returned), in order. *)
Definition appends (tr : list Event) : list (jsstring * jsstring) :=
  flat_map
    (fun ev => match ev with EvAppendFile p data => [(p, data)] | _ => [] end)
    tr.

(** What the error log holds (nothing, when there is no such file). *)
Definition error_log {E} (w : World E) : jsstring :=
  default [] (files w !! ERROR_LOG).

Definition all_spaces (s : jsstring) : Prop :=
  Forall (fun c => is_space c = true) s.

(** No white space at either end. *)
Definition stripped (s : jsstring) : Prop :=
  (forall c, head s = Some c -> is_space c = false)
  /\ (forall c, last s = Some c -> is_space c = false).

(** A cookie domain within the scope of a site's domain, read generously:
    one is a suffix of the other. *)
Definition in_scope (target domain : jsstring) : bool :=
  endsWith domain target || endsWith target domain.

(** The manifest, as [readCSV] finds it. *)
Definition manifest {E} `{Host E} (w : World E) : list Row :=
  match files w !! CSV_FILE with
  | Some text => (csv text).1
  | None => []
  end.

(** The calls of a [try] block that threw, after its navigation, with the
    message of what it threw: the navigation itself threw; or the capture of
    the page did; or the write of the file did. *)
Inductive thrown_after {E} `{Host E} (ticker : jsstring)
  : jsstring -> list Event -> Prop :=
| thrown_goto message : thrown_after ticker message []
| thrown_content message :
    thrown_after ticker message [EvTimeout 5000; EvContent]
| thrown_write html e :
    thrown_after ticker (err_message e)
      [EvTimeout 5000; EvContent; EvWriteFileThrew (htmlPath ticker) html e].

(** The events of one iteration for [ticker] and [fullUrl] that ran to its
    end: the navigation, and then either the page is captured and written, or
    (the [try] block having thrown) one line is appended to the error
    log. *)
Inductive iteration {E} `{Host E} (ticker fullUrl : jsstring)
  : list Event -> Prop :=
| iteration_dumped html :
    iteration ticker fullUrl
      [EvGoto fullUrl networkidle2 60000; EvTimeout 5000; EvContent;
       EvWriteFile (htmlPath ticker) html]
| iteration_failed rest now message :
    thrown_after ticker message rest ->
    iteration ticker fullUrl
      (EvGoto fullUrl networkidle2 60000
         :: rest ++ [EvDate; EvAppendFile ERROR_LOG (logMsg now ticker message)]).

(** The events of an iteration that did not run to its end: its [try]
    block threw, and then the append to the error log threw [e]. *)
Inductive aborted {E} `{Host E} (ticker fullUrl : jsstring) (e : JsError)
  : list Event -> Prop :=
| aborted_logging rest now message :
    thrown_after ticker message rest ->
    aborted ticker fullUrl e
      (EvGoto fullUrl networkidle2 60000
         :: rest
         ++ [EvDate; EvAppendFileThrew ERROR_LOG (logMsg now ticker message) e]).

(** The events of one iteration over [row]. *)
Definition visit_of {E} `{Host E} (row : Row) (block : list Event) : Prop :=
  exists cell1 cell2,
    row !! js "tickers" = Some cell1
    /\ row !! js "canonical_url" = Some cell2
    /\ iteration (trim cell1) (BASE_URL ++ trim cell2) block.

(** The events of an iteration over [row] that the error log ended. *)
Definition abort_of {E} `{Host E} (row : Row) (e : JsError)
    (block : list Event) : Prop :=
  exists cell1 cell2,
    row !! js "tickers" = Some cell1
    /\ row !! js "canonical_url" = Some cell2
    /\ aborted (trim cell1) (BASE_URL ++ trim cell2) e block.

(** A row with both columns. *)
Definition complete (row : Row) : Prop :=
  is_Some (row !! js "tickers") /\ is_Some (row !! js "canonical_url").

(** How the loop over [rows] has ended, the rows [visited] having run to
    their end: with the last row; or at the first row that lacks a column,
    whose [.trim()] throws; or at the first row whose line the error log did
    not take, the events of that row being [tail]. *)
Definition loop_end {E} `{Host E} (rows : list Row) (r : Result unit)
    (visited : list Row) (tail : list Event) : Prop :=
  (r = Ok tt /\ visited = rows /\ tail = [])
  \/ (r = Throw trim_of_undefined /\ tail = []
      /\ exists row rest, rows = visited ++ row :: rest /\ ~ complete row)
  \/ (exists e row rest,
        r = Throw e /\ rows = visited ++ row :: rest
        /\ abort_of row e tail).

(** Events that neither navigate nor write. *)
Definition silent (evs : list Event) : Prop :=
  gotos evs = [] /\ writes evs = [] /\ appends evs = [].

(** A computation that leaves the files alone and neither navigates nor
    writes. *)
Definition quiet {E A} (m : M E A) : Prop :=
  forall w, files (m w).2 = files w
            /\ exists evs, trace (m w).2 = trace w ++ evs /\ silent evs.

(** The last line of the console. *)
Definition last_line {E} (w : World E) : option (Stream * list LogArg) :=
  last (console w).

(** A computation all of whose calls are of the kind [P]. *)
Definition emits {E A} (P : Event -> Prop) (m : M E A) : Prop :=
  forall w, exists evs, trace (m w).2 = trace w ++ evs /\ Forall P evs.

(** A computation that never fails outside the promise chain. *)
Definition caught {E A} (m : M E A) : Prop :=
  forall w e, (m w).1 <> Uncaught e.

(** What a call does to the files: only [fs.writeFileSync] and
    [fs.appendFileSync] change them, when they return. *)
Definition apply_event (fs : gmap jsstring jsstring) (ev : Event)
  : gmap jsstring jsstring :=
  match ev with
  | EvWriteFile p data => <[p := data]> fs
  | EvAppendFile p data => <[p := default [] (fs !! p) ++ data]> fs
  | _ => fs
  end.

(** The files after a sequence of calls. *)
Definition replay (evs : list Event) (fs : gmap jsstring jsstring)
  : gmap jsstring jsstring :=
  foldl apply_event fs evs.


(* ===================================================================== *)
(** ** A scripted host, to run the scripts on concrete inputs *)
(* ===================================================================== *)

Module Scripted.

(** What visiting a URL of the scripted site gives. *)
Inductive Loading :=
| Loads (html : jsstring)
| GotoFails (e : JsError)
| ContentFails (e : JsError).

Record Sim := mkSim {
  sim_site : list (jsstring * Loading);
  sim_page : option Loading;
  sim_jar : list Cookie;
  sim_clock : N
}.

Definition str_eqb (a b : jsstring) : bool :=
  startsWith a b && startsWith b a.

Fixpoint assoc {A} (k : jsstring) (l : list (jsstring * A)) : option A :=
  match l with
  | [] => None
  | (k', v) :: r => if str_eqb k k' then Some v else assoc k r
  end.

Definition navigation_timeout : JsError :=
  mkError (js "TimeoutError") (js "Navigation timeout of 60000 ms exceeded").
Definition name_not_resolved (url : jsstring) : JsError :=
  mkError (js "Error") (js "net::ERR_NAME_NOT_RESOLVED at " ++ url).
Definition target_closed : JsError :=
  mkError (js "TargetCloseError")
    (js "Protocol error (Page.getFrameTree): Target closed").
Definition unexpected_token : JsError :=
  mkError (js "SyntaxError") (js "Unexpected token in JSON").

Definition sim_goto (url : jsstring) (h : Sim) : Completion unit * Sim :=
  match assoc url (sim_site h) with
  | Some (GotoFails e) =>
    (Abrupt e, mkSim (sim_site h) None (sim_jar h) (sim_clock h))
  | Some l =>
    (Normal tt, mkSim (sim_site h) (Some l) (sim_jar h) (sim_clock h))
  | None =>
    (Abrupt (name_not_resolved url),
     mkSim (sim_site h) None (sim_jar h) (sim_clock h))
  end.

Definition sim_content (h : Sim) : Completion jsstring * Sim :=
  match sim_page h with
  | Some (Loads html) => (Normal html, h)
  | Some (ContentFails e) => (Abrupt e, h)
  | _ => (Abrupt target_closed, h)
  end.

(** Cells of a line; no quoting. *)
Fixpoint split_on (sep : N) (s cur : jsstring) : list jsstring :=
  match s with
  | [] => [rev cur]
  | c :: r =>
    if c =? sep then rev cur :: split_on sep r []
    else split_on sep r (c :: cur)
  end.

Definition sim_csv (text : jsstring) : list Row * option JsError :=
  match split_on 10 text [] with
  | [] => ([], None)
  | header :: lines =>
    let columns := split_on 44 header [] in
    (List.map
       (fun line => list_to_map (zip columns (split_on 44 line [])))
       (List.filter (fun line => negb (str_eqb line [])) lines),
     None)
  end.

Definition sim_cookie_text (c : Cookie) : jsstring :=
  js "{" ++ dquote ++ js "name" ++ dquote ++ js ":" ++ dquote
  ++ cookie_name c ++ dquote ++ js "," ++ dquote ++ js "value" ++ dquote
  ++ js ":" ++ dquote ++ cookie_value c ++ dquote ++ js "," ++ dquote
  ++ js "domain" ++ dquote ++ js ":" ++ dquote ++ cookie_domain c
  ++ dquote ++ js "}".

Definition sim_stringify (cs : list Cookie) : jsstring :=
  js "[" ++ flat_map sim_cookie_text cs ++ js "]".

Definition session_cookie : Cookie :=
  mkCookie (js "sid") (js "s3cr3t") (js ".simplywall.st") (js "/")
    (-1) true true (Some (js "Lax")).
Definition tracker_cookie : Cookie :=
  mkCookie (js "_ga") (js "GA1.2") (js ".google.com") (js "/")
    1900000000 false false None.
Definition lookalike_cookie : Cookie :=
  mkCookie (js "sid") (js "stolen") (js "simplywall.st.evil.com") (js "/")
    (-1) false false None.

(** The cookie lists the scripted [JSON.parse] knows how to read back. *)
Definition sim_jars : list (list Cookie) :=
  [ []; [session_cookie]; [session_cookie; lookalike_cookie] ].

Definition sim_parse (text : jsstring) : Completion (list Cookie) :=
  match find (fun cs => str_eqb (sim_stringify cs) text) sim_jars with
  | Some cs => Normal cs
  | None => Abrupt unexpected_token
  end.

(** The directory a path lies in: what precedes its last [/], if it has
    one. *)
Fixpoint sim_parent (p : jsstring) : option jsstring :=
  match p with
  | [] => None
  | c :: r =>
    match sim_parent r with
    | Some d => Some (c :: d)
    | None => if c =? 47 then Some [] else None
    end
  end.

Definition ENOTDIR (p : jsstring) : JsError :=
  mkError (js "Error")
    (js "ENOTDIR: not a directory, open " ++ squote ++ p ++ squote).

(** The scripted operating system: a file is written in the working
    directory, in the root, or in a directory that exists. *)
Definition sim_fault (c : FsCall) (fs : gmap jsstring jsstring)
    (ds : gset jsstring) (h : Sim) : option JsError :=
  match sim_parent (fs_path c) with
  | None => None
  | Some [] => None
  | Some d =>
    if bool_decide (d ∈ ds) then None
    else match fs !! d with
         | Some _ => Some (ENOTDIR (fs_path c))
         | None => Some (ENOENT (fs_path c))
         end
  end.

#[export] Instance sim_host : Host Sim := {|
  puppeteer_launch := fun _ h => (Normal tt, h);
  browser_newPage := fun h => (Normal tt, h);
  page_goto := fun url _ _ h => sim_goto url h;
  page_cookies := fun h => (Normal (sim_jar h), h);
  page_setCookie := fun cs h =>
    (Normal tt,
     mkSim (sim_site h) (sim_page h) (sim_jar h ++ cs) (sim_clock h));
  page_content := sim_content;
  browser_close := fun h => (Normal tt, h);
  wait_timeout := fun ms h =>
    mkSim (sim_site h) (sim_page h) (sim_jar h) (sim_clock h + ms);
  Date_toISOString := fun _ => js "2025-03-01T09:30:00.000Z";
  csv := sim_csv;
  JSON_stringify := sim_stringify;
  JSON_parse := sim_parse;
  path_join := fun d n => d ++ js "/" ++ n;
  path_resolve := fun d n => d ++ js "/" ++ n;
  dirname := js "/srv/final_project";
  fs_fault := sim_fault
|}.

(** The manifest of three tickers, the second of which never loads. *)
Definition manifest_text : jsstring :=
  js "tickers,canonical_url" ++ newline
  ++ js "AAPL,/stocks/aapl" ++ newline
  ++ js " BAD ,/broken " ++ newline
  ++ js "MSFT,/stocks/msft" ++ newline.

Definition site : list (jsstring * Loading) :=
  [ (js "https://simplywall.st/login", Loads (js "<html>login</html>"));
    (js "https://simplywall.st/stocks/aapl", Loads (js "<html>AAPL</html>"));
    (js "https://simplywall.st/broken", GotoFails navigation_timeout);
    (js "https://simplywall.st/stocks/msft", Loads (js "<html>MSFT</html>")) ].

(** The same site with every page loading. *)
Definition site_up : list (jsstring * Loading) :=
  [ (js "https://simplywall.st/login", Loads (js "<html>login</html>"));
    (js "https://simplywall.st/stocks/aapl", Loads (js "<html>AAPL</html>"));
    (js "https://simplywall.st/broken", Loads (js "<html>BAD</html>"));
    (js "https://simplywall.st/stocks/msft", Loads (js "<html>MSFT</html>")) ].

(** The same site, the first page of which breaks while it is captured. *)
Definition site_flaky : list (jsstring * Loading) :=
  [ (js "https://simplywall.st/stocks/aapl", ContentFails target_closed);
    (js "https://simplywall.st/broken", GotoFails navigation_timeout);
    (js "https://simplywall.st/stocks/msft", Loads (js "<html>MSFT</html>")) ].

(** A machine before a run: the directory of the project is there. *)
Definition world_of (pages : list (jsstring * Loading))
    (jar : list Cookie) (fs : gmap jsstring jsstring) : World Sim :=
  mkWorld (mkSim pages None jar 0) fs {[ js "/srv/final_project" ]} [] [].

(** A machine with the manifest and a saved session. *)
Definition ready : gmap jsstring jsstring :=
  {[ CSV_FILE := manifest_text;
     COOKIES_FILE := sim_stringify [session_cookie] ]}.

(** A machine with the manifest, where login.js was never run. *)
Definition no_session : gmap jsstring jsstring :=
  {[ CSV_FILE := manifest_text ]}.

(** The rows of the manifest. *)
Definition example_rows : list Row := (sim_csv manifest_text).1.

Definition row_aapl : Row :=
  list_to_map [(js "tickers", js "AAPL");
               (js "canonical_url", js "/stocks/aapl")].
Definition row_bad : Row :=
  list_to_map [(js "tickers", js " BAD ");
               (js "canonical_url", js "/broken ")].
Definition row_msft : Row :=
  list_to_map [(js "tickers", js "MSFT");
               (js "canonical_url", js "/stocks/msft")].
(** A line with one cell only. *)
Definition row_short : Row := list_to_map [(js "tickers", js "TSLA")].

(** Before a batch, with a saved session. *)
Definition w_ready : World Sim := world_of site [] ready.
(** The same, every page of the site loading. *)
Definition w_ready_up : World Sim := world_of site_up [] ready.
(** Before a batch, login.js never run. *)
Definition w_no_session : World Sim := world_of site [] no_session.
(** Before login.js, the browser holding cookies of three sites. *)
Definition w_login : World Sim :=
  world_of site [session_cookie; tracker_cookie; lookalike_cookie] ∅.
(** Before login.js, the site unreachable and an older session saved. *)
Definition w_offline : World Sim :=
  world_of [] [session_cookie]
    {[ js "/srv/final_project/cookies.json" := sim_stringify [] ]}.
(** The steps before the loop done. *)
Definition w_begun : World Sim := (dumpHTML_begin w_ready).2.
(** In the loop, the first row done. *)
Definition w_after_aapl : World Sim := (dump_row row_aapl w_begun).2.
(** The [try] block of the second row has thrown. *)
Definition w_bad_thrown : World Sim :=
  (dump_try (js "BAD") (js "https://simplywall.st/broken") w_after_aapl).2.
(** After the batch. *)
Definition w_done : World Sim := (dumpHTML example_rows w_ready).2.

(** The scripted host with a CSV parser that gives up after the first row
    of any file. *)
Definition malformed_csv : JsError :=
  mkError (js "RangeError") (js "Row length does not match headers").

Definition sim_host_bad_csv : Host Sim := {|
  puppeteer_launch := fun _ h => (Normal tt, h);
  browser_newPage := fun h => (Normal tt, h);
  page_goto := fun url _ _ h => sim_goto url h;
  page_cookies := fun h => (Normal (sim_jar h), h);
  page_setCookie := fun cs h =>
    (Normal tt,
     mkSim (sim_site h) (sim_page h) (sim_jar h ++ cs) (sim_clock h));
  page_content := sim_content;
  browser_close := fun h => (Normal tt, h);
  wait_timeout := fun ms h =>
    mkSim (sim_site h) (sim_page h) (sim_jar h) (sim_clock h + ms);
  Date_toISOString := fun _ => js "2025-03-01T09:30:00.000Z";
  csv := fun text => (take 1 (sim_csv text).1, Some malformed_csv);
  JSON_stringify := sim_stringify;
  JSON_parse := sim_parse;
  path_join := fun d n => d ++ js "/" ++ n;
  path_resolve := fun d n => d ++ js "/" ++ n;
  dirname := js "/srv/final_project";
  fs_fault := sim_fault
|}.

(** Before a batch, [cookies.json] holding something else than JSON. *)
Definition w_bad_session : World Sim :=
  world_of site []
    {[ CSV_FILE := manifest_text; COOKIES_FILE := js "<html>login</html>" ]}.
(** Before a batch, with a session and no manifest. *)
Definition w_no_manifest : World Sim :=
  world_of site [] {[ COOKIES_FILE := sim_stringify [session_cookie] ]}.
(** Before a batch, the manifest holding its header only. *)
Definition w_empty_manifest : World Sim :=
  world_of site []
    {[ CSV_FILE := js "tickers,canonical_url" ++ newline;
       COOKIES_FILE := sim_stringify [session_cookie] ]}.
(** Before login.js, nobody logged in (the browser holds a tracker's cookie
    only) and the session of an earlier run saved. *)
Definition w_logged_out : World Sim :=
  world_of site [tracker_cookie]
    {[ js "/srv/final_project/cookies.json" := sim_stringify [session_cookie] ]}.
(** The first row again, with white space around its cells and one more
    column. *)
Definition row_aapl_spaced : Row :=
  list_to_map [(js "tickers", [9] ++ js " AAPL " ++ [13]);
               (js "canonical_url", js "  /stocks/aapl");
               (js "name", js "Apple Inc.")].
(** A row for the ticker of the first row and another page. *)
Definition row_aapl_again : Row :=
  list_to_map [(js "tickers", js "AAPL");
               (js "canonical_url", js "/stocks/msft")].

(** The browser of [w_begun] with the first page loaded. *)
Definition h_aapl_loaded : Sim :=
  (sim_goto (js "https://simplywall.st/stocks/aapl") (host w_begun)).2.

(** Before a batch, [errors.log] being a directory. *)
Definition w_log_is_directory : World Sim :=
  mkWorld (mkSim site None [] 0) ready
    {[ js "/srv/final_project"; ERROR_LOG ]} [] [].
(** The same, in the loop, the first row done. *)
Definition w_log_is_directory_after_aapl : World Sim :=
  (dump_row row_aapl (dumpHTML_begin w_log_is_directory).2).2.
(** Before a batch, with a session, the path of the manifest being a
    directory. *)
Definition w_manifest_is_directory : World Sim :=
  mkWorld (mkSim site None [] 0)
    {[ COOKIES_FILE := sim_stringify [session_cookie] ]}
    {[ js "/srv/final_project"; CSV_FILE ]} [] [].
(** A row whose ticker has a slash in it. *)
Definition row_brk : Row :=
  list_to_map [(js "tickers", js "BRK/B");
               (js "canonical_url", js "/stocks/msft")].
(** The browser of [w_logged_out] with the login page loaded. *)
Definition h_login_loaded : Sim :=
  (sim_goto LOGIN_URL (host w_logged_out)).2.

End Scripted.
Export Scripted.


(* ===================================================================== *)
(** ** Strings *)
(* ===================================================================== *)

Lemma startsWith_spec s p :
  startsWith s p = true <-> exists b, s = p ++ b.
Proof.
  revert s. induction p as [|a p IH]; intros s; simpl.
  - split; [intros _; by exists s | done].
  - destruct s as [|b s].
    + split; [done | intros [? ?]; discriminate].
    + rewrite andb_true_iff, N.eqb_eq, IH. split.
      * intros [-> [r ->]]. by exists r.
      * intros [r Hr]. injection Hr as -> ->. eauto.
Qed.

Lemma includes_spec s p :
  includes s p = true <-> exists a b, s = a ++ p ++ b.
Proof.
  induction s as [|c s IH].
  - simpl. rewrite orb_false_r, startsWith_spec. split.
    + intros [b Hb]. by exists [], b.
    + intros (a & b & Hab). destruct a; [by exists b|discriminate].
  - cbn [includes]. rewrite orb_true_iff, startsWith_spec, IH. split.
    + intros [[b Hb] | (a & b & ->)]; [by exists [], b | by exists (c :: a), b].
    + intros (a & b & Hab). destruct a as [|c' a].
      * left. by exists b.
      * right. injection Hab as -> ->. by exists a, b.
Qed.

Lemma endsWith_spec s p :
  endsWith s p = true <-> exists a, s = a ++ p.
Proof.
  unfold endsWith. rewrite startsWith_spec. split.
  - intros [b Hb]. exists (rev b).
    rewrite <- (rev_involutive s), Hb, rev_app_distr. by rewrite rev_involutive.
  - intros [a ->]. exists (rev a). by rewrite rev_app_distr.
Qed.

(** A domain that ends with the pattern contains it. *)
Lemma endsWith_includes s p : endsWith s p = true -> includes s p = true.
Proof.
  rewrite endsWith_spec, includes_spec. intros [a ->].
  exists a, []. by rewrite app_nil_r.
Qed.

Lemma trimStart_spec s :
  exists l, s = l ++ trimStart s /\ all_spaces l
            /\ forall c, head (trimStart s) = Some c -> is_space c = false.
Proof.
  induction s as [|c s (l & Hs & Hl & Hh)]; simpl.
  - exists []. split; [done|]. split; [constructor | done].
  - destruct (is_space c) eqn:Hc.
    + exists (c :: l). split; [simpl; congruence|]. split; [by constructor | done].
    + exists []. split; [done|]. split; [constructor |].
      simpl. intros c' [= <-]. done.
Qed.

Lemma trimEnd_spec s :
  exists r, s = trimEnd s ++ r /\ all_spaces r
            /\ forall c, last (trimEnd s) = Some c -> is_space c = false.
Proof.
  unfold trimEnd. destruct (trimStart_spec (rev s)) as (l & Hs & Hl & Hh).
  exists (rev l). repeat split.
  - rewrite <- rev_app_distr, <- Hs. by rewrite rev_involutive.
  - by apply List.Forall_rev.
  - intros c Hc. apply Hh. rewrite <- Hc.
    rewrite <- (rev_involutive (trimStart (rev s))) at 1.
    generalize (rev (trimStart (rev s))). intros x.
    rewrite <- (rev_involutive x) at 2.
    destruct (rev x) as [|a y]; [done|].
    simpl. by rewrite last_snoc.
Qed.

(** [trim] removes white space, and only white space, from both ends. *)
Lemma trim_spec s :
  exists l r, s = l ++ trim s ++ r /\ all_spaces l /\ all_spaces r
              /\ stripped (trim s).
Proof.
  unfold trim.
  destruct (trimStart_spec s) as (l & Hs & Hl & Hh).
  destruct (trimEnd_spec (trimStart s)) as (r & Hr & Hr' & Hlast).
  exists l, r. repeat split; [by rewrite <- Hr | done | done | | done].
  intros c Hc. apply Hh. rewrite Hr.
  destruct (trimEnd (trimStart s)); [done | by simpl in *].
Qed.

(* ===================================================================== *)
(** ** Traces and loops *)
(* ===================================================================== *)

Arguments js : simpl never.
Arguments trim : simpl never.

Lemma gotos_app tr1 tr2 : gotos (tr1 ++ tr2) = gotos tr1 ++ gotos tr2.
Proof. apply flat_map_app. Qed.

Lemma writes_app tr1 tr2 : writes (tr1 ++ tr2) = writes tr1 ++ writes tr2.
Proof. apply flat_map_app. Qed.

Lemma appends_app tr1 tr2 : appends (tr1 ++ tr2) = appends tr1 ++ appends tr2.
Proof. apply flat_map_app. Qed.

Lemma push_all_id emitted : push_all emitted = emitted.
Proof.
  unfold push_all.
  enough (forall acc, fold_left (fun rows row => rows ++ [row]) emitted acc
                      = acc ++ emitted) as Hacc by apply (Hacc []).
  induction emitted as [|row rest IH]; intros acc; simpl.
  - by rewrite app_nil_r.
  - by rewrite IH, <- app_assoc.
Qed.

Section Steps.
Context {E : Type} `{Host E}.
Implicit Types (w : World E).

Lemma bind_inv {A B} (m : M E A) (k : A -> M E B) w r w' :
  bind m k w = (r, w') ->
  (exists a w1, m w = (Ok a, w1) /\ k a w1 = (r, w'))
  \/ (exists e, m w = (Throw e, w') /\ r = Throw e)
  \/ (exists e, m w = (Uncaught e, w') /\ r = Uncaught e).
Proof.
  unfold bind. destruct (m w) as [[a|e|e] w1]; intros Hrun.
  - left. by exists a, w1.
  - right. left. injection Hrun as <- <-. by exists e.
  - right. right. injection Hrun as <- <-. by exists e.
Qed.

Lemma bind_ok {A B} (m : M E A) (k : A -> M E B) w a w1 :
  m w = (Ok a, w1) -> bind m k w = k a w1.
Proof. intros Hm. unfold bind. by rewrite Hm. Qed.

Lemma bind_throw {A B} (m : M E A) (k : A -> M E B) w e w1 :
  m w = (Throw e, w1) -> bind m k w = (Throw e, w1).
Proof. intros Hm. unfold bind. by rewrite Hm. Qed.

Lemma call_normal {A} ev (f : E -> Completion A * E) w a h :
  f (host w) = (Normal a, h) ->
  call ev f w
  = (Ok a, mkWorld h (files w) (dirs w) (console w) (trace w ++ [ev])).
Proof. intros Hf. unfold call. by rewrite Hf. Qed.

Lemma call_abrupt {A} ev (f : E -> Completion A * E) w e h :
  f (host w) = (Abrupt e, h) ->
  call ev f w
  = (Throw e, mkWorld h (files w) (dirs w) (console w) (trace w ++ [ev])).
Proof. intros Hf. unfold call. by rewrite Hf. Qed.

Lemma call_inv {A} ev (f : E -> Completion A * E) w r w' :
  call ev f w = (r, w') ->
  files w' = files w /\ dirs w' = dirs w /\ console w' = console w
  /\ trace w' = trace w ++ [ev]
  /\ ((exists a, r = Ok a /\ f (host w) = (Normal a, host w'))
      \/ (exists e, r = Throw e /\ f (host w) = (Abrupt e, host w'))).
Proof.
  unfold call. destruct (f (host w)) as [[a|e] h]; cbn; intros [= <- <-];
    cbn; repeat split; [left; by exists a | right; by exists e].
Qed.

Lemma console_print_run s args w :
  console_print s args w
  = (Ok tt,
     mkWorld (host w) (files w) (dirs w) (console w ++ [(s, args)]) (trace w)).
Proof. reflexivity. Qed.

Lemma console_log_run args w :
  console_log args w
  = (Ok tt,
     mkWorld (host w) (files w) (dirs w) (console w ++ [(Stdout, args)])
       (trace w)).
Proof. reflexivity. Qed.

Lemma writeFileSync_returns p data w :
  fs_error (FsWrite p data) (files w) (dirs w) (host w) = None ->
  writeFileSync p data w
  = (Ok tt,
     mkWorld (host w) (<[p := data]> (files w)) (dirs w) (console w)
       (trace w ++ [EvWriteFile p data])).
Proof. intros Hok. unfold writeFileSync. by rewrite Hok. Qed.


Lemma appendFileSync_returns p data w :
  fs_error (FsAppend p data) (files w) (dirs w) (host w) = None ->
  appendFileSync p data w
  = (Ok tt,
     mkWorld (host w) (<[p := default [] (files w !! p) ++ data]> (files w))
       (dirs w) (console w) (trace w ++ [EvAppendFile p data])).
Proof. intros Hok. unfold appendFileSync. by rewrite Hok. Qed.

Lemma appendFileSync_throws p data w e :
  fs_error (FsAppend p data) (files w) (dirs w) (host w) = Some e ->
  appendFileSync p data w
  = (Throw e,
     mkWorld (host w) (files w) (dirs w) (console w)
       (trace w ++ [EvAppendFileThrew p data e])).
Proof. intros Hno. unfold appendFileSync. by rewrite Hno. Qed.

(** A write to a path that is a directory throws, whatever the operating
    system would say of it. *)
Lemma fs_error_directory c fs ds (h : E) :
  fs_path c ∈ ds -> fs_error c fs ds h = Some (EISDIR_open (fs_path c)).
Proof. intros Hdir. unfold fs_error. by rewrite bool_decide_eq_true_2. Qed.

Lemma existsSync_run p w :
  existsSync p w
  = (Ok (exists_in (files w) (dirs w) p),
     mkWorld (host w) (files w) (dirs w) (console w)
       (trace w ++ [EvExists p])).
Proof. reflexivity. Qed.

End Steps.

Section Loop.
Context {E A : Type}.
Implicit Types (body : A -> M E unit) (w : World E).

Lemma for_of_app_ok xs ys body w w' :
  for_of xs body w = (Ok tt, w') ->
  for_of (xs ++ ys) body w = for_of ys body w'.
Proof.
  revert w. induction xs as [|x xs IH]; intros w; simpl.
  - by intros [= ->].
  - unfold bind. destruct (body x w) as [[[]|e|e] w1]; [apply IH | done | done].
Qed.

Lemma for_of_app_throw xs ys body w w' e :
  for_of xs body w = (Throw e, w') ->
  for_of (xs ++ ys) body w = (Throw e, w').
Proof.
  revert w. induction xs as [|x xs IH]; intros w; simpl.
  - done.
  - unfold bind. destruct (body x w) as [[[]|e'|e'] w1]; [apply IH | done | done].
Qed.

Lemma for_of_app_uncaught xs ys body w w' e :
  for_of xs body w = (Uncaught e, w') ->
  for_of (xs ++ ys) body w = (Uncaught e, w').
Proof.
  revert w. induction xs as [|x xs IH]; intros w; simpl.
  - done.
  - unfold bind. destruct (body x w) as [[[]|e'|e'] w1]; [apply IH | done | done].
Qed.

Lemma for_of_cons_ok x xs body w w' :
  body x w = (Ok tt, w') -> for_of (x :: xs) body w = for_of xs body w'.
Proof. intros Hx. simpl. unfold bind. by rewrite Hx. Qed.

Lemma for_of_cons_throw x xs body w w' e :
  body x w = (Throw e, w') -> for_of (x :: xs) body w = (Throw e, w').
Proof. intros Hx. simpl. unfold bind. by rewrite Hx. Qed.

End Loop.

(* ===================================================================== *)
(** ** One iteration of the download loop *)
(* ===================================================================== *)

Section Iteration.
Context {E : Type} `{Host E}.
Implicit Types (w : World E) (row : Row).

(** The [try] block, whatever the host does: either the page is captured
    and written, or the navigation, the capture or the write throws and no
    file has changed. *)
Lemma dump_try_cases ticker fullUrl w :
  (exists html w',
      dump_try ticker fullUrl w = (Ok tt, w')
      /\ files w' = <[htmlPath ticker := html]> (files w)
      /\ dirs w' = dirs w
      /\ trace w' = trace w ++ [EvGoto fullUrl networkidle2 60000;
                                EvTimeout 5000; EvContent;
                                EvWriteFile (htmlPath ticker) html])
  \/ (exists e w' rest,
      dump_try ticker fullUrl w = (Throw e, w')
      /\ files w' = files w
      /\ dirs w' = dirs w
      /\ trace w' = trace w ++ EvGoto fullUrl networkidle2 60000 :: rest
      /\ thrown_after ticker (err_message e) rest).
Proof.
  unfold dump_try, bind, console_log, console_print, goto, setTimeout,
    content, writeFileSync, call. cbn.
  destruct (page_goto fullUrl networkidle2 60000 (host w))
    as [[[]|e] h1] eqn:Hgoto; cbn.
  - destruct (page_content (wait_timeout 5000 h1)) as [[html|e] h2] eqn:Hc;
      cbn.
    + destruct (fs_error (FsWrite (htmlPath ticker) html) (files w) (dirs w) h2)
        as [e|] eqn:Hw.
      * right. eexists _, _, _. split; [reflexivity|]. cbn.
        repeat split; [by rewrite <- !app_assoc | constructor].
      * left. eexists _, _. split; [reflexivity|]. cbn.
        repeat split. by rewrite <- !app_assoc.
    + right. eexists _, _, _. split; [reflexivity|]. cbn.
      repeat split; [by rewrite <- !app_assoc | constructor].
  - right. eexists _, _, []. split; [reflexivity|]. cbn.
    repeat split. constructor.
Qed.

(** The [try] block throws when the navigation does, and when the capture
    of the content does. *)
Lemma dump_try_throws ticker fullUrl w e h :
  page_goto fullUrl networkidle2 60000 (host w) = (Abrupt e, h)
  \/ (exists h1,
        page_goto fullUrl networkidle2 60000 (host w) = (Normal tt, h1)
        /\ page_content (wait_timeout 5000 h1) = (Abrupt e, h)) ->
  exists wt,
    dump_try ticker fullUrl w = (Throw e, wt) /\ host wt = h
    /\ files wt = files w /\ dirs wt = dirs w.
Proof.
  intros Hfail. unfold dump_try.
  rewrite (bind_ok _ _ _ _ _ (console_log_run _ _)).
  destruct Hfail as [Hgoto | (h1 & Hgoto & Hcontent)].
  - erewrite bind_throw by (apply call_abrupt; exact Hgoto). by eexists.
  - erewrite bind_ok by (apply call_normal; exact Hgoto).
    erewrite bind_ok by (by apply call_normal).
    erewrite bind_throw by (apply call_abrupt; exact Hcontent). by eexists.
Qed.

(** The [catch] block: the line is appended, or the append throws and the
    block throws with it. *)
Lemma dump_catch_cases ticker e w :
  let line := logMsg (Date_toISOString (host w)) ticker (err_message e) in
  exists w',
    host w' = host w /\ dirs w' = dirs w
    /\ ((fs_error (FsAppend ERROR_LOG line) (files w) (dirs w) (host w) = None
         /\ dump_catch ticker e w = (Ok tt, w')
         /\ files w' = <[ERROR_LOG := error_log w ++ line]> (files w)
         /\ trace w' = trace w ++ [EvDate; EvAppendFile ERROR_LOG line])
        \/ (exists e',
         fs_error (FsAppend ERROR_LOG line) (files w) (dirs w) (host w)
         = Some e'
         /\ dump_catch ticker e w = (Throw e', w')
         /\ files w' = files w
         /\ trace w' = trace w ++ [EvDate; EvAppendFileThrew ERROR_LOG line e'])).
Proof.
  intros line. unfold dump_catch, logError, bind, console_error,
    console_print, toISOString, call, appendFileSync. cbn. fold line.
  destruct (fs_error (FsAppend ERROR_LOG line) (files w) (dirs w) (host w))
    as [e'|] eqn:Ha.
  - eexists. split; [|split]; [| |right; exists e'; split; [done|];
      split; [reflexivity|]]; cbn; [done..|].
    split; [done | by rewrite <- app_assoc].
  - eexists. split; [|split]; [| |left; split; [done|];
      split; [reflexivity|]]; cbn; [done..|].
    split; [done | by rewrite <- app_assoc].
Qed.

(** A row with both columns, whatever the host does: the iteration writes
    the page; or it appends one line to the error log; or the append throws,
    and the iteration with it, no file having changed. *)
Lemma dump_row_complete row cell1 cell2 w :
  row !! js "tickers" = Some cell1 ->
  row !! js "canonical_url" = Some cell2 ->
  exists r w' block,
    dump_row row w = (r, w')
    /\ dirs w' = dirs w
    /\ trace w' = trace w ++ block
    /\ ((r = Ok tt
         /\ exists html,
          block = [EvGoto (BASE_URL ++ trim cell2) networkidle2 60000;
                   EvTimeout 5000; EvContent;
                   EvWriteFile (htmlPath (trim cell1)) html]
          /\ files w' = <[htmlPath (trim cell1) := html]> (files w))
        \/ (r = Ok tt
         /\ exists rest now message,
          thrown_after (trim cell1) message rest
          /\ block = EvGoto (BASE_URL ++ trim cell2) networkidle2 60000
                       :: rest
                       ++ [EvDate;
                           EvAppendFile ERROR_LOG
                             (logMsg now (trim cell1) message)]
          /\ files w'
             = <[ERROR_LOG := error_log w
                              ++ logMsg now (trim cell1) message]>
                 (files w))
        \/ (exists e rest now message,
          r = Throw e
          /\ thrown_after (trim cell1) message rest
          /\ block = EvGoto (BASE_URL ++ trim cell2) networkidle2 60000
                       :: rest
                       ++ [EvDate;
                           EvAppendFileThrew ERROR_LOG
                             (logMsg now (trim cell1) message) e]
          /\ files w' = files w)).
Proof.
  intros H1 H2. unfold dump_row, trimmed, bind, ret. rewrite H1, H2.
  unfold try_catch.
  destruct (dump_try_cases (trim cell1) (BASE_URL ++ trim cell2) w)
    as [(html & w' & -> & Hf & Hd & Ht)
       |(e & wt & rest & -> & Hf & Hd & Ht & Hrest)].
  - exists (Ok tt), w'. eexists. split; [done|]. split; [done|].
    split; [exact Ht|]. left. split; [done|]. by exists html.
  - destruct (dump_catch_cases (trim cell1) e wt)
      as (w' & Hh & Hd' & [(_ & -> & Hf' & Ht')|(e' & _ & -> & Hf' & Ht')]).
    + exists (Ok tt), w'. eexists. split; [done|]. split; [congruence|].
      split; [rewrite Ht', Ht, <- app_assoc; reflexivity|].
      right. left. split; [done|].
      exists rest, (Date_toISOString (host wt)), (err_message e).
      split; [done|]. split; [done|].
      rewrite Hf'. unfold error_log. by rewrite Hf.
    + exists (Throw e'), w'. eexists. split; [done|]. split; [congruence|].
      split; [rewrite Ht', Ht, <- app_assoc; reflexivity|].
      right. right.
      exists e', rest, (Date_toISOString (host wt)), (err_message e).
      split; [done|]. split; [done|]. split; [done|]. congruence.
Qed.

(** A row whose [try] block throws, where the error log can be appended to:
    the [catch] block appends its line and the iteration ends normally. *)
Lemma dump_row_failed row cell1 cell2 w wt e :
  row !! js "tickers" = Some cell1 ->
  row !! js "canonical_url" = Some cell2 ->
  dump_try (trim cell1) (BASE_URL ++ trim cell2) w = (Throw e, wt) ->
  fs_error
    (FsAppend ERROR_LOG
       (logMsg (Date_toISOString (host wt)) (trim cell1) (err_message e)))
    (files w) (dirs w) (host wt) = None ->
  exists w' block,
    dump_row row w = (Ok tt, w')
    /\ trace w' = trace w ++ block
    /\ appends block
       = [(ERROR_LOG,
           logMsg (Date_toISOString (host wt)) (trim cell1) (err_message e))]
    /\ writes block = []
    /\ gotos block = [BASE_URL ++ trim cell2]
    /\ files w'
       = <[ERROR_LOG := error_log w
             ++ logMsg (Date_toISOString (host wt)) (trim cell1)
                  (err_message e)]> (files w).
Proof.
  intros H1 H2 Htry Happend.
  destruct (dump_try_cases (trim cell1) (BASE_URL ++ trim cell2) w)
    as [(html & w' & Hok & _)
       |(e' & wt' & rest & Hthrow & Hf & Hd & Ht & Hrest)];
    [congruence|].
  rewrite Htry in Hthrow. injection Hthrow as <- <-.
  destruct (dump_catch_cases (trim cell1) e wt)
    as (w' & Hh & Hd' & [(_ & Hcatch & Hf' & Ht')|(e' & Hno & _)]);
    [|rewrite Hf, Hd in Hno; congruence].
  exists w'. eexists.
  split; [unfold dump_row, trimmed, bind, ret; rewrite H1, H2;
          unfold try_catch; by rewrite Htry|].
  split; [rewrite Ht', Ht, <- app_assoc; reflexivity|].
  split; [rewrite appends_app; by destruct Hrest|].
  split; [rewrite writes_app; by destruct Hrest|].
  split; [rewrite gotos_app; by destruct Hrest|].
  rewrite Hf'. unfold error_log. by rewrite Hf.
Qed.

(** A row whose [try] block throws, where the append to the error log
    throws: the exception of the append leaves the iteration, and no file has
    changed. *)
Lemma dump_row_unlogged row cell1 cell2 w wt e e' :
  row !! js "tickers" = Some cell1 ->
  row !! js "canonical_url" = Some cell2 ->
  dump_try (trim cell1) (BASE_URL ++ trim cell2) w = (Throw e, wt) ->
  fs_error
    (FsAppend ERROR_LOG
       (logMsg (Date_toISOString (host wt)) (trim cell1) (err_message e)))
    (files w) (dirs w) (host wt) = Some e' ->
  exists w' block,
    dump_row row w = (Throw e', w')
    /\ trace w' = trace w ++ block
    /\ appends block = []
    /\ writes block = []
    /\ gotos block = [BASE_URL ++ trim cell2]
    /\ files w' = files w.
Proof.
  intros H1 H2 Htry Happend.
  destruct (dump_try_cases (trim cell1) (BASE_URL ++ trim cell2) w)
    as [(html & w' & Hok & _)
       |(e0 & wt' & rest & Hthrow & Hf & Hd & Ht & Hrest)];
    [congruence|].
  rewrite Htry in Hthrow. injection Hthrow as <- <-.
  destruct (dump_catch_cases (trim cell1) e wt)
    as (w' & Hh & Hd' & [(Hok & _)|(e1 & Hno & Hcatch & Hf' & Ht')]);
    [rewrite Hf, Hd in Hok; congruence|].
  rewrite Hf, Hd, Happend in Hno. injection Hno as <-.
  exists w'. eexists.
  split; [unfold dump_row, trimmed, bind, ret; rewrite H1, H2;
          unfold try_catch; by rewrite Htry|].
  split; [rewrite Ht', Ht, <- app_assoc; reflexivity|].
  split; [rewrite appends_app; by destruct Hrest|].
  split; [rewrite writes_app; by destruct Hrest|].
  split; [rewrite gotos_app; by destruct Hrest|].
  congruence.
Qed.

Lemma dump_row_iteration row cell1 cell2 w :
  row !! js "tickers" = Some cell1 ->
  row !! js "canonical_url" = Some cell2 ->
  exists r w' block,
    dump_row row w = (r, w')
    /\ dirs w' = dirs w
    /\ trace w' = trace w ++ block
    /\ ((r = Ok tt /\ iteration (trim cell1) (BASE_URL ++ trim cell2) block)
        \/ (exists e,
              r = Throw e
              /\ aborted (trim cell1) (BASE_URL ++ trim cell2) e block))
    /\ ((forall t, htmlPath t <> ERROR_LOG) ->
        error_log w' = error_log w ++ flat_map snd (appends block)).
Proof.
  intros H1 H2.
  destruct (dump_row_complete row cell1 cell2 w H1 H2)
    as (r & w' & block & Hrun & Hd & Ht & Hcases).
  exists r, w', block. repeat (split; [done|]).
  destruct Hcases as [(-> & html & -> & Hf)
                     |[(-> & rest & now & msg & Hrest & -> & Hf)
                      |(e & rest & now & msg & -> & Hrest & -> & Hf)]].
  - split; [left; split; [done | constructor]|].
    intros Hjoin. unfold error_log at 1.
    rewrite Hf, lookup_insert_ne by apply Hjoin.
    cbn [appends flat_map app snd]. by rewrite app_nil_r.
  - split; [left; split; [done | by constructor]|].
    intros _. unfold error_log at 1.
    rewrite Hf, lookup_insert_eq.
    destruct Hrest; cbn [appends flat_map app snd default];
      by rewrite app_nil_r.
  - split; [right; exists e; split; [done | by constructor]|].
    intros _. unfold error_log at 1. rewrite Hf.
    destruct Hrest; cbn [appends flat_map app snd default];
      by rewrite app_nil_r.
Qed.

(** A row without one of the two columns: [.trim()] of [undefined] throws
    before the [try], and nothing else has happened. *)
Lemma dump_row_incomplete row w :
  ~ complete row -> dump_row row w = (Throw trim_of_undefined, w).
Proof.
  intros Hrow. unfold dump_row, trimmed, bind, ret, throw.
  destruct (row !! js "tickers") as [cell1|] eqn:H1; [|done].
  destruct (row !! js "canonical_url") as [cell2|] eqn:H2; [|done].
  destruct Hrow. split; by eexists.
Qed.

Lemma complete_dec row : {complete row} + {~ complete row}.
Proof.
  unfold complete.
  destruct (row !! js "tickers"), (row !! js "canonical_url");
    first [left; split; by eexists
          | right; intros [[? ?] [? ?]]; discriminate].
Qed.


Lemma aborted_gotos ticker fullUrl e block :
  aborted ticker fullUrl e block -> gotos block = [fullUrl].
Proof. intros [rest now msg []]; reflexivity. Qed.

Lemma aborted_silent ticker fullUrl e block :
  aborted ticker fullUrl e block -> writes block = [] /\ appends block = [].
Proof. intros [rest now msg []]; by split. Qed.

(** An iteration that ran to its end has written one file or appended one
    line. *)
Lemma iteration_counts ticker fullUrl block :
  iteration ticker fullUrl block ->
  (length (writes block) + length (appends block) = 1)%nat.
Proof. intros [html | rest now msg []]; reflexivity. Qed.

End Iteration.

(* ===================================================================== *)
(** ** Steps that neither navigate nor write *)
(* ===================================================================== *)

Section Quiet.
Context {E : Type} `{Host E}.

Lemma silent_nil : silent [].
Proof. by repeat split. Qed.

Lemma silent_app evs1 evs2 : silent evs1 -> silent evs2 -> silent (evs1 ++ evs2).
Proof.
  intros (G1 & W1 & A1) (G2 & W2 & A2). unfold silent.
  by rewrite gotos_app, writes_app, appends_app, G1, G2, W1, W2, A1, A2.
Qed.

Lemma quiet_ret {A} (a : A) : quiet (ret (E:=E) a).
Proof.
  intros w. split; [done|]. exists []. split; [by rewrite app_nil_r|].
  apply silent_nil.
Qed.

Lemma quiet_throw {A} e : quiet (throw (E:=E) (A:=A) e).
Proof.
  intros w. split; [done|]. exists []. split; [by rewrite app_nil_r|].
  apply silent_nil.
Qed.

Lemma quiet_eval {A} (c : Completion A) : quiet (eval (E:=E) c).
Proof.
  intros w. split; [done|]. exists []. split; [by rewrite app_nil_r|].
  apply silent_nil.
Qed.

Lemma quiet_console s args : quiet (console_print (E:=E) s args).
Proof.
  intros w. split; [done|]. exists []. split; [by rewrite app_nil_r|].
  apply silent_nil.
Qed.

Lemma quiet_call {A} ev (f : E -> Completion A * E) :
  silent [ev] -> quiet (call ev f).
Proof. intros Hev w. split; [done|]. by exists [ev]. Qed.

Lemma quiet_bind {A B} (m : M E A) (k : A -> M E B) :
  quiet m -> (forall a, quiet (k a)) -> quiet (bind m k).
Proof.
  intros Hm Hk w. unfold bind. destruct (Hm w) as (Hf & evs & Ht & Hs).
  destruct (m w) as [[a|e|e] w1]; simpl in *;
    [|split; [done | by exists evs] ..].
  destruct (Hk a w1) as (Hf' & evs' & Ht' & Hs').
  split; [congruence|]. exists (evs ++ evs').
  split; [by rewrite Ht', Ht, app_assoc | by apply silent_app].
Qed.

Lemma quiet_if {A} (b : bool) (m1 m2 : M E A) :
  quiet m1 -> quiet m2 -> quiet (if b then m1 else m2).
Proof. by destruct b. Qed.

Lemma quiet_existsSync p : quiet (existsSync (E:=E) p).
Proof. intros w. split; [done|]. by exists [EvExists p]. Qed.

Lemma quiet_mkdirSync p : quiet (mkdirSync (E:=E) p).
Proof.
  intros w. unfold mkdirSync, fs_step. cbn.
  split; [by destruct (exists_in _ _ _) | by exists [EvMkdir p]].
Qed.

Lemma quiet_readFileSync p : quiet (readFileSync (E:=E) p).
Proof.
  intros w. unfold readFileSync, fs_step. cbn.
  split; [by destruct (files w !! p) | by exists [EvReadFile p]].
Qed.

Lemma quiet_applyCookies : quiet applyCookies.
Proof.
  unfold applyCookies.
  repeat first
    [ apply quiet_existsSync | apply quiet_readFileSync | apply quiet_eval
    | apply quiet_throw | apply quiet_ret | apply quiet_console
    | by apply quiet_call | apply quiet_if | apply quiet_bind; [|intros ?] ].
Qed.

Lemma quiet_dumpHTML_begin : quiet dumpHTML_begin.
Proof.
  unfold dumpHTML_begin.
  repeat first
    [ apply quiet_applyCookies | apply quiet_existsSync
    | apply quiet_mkdirSync | apply quiet_ret | by apply quiet_call
    | apply quiet_if | apply quiet_bind; [|intros ?] ].
Qed.

Lemma quiet_readCSV : quiet readCSV.
Proof.
  intros w. unfold readCSV.
  destruct (files w !! CSV_FILE) as [text|];
    [destruct (csv text).2|]; (split; [done|]);
    by exists [EvCreateReadStream CSV_FILE].
Qed.

End Quiet.

(* ===================================================================== *)
(** ** The download loop and the whole batch *)
(* ===================================================================== *)

Section Batch.
Context {E : Type} `{Host E}.
Implicit Types (w : World E) (row : Row) (rows : list Row).

Lemma visit_of_complete row block : visit_of row block -> complete row.
Proof. intros (c1 & c2 & H1 & H2 & _). split; by eexists. Qed.

(** The loop, whatever the rows and the host: it runs the rows in order,
    each in one block of events, to the last row; or to the first row that
    lacks a column, where it throws; or to the first row whose line the error
    log does not take, where it throws what the append threw. *)
Lemma loop_run rows w :
  exists r w' visited blocks tail,
    for_of rows dump_row w = (r, w')
    /\ dirs w' = dirs w
    /\ trace w' = trace w ++ concat blocks ++ tail
    /\ Forall2 visit_of visited blocks
    /\ ((forall t, htmlPath t <> ERROR_LOG) ->
        error_log w'
        = error_log w ++ flat_map snd (appends (concat blocks)))
    /\ loop_end rows r visited tail.
Proof.
  revert w. induction rows as [|row rows IH]; intros w.
  - exists (Ok tt), w, [], [], []. simpl. rewrite !app_nil_r.
    repeat split; [constructor | by left].
  - destruct (complete_dec row) as [[[c1 H1] [c2 H2]] | Hrow].
    + destruct (dump_row_iteration row c1 c2 w H1 H2)
        as (r1 & w1 & block & Hrun & Hd & Ht & Hit & Hlog1).
      destruct Hit as [[-> Hit] | (e & -> & Hab)].
      * destruct (IH w1) as (r & w' & visited & blocks & tail
                             & Hloop & Hd' & Ht' & Hv & Hlog & Hr).
        exists r, w', (row :: visited), (block :: blocks), tail.
        split; [by rewrite (for_of_cons_ok _ _ _ _ _ Hrun)|].
        split; [congruence|].
        split; [simpl; by rewrite Ht', Ht, <- !app_assoc|].
        split; [constructor; [by exists c1, c2 | done]|].
        split.
        -- intros Hjoin. rewrite (Hlog Hjoin), (Hlog1 Hjoin). simpl.
           by rewrite appends_app, flat_map_app, app_assoc.
        -- destruct Hr as [(-> & -> & ->)
                          |[(-> & -> & row' & rest & -> & Hrow')
                           |(e & row' & rest & -> & -> & Hab)]].
           ++ by left.
           ++ right. left. repeat split. by exists row', rest.
           ++ right. right. by exists e, row', rest.
      * exists (Throw e), w1, [], [], block.
        split; [by apply for_of_cons_throw|].
        split; [done|]. split; [done|]. split; [constructor|].
        split.
        -- intros Hjoin. rewrite (Hlog1 Hjoin).
           destruct (aborted_silent _ _ _ _ Hab) as [_ ->]. done.
        -- right. right. exists e, row, rows. repeat split.
           by exists c1, c2.
    + exists (Throw trim_of_undefined), w, [], [], [].
      split; [by apply for_of_cons_throw, dump_row_incomplete|].
      simpl. rewrite !app_nil_r. repeat split; [constructor|].
      right. left. repeat split. by exists row, rows.
Qed.

(** A loop that returns has run every row. *)
Lemma loop_returned rows w w' :
  for_of rows dump_row w = (Ok tt, w') ->
  exists blocks,
    trace w' = trace w ++ concat blocks
    /\ Forall2 visit_of rows blocks
    /\ dirs w' = dirs w
    /\ ((forall t, htmlPath t <> ERROR_LOG) ->
        error_log w'
        = error_log w ++ flat_map snd (appends (concat blocks))).
Proof.
  intros Hrun.
  destruct (loop_run rows w) as (r & w1 & visited & blocks & tail
                                 & Hloop & Hd & Ht & Hv & Hlog & Hr).
  rewrite Hrun in Hloop. injection Hloop as <- <-.
  destruct Hr as [(_ & -> & ->)
                 |[(? & _) | (e & row & rest & ? & _)]]; [|done..].
  exists blocks. rewrite app_nil_r in Ht. done.
Qed.

End Batch.

(* ===================================================================== *)
(** ** The batch downloader: failures of single entries *)
(* ===================================================================== *)

Section Entries.
Context {E : Type} `{Host E}.
Implicit Types (w : World E) (row : Row) (rows : list Row).

(** C1, as the code has it.  The loop has reached entry [row] (the world
    is [wk]) and its navigation throws [e] (a timeout, a network error), or
    its navigation succeeds and capturing the content throws [e].  Nothing
    is written and no file other than the error log changes (so no output
    file written for an earlier entry).  What follows depends on the append
    of the entry's line to the error log.  When the append returns, the
    iteration ends normally: exactly one line, for the entry's ticker, has
    been appended, and the loop goes on with the entries after [row], which
    are run in turn to the last of them, or to the first that lacks a column,
    or to the first whose own line the error log does not take.  When the
    append throws, the iteration throws with it: nothing has been appended,
    no file has changed, and the loop stops there, with no later entry
    visited. *)
Theorem failing_entry_does_not_abort_batch
    (pre post : list Row) row cell1 cell2 w0 wk (e : JsError) (h : E)
    (fault : option JsError) :
  (forall ticker, htmlPath ticker <> ERROR_LOG) ->
  for_of pre dump_row w0 = (Ok tt, wk) ->
  row !! js "tickers" = Some cell1 ->
  row !! js "canonical_url" = Some cell2 ->
  page_goto (BASE_URL ++ trim cell2) networkidle2 60000 (host wk)
  = (Abrupt e, h)
  \/ (exists h1,
        page_goto (BASE_URL ++ trim cell2) networkidle2 60000 (host wk)
        = (Normal tt, h1)
        /\ page_content (wait_timeout 5000 h1) = (Abrupt e, h)) ->
  fs_error
    (FsAppend ERROR_LOG
       (logMsg (Date_toISOString h) (trim cell1) (err_message e)))
    (files wk) (dirs wk) h = fault ->
  exists r wk' block,
    let line := logMsg (Date_toISOString h) (trim cell1) (err_message e) in
    dump_row row wk = (r, wk')
    /\ trace wk' = trace wk ++ block
    /\ gotos block = [BASE_URL ++ trim cell2]
    /\ writes block = []
    /\ (forall p, p <> ERROR_LOG -> files wk' !! p = files wk !! p)
    /\ (forall ticker,
          files wk' !! htmlPath ticker = files wk !! htmlPath ticker)
    /\ match fault with
       | None =>
         r = Ok tt
         /\ appends block = [(ERROR_LOG, line)]
         /\ error_log wk' = error_log wk ++ line
         /\ for_of (pre ++ row :: post) dump_row w0 = for_of post dump_row wk'
         /\ exists r' wn visited blocks tail,
             for_of post dump_row wk' = (r', wn)
             /\ trace wn = trace wk' ++ concat blocks ++ tail
             /\ Forall2 visit_of visited blocks
             /\ loop_end post r' visited tail
       | Some e' =>
         r = Throw e'
         /\ appends block = []
         /\ files wk' = files wk
         /\ for_of (pre ++ row :: post) dump_row w0 = (Throw e', wk')
       end.
Proof.
  intros Hjoin Hpre H1 H2 Hfail Hfault.
  destruct (dump_try_throws (trim cell1) _ wk e h Hfail)
    as (wt & Htry & <- & _ & _).
  destruct fault as [e'|].
  - destruct (dump_row_unlogged row cell1 cell2 wk wt e e' H1 H2 Htry Hfault)
      as (wk' & block & Hrow & Ht & Happ & Hwr & Hgo & Hf).
    exists (Throw e'), wk', block. cbn zeta.
    do 4 (split; [done|]).
    split; [intros p _; by rewrite Hf|].
    split; [intros t; by rewrite Hf|].
    do 3 (split; [done|]).
    rewrite (for_of_app_ok _ _ _ _ _ Hpre). by apply for_of_cons_throw.
  - destruct (dump_row_failed row cell1 cell2 wk wt e H1 H2 Htry Hfault)
      as (wk' & block & Hrow & Ht & Happ & Hwr & Hgo & Hf).
    assert (Hother : forall p, p <> ERROR_LOG ->
                               files wk' !! p = files wk !! p).
    { intros p Hp. by rewrite Hf, lookup_insert_ne. }
    exists (Ok tt), wk', block. cbn zeta.
    do 4 (split; [done|]). split; [done|].
    split; [intros t; apply Hother, Hjoin|].
    do 2 (split; [done|]).
    split; [unfold error_log at 1; by rewrite Hf, lookup_insert_eq|].
    split; [rewrite (for_of_app_ok _ _ _ _ _ Hpre);
            by apply for_of_cons_ok|].
    destruct (loop_run post wk') as (r' & wn & visited & blocks & tail
                                     & Hloop & _ & Ht' & Hv & _ & Hend).
    by exists r', wn, visited, blocks, tail.
Qed.


(** C9. A row in which the [tickers] or the [canonical_url] column is
    missing aborts the whole batch: [.trim()] of [undefined] throws outside
    the [try].  With the rows before it run (the world is then [wk]),
    [dumpHTML] throws in that very world: no line has been added to the
    error log for the row, no later row is visited (the rows after it play
    no part), the browser is not closed; [main] catches the exception and
    prints it as a fatal error.  And whatever the rows before it do, in any
    world, the loop does not return and ends in the world these rows
    leave. *)
Theorem missing_column_aborts_batch (pre post : list Row) row w0 w1 wk :
  ~ complete row ->
  dumpHTML_begin w0 = (Ok tt, w1) ->
  for_of pre dump_row w1 = (Ok tt, wk) ->
  dump_row row wk = (Throw trim_of_undefined, wk)
  /\ dumpHTML (pre ++ row :: post) w0 = (Throw trim_of_undefined, wk)
  /\ (forall w,
        readCSV w = (Ok (pre ++ row :: post), w0) ->
        main w
        = (Ok tt,
           mkWorld (host wk) (files wk) (dirs wk)
             (console wk
              ++ [(Stderr, [LStr (js "🚨 Fatal error:");
                            LStr (err_message trim_of_undefined)])])
             (trace wk)))
  /\ (forall w,
        (for_of (pre ++ row :: post) dump_row w).1 <> Ok tt
        /\ (for_of (pre ++ row :: post) dump_row w).2
           = (for_of pre dump_row w).2).
Proof.
  intros Hrow Hbegin Hloop.
  assert (Hdump : dumpHTML (pre ++ row :: post) w0
                  = (Throw trim_of_undefined, wk)).
  { unfold dumpHTML, bind. rewrite Hbegin.
    rewrite (for_of_app_ok _ _ _ _ _ Hloop).
    by rewrite (for_of_cons_throw _ _ _ _ _ _
                  (dump_row_incomplete row wk Hrow)). }
  split; [by apply dump_row_incomplete|]. split; [done|].
  split; [intros w Hcsv; unfold main, try_catch, bind;
          by rewrite Hcsv, Hdump|].
  intros w. destruct (for_of pre dump_row w) as [[[]|e|e] w'] eqn:Hpre.
  - rewrite (for_of_app_ok _ _ _ _ _ Hpre).
    by rewrite (for_of_cons_throw _ _ _ _ _ _
                  (dump_row_incomplete row w' Hrow)).
  - by rewrite (for_of_app_throw _ _ _ _ _ _ Hpre).
  - by rewrite (for_of_app_uncaught _ _ _ _ _ _ Hpre).
Qed.

(** C10. The ticker and the path of an entry are used trimmed: what is
    removed from either is white space at its two ends and nothing else;
    the page fetched is [BASE_URL] followed by the trimmed path; the file
    written is named by the trimmed ticker, and so is the line appended to
    the error log, also when the append of that line throws. *)
Theorem entry_fields_are_trimmed row cell1 cell2 w :
  row !! js "tickers" = Some cell1 ->
  row !! js "canonical_url" = Some cell2 ->
  (exists l r, cell1 = l ++ trim cell1 ++ r
               /\ all_spaces l /\ all_spaces r /\ stripped (trim cell1))
  /\ (exists l r, cell2 = l ++ trim cell2 ++ r
                  /\ all_spaces l /\ all_spaces r /\ stripped (trim cell2))
  /\ exists res w' rest,
      dump_row row w = (res, w')
      /\ trace w'
         = trace w
           ++ EvGoto (BASE_URL ++ trim cell2) networkidle2 60000 :: rest
      /\ gotos rest = []
      /\ ((res = Ok tt
           /\ exists html,
            writes rest
            = [(path_join HTML_DUMP_FOLDER (trim cell1 ++ js ".html"),
                html)]
            /\ appends rest = [])
          \/ (res = Ok tt
           /\ exists now message,
            writes rest = []
            /\ appends rest
               = [(ERROR_LOG,
                   now ++ js " | " ++ trim cell1 ++ js " | " ++ message
                   ++ newline)])
          \/ (exists e now message,
            res = Throw e
            /\ writes rest = []
            /\ appends rest = []
            /\ last rest
               = Some (EvAppendFileThrew ERROR_LOG
                         (now ++ js " | " ++ trim cell1 ++ js " | "
                          ++ message ++ newline) e))).
Proof.
  intros H1 H2. split; [apply trim_spec|]. split; [apply trim_spec|].
  destruct (dump_row_complete row cell1 cell2 w H1 H2)
    as (res & w' & block & Hrun & _ & Ht & Hcases).
  exists res, w'.
  destruct Hcases as [(-> & html & -> & Hf)
                     |[(-> & rest & now & msg & Hrest & -> & Hf)
                      |(e & rest & now & msg & -> & Hrest & -> & Hf)]].
  - eexists. split; [done|]. split; [exact Ht|]. split; [done|].
    left. split; [done|]. by exists html.
  - eexists. split; [done|]. split; [exact Ht|].
    split; [by destruct Hrest|].
    right. left. split; [done|]. exists now, msg. by destruct Hrest.
  - eexists. split; [done|]. split; [exact Ht|].
    split; [by destruct Hrest|].
    right. right. exists e, now, msg. by destruct Hrest.
Qed.

End Entries.

(* ===================================================================== *)
(** ** login.js: what is saved *)
(* ===================================================================== *)

Section Capture.
Context {E : Type} `{Host E}.
Implicit Types (w : World E).

Lemma writeFileSync_inv p data w r w' :
  writeFileSync p data w = (r, w') ->
  host w' = host w /\ dirs w' = dirs w /\ console w' = console w
  /\ ((r = Ok tt /\ files w' = <[p := data]> (files w)
       /\ trace w' = trace w ++ [EvWriteFile p data]
       /\ fs_error (FsWrite p data) (files w) (dirs w) (host w) = None)
      \/ (exists e,
            r = Throw e /\ files w' = files w
            /\ trace w' = trace w ++ [EvWriteFileThrew p data e]
            /\ fs_error (FsWrite p data) (files w) (dirs w) (host w)
               = Some e)).
Proof.
  unfold writeFileSync.
  destruct (fs_error _ _ _ _) as [e|]; intros [= <- <-]; cbn;
    repeat split; [right; by exists e | by left].
Qed.

(** C3, as the code has it.  A run of login.js leaves the store as it
    was, or writes at [cookiePath] the cookies of the jar that
    [page.cookies()] returned whose domain contains the text
    [simplywall.st], in the order of the jar and nothing else: a cookie
    whose domain does not contain that text is never persisted, and every
    cookie whose domain ends with it is. *)
Theorem persisted_cookies_contain_site_name w :
  files (login_js w).2 = files w
  \/ exists jar kept h h',
      page_cookies h = (Normal jar, h')
      /\ kept = List.filter is_session_cookie jar
      /\ files (login_js w).2
         = <[cookiePath := JSON_stringify kept]> (files w)
      /\ (forall c, In c kept <->
                    In c jar
                    /\ includes (cookie_domain c) (js "simplywall.st")
                       = true)
      /\ (forall c, In c jar ->
                    endsWith (cookie_domain c) (js "simplywall.st") = true ->
                    In c kept).
Proof.
  destruct (login_js w) as [r w'] eqn:Hrun. cbn [snd].
  unfold login_js in Hrun.
  apply bind_inv in Hrun
    as [(? & w1 & H1 & Hrun) | [(? & H1 & _) | (? & H1 & _)]];
    apply call_inv in H1 as (Hf1 & _); [|by left ..].
  apply bind_inv in Hrun
    as [(? & w2 & H2 & Hrun) | [(? & H2 & _) | (? & H2 & _)]];
    apply call_inv in H2 as (Hf2 & _); [|left; congruence ..].
  apply bind_inv in Hrun
    as [(? & w3 & H3 & Hrun) | [(? & H3 & _) | (? & H3 & _)]];
    apply call_inv in H3 as (Hf3 & _); [|left; congruence ..].
  rewrite (bind_ok _ _ _ _ _ (console_log_run _ _)) in Hrun.
  rewrite (bind_ok _ _ _ _ _ (console_log_run _ _)) in Hrun.
  apply bind_inv in Hrun
    as [(? & w4 & H4 & Hrun) | [(? & H4 & _) | (? & H4 & _)]];
    apply call_inv in H4 as (Hf4 & _); cbn in Hf4; [|left; congruence ..].
  apply bind_inv in Hrun
    as [(jar & w5 & H5 & Hrun) | [(? & H5 & _) | (? & H5 & _)]];
    apply call_inv in H5 as (Hf5 & _ & _ & _ & Hjar);
    [|left; congruence ..].
  destruct Hjar as [(jar' & [= <-] & Hjar) | (? & [=] & _)].
  rewrite (bind_ok _ _ _ _ _ (console_log_run _ _)) in Hrun.
  apply bind_inv in Hrun
    as [([] & w6 & H6 & Hrun) | [(? & H6 & _) | (? & H6 & _)]];
    apply writeFileSync_inv in H6
      as (_ & _ & _ & [(Hr6 & Hf6 & _) | (? & Hr6 & Hf6 & _)]);
    try discriminate Hr6; cbn in Hf6; [|left; congruence].
  rewrite (bind_ok _ _ _ _ _ (console_log_run _ _)) in Hrun.
  apply call_inv in Hrun as (Hf7 & _). cbn in Hf7.
  right. exists jar, (List.filter is_session_cookie jar), (host w4), (host w5).
  split; [done|]. split; [done|]. split; [congruence|]. split.
  - intros c. apply filter_In.
  - intros c Hc Hend. apply filter_In. split; [done|].
    by apply endsWith_includes.
Qed.

(** C7. When the navigation to the login page fails, the run is over: the
    promise of the script is rejected with the navigation's error, nothing
    has been written, and the files (a session saved by an earlier run
    among them) are what they were. *)
Theorem failed_login_navigation_writes_nothing w h1 h2 h3 (e : JsError) :
  puppeteer_launch (mkLaunch chrome (Some profilePath)) (host w)
  = (Normal tt, h1) ->
  browser_newPage h1 = (Normal tt, h2) ->
  page_goto LOGIN_URL domcontentloaded 60000 h2 = (Abrupt e, h3) ->
  exists w',
    login_js w = (Throw e, w')
    /\ files w' = files w
    /\ files w' !! cookiePath = files w !! cookiePath
    /\ dirs w' = dirs w
    /\ console w' = console w
    /\ trace w'
       = trace w
         ++ [EvLaunch (mkLaunch chrome (Some profilePath)); EvNewPage;
             EvGoto LOGIN_URL domcontentloaded 60000].
Proof.
  intros Hlaunch Hpage Hgoto. unfold login_js.
  erewrite bind_ok by (apply call_normal; exact Hlaunch).
  erewrite bind_ok by (apply call_normal; exact Hpage).
  erewrite bind_throw by (apply call_abrupt; exact Hgoto).
  eexists. split; [reflexivity|]. cbn. repeat split.
  by rewrite <- !app_assoc.
Qed.

End Capture.

(* ===================================================================== *)
(** ** A whole run of the batch downloader *)
(* ===================================================================== *)

Section Run.
Context {E : Type} `{Host E}.
Implicit Types (w : World E) (row : Row) (rows : list Row).

Lemma quiet_run {A} (m : M E A) w r w' :
  quiet m -> m w = (r, w') ->
  files w' = files w /\ exists evs, trace w' = trace w ++ evs /\ silent evs.
Proof. intros Hm Hrun. specialize (Hm w). by rewrite Hrun in Hm. Qed.

Lemma abort_of_silent row e tail :
  abort_of row e tail -> writes tail = [] /\ appends tail = [].
Proof. intros (c1 & c2 & _ & _ & Hab). by eapply aborted_silent. Qed.

Lemma loop_end_ok rows visited tail :
  loop_end rows (Ok tt) visited tail -> visited = rows /\ tail = [].
Proof.
  intros [(_ & -> & ->) | [(? & _) | (e & row & rest & ? & _)]]; done.
Qed.

Lemma loop_end_appends rows r visited tail :
  loop_end rows r visited tail -> writes tail = [] /\ appends tail = [].
Proof.
  intros [(_ & _ & ->) | [(_ & -> & _) | (e & row & rest & _ & _ & Hab)]];
    [done | done | by eapply abort_of_silent].
Qed.

Lemma dumpHTML_end_run w :
  (exists e, dumpHTML_end w
             = (Throw e,
                mkWorld (browser_close (host w)).2 (files w) (dirs w)
                  (console w) (trace w ++ [EvClose])))
  \/ dumpHTML_end w
     = (Ok tt,
        mkWorld (browser_close (host w)).2 (files w) (dirs w)
          (console w ++ [(Stdout, [LStr (js "✅ All HTML files created")])])
          (trace w ++ [EvClose])).
Proof.
  unfold dumpHTML_end, bind, close, call, console_log, console_print. cbn.
  destruct (browser_close (host w)) as [[[]|e] h]; cbn; [by right|].
  left. by exists e.
Qed.

(** The lines appended by the iterations of a run. *)
Lemma visits_appends (visited : list Row) blocks :
  Forall2 visit_of visited blocks ->
  exists lines,
    appends (concat blocks) = List.map (pair ERROR_LOG) lines
    /\ Forall (fun line => exists now ticker message,
                   line = logMsg now ticker message) lines.
Proof.
  induction 1 as [|row block visited blocks (c1 & c2 & _ & _ & Hit) _ IH].
  - by exists [].
  - destruct IH as (lines & Hlines & Hform). simpl.
    rewrite appends_app, Hlines.
    destruct Hit as [html | rest now msg Hrest].
    + by exists lines.
    + exists (logMsg now (trim c1) msg :: lines).
      split; [by destruct Hrest|].
      constructor; [by eexists _, _, _ | done].
Qed.

Lemma visits_counts (visited : list Row) blocks :
  Forall2 visit_of visited blocks ->
  (length (writes (concat blocks)) + length (appends (concat blocks))
   = length visited)%nat.
Proof.
  induction 1 as [|row block visited blocks (c1 & c2 & _ & _ & Hit) _ IH].
  - done.
  - simpl. rewrite writes_app, appends_app, !length_app.
    pose proof (iteration_counts _ _ _ Hit). lia.
Qed.

Lemma visits_each (visited : list Row) blocks :
  Forall2 visit_of visited blocks ->
  Forall (fun block =>
            (length (writes block) + length (appends block) = 1)%nat)
    blocks.
Proof.
  induction 1 as [|row block visited blocks (c1 & c2 & _ & _ & Hit) _ IH];
    constructor; [by eapply iteration_counts | done].
Qed.


(** A run of [dumpHTML], whatever the rows and the host: the steps before
    the loop succeed, and then the loop runs over the rows and the browser is
    closed if the loop returns; or they do not, and no row is visited. *)
Lemma dumpHTML_run rows w :
  exists r w' before visited blocks tail after,
    dumpHTML rows w = (r, w')
    /\ trace w' = trace w ++ before ++ concat blocks ++ tail ++ after
    /\ silent before
    /\ Forall2 visit_of visited blocks
    /\ ((forall t, htmlPath t <> ERROR_LOG) ->
        error_log w'
        = error_log w ++ flat_map snd (appends (concat blocks)))
    /\ ((exists w1 w2 rl,
           dumpHTML_begin w = (Ok tt, w1)
           /\ trace w1 = trace w ++ before
           /\ for_of rows dump_row w1 = (rl, w2)
           /\ loop_end rows rl visited tail
           /\ ((rl = Ok tt /\ after = [EvClose]
                /\ files w' = files w2
                /\ (r = Ok tt ->
                    console w'
                    = console w2
                      ++ [(Stdout, [LStr (js "✅ All HTML files created")])]))
               \/ (rl <> Ok tt /\ r = rl /\ w' = w2 /\ after = [])))
        \/ (visited = [] /\ tail = [] /\ after = [] /\ r <> Ok tt
            /\ forall w1, dumpHTML_begin w <> (Ok tt, w1))).
Proof.
  unfold dumpHTML, bind.
  destruct (dumpHTML_begin w) as [[[]|e|e] w1] eqn:Hbegin;
    destruct (quiet_run _ _ _ _ quiet_dumpHTML_begin Hbegin)
      as (Hf1 & before & Ht1 & Hs1).
  - destruct (loop_run rows w1) as (rl & w2 & visited & blocks & tail
                                    & Hloop & _ & Ht2 & Hv & Hlog & Hend).
    rewrite Hloop.
    assert (Hlog1 : error_log w1 = error_log w)
      by (unfold error_log; by rewrite Hf1).
    destruct rl as [[]|e|e].
    + destruct (loop_end_ok _ _ _ Hend) as [-> ->].
      destruct (dumpHTML_end_run w2) as [[e ->] | ->].
      * eexists _, _, before, rows, blocks, [], [EvClose].
        split; [done|]. cbn.
        split; [by rewrite Ht2, Ht1, <- !app_assoc|].
        do 2 (split; [done|]).
        split; [intros Hj; unfold error_log at 1; cbn;
                rewrite <- Hlog1; by apply Hlog|].
        left. exists w1, w2, (Ok tt). do 4 (split; [done|]). by left.
      * eexists _, _, before, rows, blocks, [], [EvClose].
        split; [done|]. cbn.
        split; [by rewrite Ht2, Ht1, <- !app_assoc|].
        do 2 (split; [done|]).
        split; [intros Hj; unfold error_log at 1; cbn;
                rewrite <- Hlog1; by apply Hlog|].
        left. exists w1, w2, (Ok tt). do 4 (split; [done|]). by left.
    + eexists _, _, before, visited, blocks, tail, [].
      split; [done|].
      split; [by rewrite Ht2, Ht1, app_nil_r, <- !app_assoc|].
      do 2 (split; [done|]).
      split; [intros Hj; rewrite <- Hlog1; by apply Hlog|].
      left. exists w1, w2, (Throw e). do 4 (split; [done|]). by right.
    + eexists _, _, before, visited, blocks, tail, [].
      split; [done|].
      split; [by rewrite Ht2, Ht1, app_nil_r, <- !app_assoc|].
      do 2 (split; [done|]).
      split; [intros Hj; rewrite <- Hlog1; by apply Hlog|].
      left. exists w1, w2, (Uncaught e). do 4 (split; [done|]). by right.
  - eexists _, _, before, [], [], [], [].
    split; [done|]. split; [by rewrite Ht1, !app_nil_r|].
    split; [done|]. split; [constructor|].
    split; [intros _; unfold error_log; simpl;
            by rewrite Hf1, app_nil_r|].
    right. by repeat split.
  - eexists _, _, before, [], [], [], [].
    split; [done|]. split; [by rewrite Ht1, !app_nil_r|].
    split; [done|]. split; [constructor|].
    split; [intros _; unfold error_log; simpl;
            by rewrite Hf1, app_nil_r|].
    right. by repeat split.
Qed.

(** What [readCSV] leaves, and what it gives when it gives rows. *)
Lemma readCSV_run w :
  exists r,
    readCSV w
    = (r, mkWorld (host w) (files w) (dirs w) (console w)
            (trace w ++ [EvCreateReadStream CSV_FILE]))
    /\ forall rows, r = Ok rows ->
         rows = manifest w
         /\ exists text, files w !! CSV_FILE = Some text
                         /\ (csv text).2 = None.
Proof.
  unfold readCSV, manifest.
  destruct (files w !! CSV_FILE) as [text|]; [|by eexists].
  destruct (csv text).2 as [e|] eqn:Hend; eexists; (split; [done|]);
    intros rows [= <-].
  split; [apply push_all_id | by exists text].
Qed.

(** A run of [main], whatever the files and the host: the manifest is
    read, then come the steps before the loop, then one block of events
    for each row run to its end, in the order of the manifest, then the
    closing of the browser if the loop returned. *)
Lemma main_run w :
  exists r w' before visited blocks tail after,
    main w = (r, w')
    /\ trace w'
       = trace w
         ++ EvCreateReadStream CSV_FILE
              :: before ++ concat blocks ++ tail ++ after
    /\ silent before
    /\ Forall2 visit_of visited blocks
    /\ ((forall t, htmlPath t <> ERROR_LOG) ->
        error_log w'
        = error_log w ++ flat_map snd (appends (concat blocks)))
    /\ ((exists w0 w1 rl,
           readCSV w = (Ok (manifest w), w0)
           /\ dumpHTML_begin w0 = (Ok tt, w1)
           /\ trace w1 = trace w ++ EvCreateReadStream CSV_FILE :: before
           /\ loop_end (manifest w) rl visited tail
           /\ ((rl = Ok tt /\ after = [EvClose])
               \/ (rl <> Ok tt /\ after = [])))
        \/ (visited = [] /\ tail = [] /\ after = []
            /\ forall rows w0 w1,
                readCSV w = (Ok rows, w0) ->
                dumpHTML_begin w0 <> (Ok tt, w1))).
Proof.
  destruct (readCSV_run w) as (r0 & Hcsv & Hrows).
  unfold main, try_catch, bind. rewrite Hcsv.
  destruct r0 as [rows|e|e].
  - destruct (Hrows rows eq_refl) as (-> & _).
    destruct (dumpHTML_run (manifest w)
                (mkWorld (host w) (files w) (dirs w) (console w)
                   (trace w ++ [EvCreateReadStream CSV_FILE])))
      as (r & w1 & before & visited & blocks & tail & after
          & -> & Ht & Hs & Hv & Hlog & Hr).
    cbn in Ht. rewrite <- app_assoc in Ht.
    assert (Hr' :
      (exists w0 w1 rl,
          (Ok (manifest w),
           mkWorld (host w) (files w) (dirs w) (console w)
             (trace w ++ [EvCreateReadStream CSV_FILE]))
          = (Ok (manifest w), w0)
          /\ dumpHTML_begin w0 = (Ok tt, w1)
          /\ trace w1 = trace w ++ EvCreateReadStream CSV_FILE :: before
          /\ loop_end (manifest w) rl visited tail
          /\ ((rl = Ok tt /\ after = [EvClose])
              \/ (rl <> Ok tt /\ after = [])))
      \/ (visited = [] /\ tail = [] /\ after = []
          /\ forall rows w0 w1,
              (Ok (manifest w),
               mkWorld (host w) (files w) (dirs w) (console w)
                 (trace w ++ [EvCreateReadStream CSV_FILE]))
              = (Ok rows, w0) ->
              dumpHTML_begin w0 <> (Ok tt, w1))).
    { destruct Hr as [(w1' & w2 & rl & Hb & Ht1 & _ & Hend & Hafter)
                     |(-> & -> & -> & _ & Hno)].
      - left. eexists _, w1', rl. split; [done|]. split; [exact Hb|].
        split; [rewrite Ht1; cbn; by rewrite <- app_assoc|].
        split; [done|].
        destruct Hafter as [(? & ? & _) | (? & _ & _ & ?)];
          [by left | by right].
      - right. do 3 (split; [done|]). intros rows w0 w1' [= _ <-].
        apply Hno. }
    destruct r as [[]|e|e].
    + by eexists _, _, before, visited, blocks, tail, after.
    + eexists _, _, before, visited, blocks, tail, after.
      split; [reflexivity|]. by cbn.
    + by eexists _, _, before, visited, blocks, tail, after.
  - eexists _, _, [], [], [], [], []. split; [reflexivity|]. cbn.
    split; [done|]. split; [apply silent_nil|]. split; [constructor|].
    split; [intros _; unfold error_log; cbn; by rewrite app_nil_r|].
    right. by repeat split.
  - eexists _, _, [], [], [], [], []. split; [reflexivity|]. cbn.
    split; [done|]. split; [apply silent_nil|]. split; [constructor|].
    split; [intros _; unfold error_log; cbn; by rewrite app_nil_r|].
    right. by repeat split.
Qed.

End Run.

Section Runs.
Context {E : Type} `{Host E}.
Implicit Types (w : World E) (row : Row) (rows : list Row).


(** C5, as the code has it.  When a run of [dumpHTML] completes, the steps
    before the loop have succeeded, the loop has run every row of the
    manifest to its end, the browser has been closed after the last of them,
    and then the line "All HTML files created" has been printed and nothing
    else: the function returns no value and reports no counts, and the files
    are as the loop left them.  Each row has had one outcome, a write of its
    page that returned or a line appended to the error log, so the number of
    writes that returned plus the number of lines appended is the number of
    rows. *)
Theorem completed_batch_closes_browser rows w w' :
  dumpHTML rows w = (Ok tt, w') ->
  exists w1 w2 before blocks,
    dumpHTML_begin w = (Ok tt, w1)
    /\ for_of rows dump_row w1 = (Ok tt, w2)
    /\ trace w1 = trace w ++ before
    /\ silent before
    /\ trace w2 = trace w1 ++ concat blocks
    /\ Forall2 visit_of rows blocks
    /\ trace w' = trace w2 ++ [EvClose]
    /\ console w'
       = console w2 ++ [(Stdout, [LStr (js "✅ All HTML files created")])]
    /\ last_line w'
       = Some (Stdout, [LStr (js "✅ All HTML files created")])
    /\ files w' = files w2
    /\ Forall (fun block =>
                 (length (writes block) + length (appends block) = 1)%nat)
         blocks
    /\ (length (writes (concat blocks)) + length (appends (concat blocks))
        = length rows)%nat.
Proof.
  intros Hrun. unfold dumpHTML in Hrun.
  apply bind_inv in Hrun
    as [([] & w1 & Hb & Hrun) | [(e & _ & [=]) | (e & _ & [=])]].
  apply bind_inv in Hrun
    as [([] & w2 & Hloop & Hend) | [(e & _ & [=]) | (e & _ & [=])]].
  destruct (quiet_run _ _ _ _ quiet_dumpHTML_begin Hb)
    as (_ & before & Ht1 & Hs1).
  destruct (loop_returned _ _ _ Hloop) as (blocks & Ht2 & Hv & _).
  destruct (dumpHTML_end_run w2) as [[e He] | He];
    rewrite He in Hend; [done|]. injection Hend as <-.
  exists w1, w2, before, blocks. cbn.
  do 8 (split; [done|]).
  split; [unfold last_line; cbn; by rewrite last_snoc|].
  split; [done|].
  split; [by eapply visits_each | by apply visits_counts].
Qed.


End Runs.

Section Log.
Context {E : Type} `{Host E}.
Implicit Types (w : World E) (row : Row).

Lemma concat_lines (lines : list jsstring) :
  flat_map snd (List.map (pair ERROR_LOG) lines) = concat lines.
Proof. induction lines as [|line lines IH]; simpl; congruence. Qed.

(** C8, as the code has it.  The error log only grows.  An output file
    never has the path of the error log ([path.join] gives it the extension
    [.html]); then:
    - an entry whose [try] block throws [e] gives the line
      [timestamp | ticker | message], the time stamp being
      [new Date().toISOString()], to [fs.appendFileSync]: when the append
      returns, that line is the only thing appended and the log has grown by
      it; when the append throws, nothing is appended, the log is as it was
      and the iteration throws what the append threw;
    - over a whole run of [main], whatever the log held is kept and the
      lines of the run come after it, each of that form and each appended
      to [errors.log]; a second run adds its lines after those of the
      first;
    - an entry whose page is written replaces the file of its ticker: when
      that file was there already, the store holds the same files as
      before, with the new page in that one. *)
Theorem error_log_is_append_only
    row cell1 cell2 w wt (e : JsError) (fault : option JsError) :
  (forall ticker, htmlPath ticker <> ERROR_LOG) ->
  row !! js "tickers" = Some cell1 ->
  row !! js "canonical_url" = Some cell2 ->
  dump_try (trim cell1) (BASE_URL ++ trim cell2) w = (Throw e, wt) ->
  fs_error
    (FsAppend ERROR_LOG
       (Date_toISOString (host wt) ++ js " | " ++ trim cell1 ++ js " | "
        ++ err_message e ++ newline))
    (files w) (dirs w) (host wt) = fault ->
  (exists r w' block,
      let line :=
        Date_toISOString (host wt) ++ js " | " ++ trim cell1 ++ js " | "
        ++ err_message e ++ newline in
      dump_row row w = (r, w')
      /\ trace w' = trace w ++ block
      /\ match fault with
         | None =>
           r = Ok tt
           /\ appends block = [(ERROR_LOG, line)]
           /\ error_log w' = error_log w ++ line
         | Some e' =>
           r = Throw e'
           /\ appends block = []
           /\ error_log w' = error_log w
         end)
  /\ (forall w,
        exists evs lines,
          trace (main w).2 = trace w ++ evs
          /\ appends evs = List.map (pair ERROR_LOG) lines
          /\ Forall (fun line => exists now ticker message,
                         line = now ++ js " | " ++ ticker ++ js " | "
                                ++ message ++ newline) lines
          /\ error_log (main w).2 = error_log w ++ concat lines)
  /\ (forall w,
        exists lines1 lines2,
          error_log (main w).2 = error_log w ++ concat lines1
          /\ error_log (main (main w).2).2
             = error_log w ++ concat lines1 ++ concat lines2)
  /\ (forall row cell1 cell2 w,
        row !! js "tickers" = Some cell1 ->
        row !! js "canonical_url" = Some cell2 ->
        exists r w' block,
          dump_row row w = (r, w')
          /\ trace w' = trace w ++ block
          /\ forall html,
              In (htmlPath (trim cell1), html) (writes block) ->
              r = Ok tt
              /\ files w' = <[htmlPath (trim cell1) := html]> (files w)
              /\ error_log w' = error_log w
              /\ (is_Some (files w !! htmlPath (trim cell1)) ->
                  dom (files w') = dom (files w))).
Proof.
  intros Hjoin H1 H2 Htry Hfault.
  assert (Hmain : forall w,
             exists evs lines,
               trace (main w).2 = trace w ++ evs
               /\ appends evs = List.map (pair ERROR_LOG) lines
               /\ Forall (fun line => exists now ticker message,
                              line = logMsg now ticker message) lines
               /\ error_log (main w).2 = error_log w ++ concat lines).
  { intros w2.
    destruct (main_run w2) as (r & w' & before & visited & blocks & tail
                               & after
                               & Hrun & Ht & (_ & _ & Hb) & Hv & Hlog & Hr).
    rewrite Hrun. cbn [snd].
    destruct (visits_appends visited blocks Hv) as (lines & Hlines & Hform).
    exists (EvCreateReadStream CSV_FILE
              :: before ++ concat blocks ++ tail ++ after), lines.
    split; [done|].
    split; [|split; [done|]].
    - change (EvCreateReadStream CSV_FILE
                :: before ++ concat blocks ++ tail ++ after)
        with ([EvCreateReadStream CSV_FILE]
                ++ before ++ concat blocks ++ tail ++ after).
      rewrite !appends_app, Hb, Hlines.
      assert (appends tail = [] /\ appends after = []) as [-> ->].
      { destruct Hr as [(? & ? & ? & _ & _ & _ & Hend & Hafter)
                       |(_ & -> & -> & _)]; [|done].
        split; [by eapply loop_end_appends|].
        by destruct Hafter as [[_ ->] | [_ ->]]. }
      cbn. by rewrite !app_nil_r.
    - by rewrite (Hlog Hjoin), Hlines, concat_lines. }
  split; [|split; [|split]].
  - destruct fault as [e'|].
    + destruct (dump_row_unlogged row cell1 cell2 w wt e e' H1 H2 Htry Hfault)
        as (w' & block & Hrow & Ht & Happ & _ & _ & Hf).
      exists (Throw e'), w', block. cbn zeta. do 4 (split; [done|]).
      unfold error_log. by rewrite Hf.
    + destruct (dump_row_failed row cell1 cell2 w wt e H1 H2 Htry Hfault)
        as (w' & block & Hrow & Ht & Happ & _ & _ & Hf).
      exists (Ok tt), w', block. cbn zeta. do 4 (split; [done|]).
      unfold error_log at 1. by rewrite Hf, lookup_insert_eq.
  - exact Hmain.
  - intros w2.
    destruct (Hmain w2) as (evs1 & lines1 & _ & _ & _ & Hlog1).
    destruct (Hmain (main w2).2) as (evs2 & lines2 & _ & _ & _ & Hlog2).
    exists lines1, lines2. split; [done|].
    by rewrite Hlog2, Hlog1, <- app_assoc.
  - intros row' c1 c2 w2 H1' H2'.
    destruct (dump_row_complete row' c1 c2 w2 H1' H2')
      as (r & w' & block & Hrun & _ & Ht & Hcases).
    exists r, w', block. do 2 (split; [done|]). intros html Hin.
    destruct Hcases as [(-> & html' & -> & Hf)
                       |[(-> & rest & now & msg & Hrest & -> & Hf)
                        |(e' & rest & now & msg & -> & Hrest & -> & Hf)]].
    + destruct Hin as [[= ->] | []].
      do 2 (split; [done|]).
      split; [unfold error_log; rewrite Hf;
              by rewrite lookup_insert_ne by apply Hjoin|].
      intros Hthere. rewrite Hf. by apply dom_insert_lookup_L.
    + destruct Hrest; destruct Hin.
    + destruct Hrest; destruct Hin.
Qed.

End Log.

(* ===================================================================== *)
(** ** The scripts on the example *)
(* ===================================================================== *)

Lemma sim_html_not_log ticker : htmlPath (E:=Sim) ticker <> ERROR_LOG.
Proof. intros Heq. vm_compute in Heq. discriminate. Qed.

Example js_ascii : js "a b" = [97; 32; 98].
Proof. reflexivity. Qed.
Example js_bmp : js "✅" = [0x2705].
Proof. reflexivity. Qed.
Example js_astral : js "🌐" = [0xD83C; 0xDF10].
Proof. reflexivity. Qed.
Example trim_ex : trim ([0xFEFF; 9] ++ js "  AA PL " ++ [0xA0; 10]) = js "AA PL".
Proof. reflexivity. Qed.
Example includes_ex :
  includes (js "www.simplywall.st") (js "simplywall.st") = true
  /\ includes (js ".google.com") (js "simplywall.st") = false.
Proof. split; reflexivity. Qed.

Example example_rows_eq : example_rows = [row_aapl; row_bad; row_msft].
Proof. vm_compute. reflexivity. Qed.

(** The example of the specification: two pages dumped, one line logged. *)
Example main_example :
  let w' := (main w_ready).2 in
  (main w_ready).1 = Ok tt
  /\ files w' !! js "html_dump/AAPL.html" = Some (js "<html>AAPL</html>")
  /\ files w' !! js "html_dump/MSFT.html" = Some (js "<html>MSFT</html>")
  /\ files w' !! js "html_dump/BAD.html" = None
  /\ files w' !! js "errors.log"
     = Some (js "2025-03-01T09:30:00.000Z | BAD | Navigation timeout of 60000 ms exceeded"
             ++ newline)
  /\ gotos (trace w')
     = [js "https://simplywall.st/stocks/aapl";
        js "https://simplywall.st/broken";
        js "https://simplywall.st/stocks/msft"].
Proof. vm_compute. repeat split. Qed.

(** A ticker with a slash in it names a file in a directory that does not
    exist: the page loads, the write throws, and the entry is logged. *)
Example slash_in_ticker_example :
  let w' := (dump_row row_brk w_begun).2 in
  (dump_row row_brk w_begun).1 = Ok tt
  /\ files w' !! js "html_dump/BRK/B.html" = None
  /\ files w' !! js "errors.log"
     = Some (js "2025-03-01T09:30:00.000Z | BRK/B | ENOENT: no such file or directory, open 'html_dump/BRK/B.html'"
             ++ newline).
Proof. vm_compute. repeat split. Qed.

(** C1 does not hold as stated.  On the example, with [errors.log] being a
    directory: the first page is dumped; the navigation of the second entry
    times out, the append of its line throws, and the batch is over: the
    third entry is never visited, nothing is logged, and [main] prints the
    error of the append as fatal.  And where the error log can be written,
    an entry after a failed one is still not visited when a row between them
    lacks a column. *)
Lemma unwritable_log_aborts_the_batch :
  manifest w_log_is_directory = [row_aapl; row_bad; row_msft]
  /\ (page_goto (js "https://simplywall.st/broken") networkidle2 60000
        (host w_log_is_directory_after_aapl)).1
     = Abrupt navigation_timeout
  /\ (dump_row row_bad w_log_is_directory_after_aapl).1
     = Throw (EISDIR_open ERROR_LOG)
  /\ gotos (trace (main w_log_is_directory).2)
     = [js "https://simplywall.st/stocks/aapl";
        js "https://simplywall.st/broken"]
  /\ files (main w_log_is_directory).2 !! js "html_dump/AAPL.html"
     = Some (js "<html>AAPL</html>")
  /\ files (main w_log_is_directory).2 !! js "html_dump/MSFT.html" = None
  /\ files (main w_log_is_directory).2 !! ERROR_LOG = None
  /\ last_line (main w_log_is_directory).2
     = Some (Stderr,
             [LStr (js "🚨 Fatal error:");
              LStr (js "EISDIR: illegal operation on a directory, open 'errors.log'")])
  /\ (for_of [row_aapl; row_bad; row_short; row_msft] dump_row w_begun).1
     = Throw trim_of_undefined
  /\ gotos (trace (for_of [row_aapl; row_bad; row_short; row_msft] dump_row
                     w_begun).2)
     = [js "https://simplywall.st/stocks/aapl";
        js "https://simplywall.st/broken"].
Proof. vm_compute. repeat split. Qed.


(** C3 does not hold as stated.  With the cookies of three sites in the
    browser, login.js drops the cookie of [.google.com] but saves, next to
    the session cookie, the cookie of [simplywall.st.evil.com]: its domain
    contains the text [simplywall.st], and is neither a suffix of the site's
    domain nor ends with it. *)
Lemma lookalike_domain_is_persisted :
  exists kept,
    files (login_js w_login).2 !! cookiePath = Some (JSON_stringify kept)
    /\ kept = [session_cookie; lookalike_cookie]
    /\ In lookalike_cookie kept
    /\ cookie_domain lookalike_cookie = js "simplywall.st.evil.com"
    /\ in_scope (js "simplywall.st") (cookie_domain lookalike_cookie) = false.
Proof.
  exists [session_cookie; lookalike_cookie].
  split; [vm_compute; reflexivity|]. split; [reflexivity|].
  split; [right; left; reflexivity|]. split; reflexivity.
Qed.

(** C5 does not hold as stated.  On the manifest of the example, a run in
    which one page fails and a run in which none does both return
    [undefined] and both print the same last line, while the first wrote two
    pages and logged one failure and the second wrote three pages: no summary
    of the counts can be read from what [dumpHTML] returns and last
    prints. *)
Lemma no_summary_is_returned_or_reported :
  (dumpHTML example_rows w_ready).1 = Ok tt
  /\ (dumpHTML example_rows w_ready_up).1 = Ok tt
  /\ last_line (dumpHTML example_rows w_ready).2
     = Some (Stdout, [LStr (js "✅ All HTML files created")])
  /\ last_line (dumpHTML example_rows w_ready_up).2
     = Some (Stdout, [LStr (js "✅ All HTML files created")])
  /\ ~ exists summary : Result unit * option (Stream * list LogArg)
                        -> nat * nat,
         forall w, In w [w_ready; w_ready_up] ->
           summary ((dumpHTML example_rows w).1,
                    last_line (dumpHTML example_rows w).2)
           = (length (writes (trace (dumpHTML example_rows w).2)),
              length (appends (trace (dumpHTML example_rows w).2))).
Proof.
  do 4 (split; [vm_compute; reflexivity|]).
  intros [summary Hsummary].
  pose proof (Hsummary w_ready (or_introl eq_refl)) as H1.
  pose proof (Hsummary w_ready_up (or_intror (or_introl eq_refl))) as H2.
  vm_compute in H1, H2. congruence.
Qed.


(** C8 does not hold as stated.  With [errors.log] being a directory, the
    second entry of the example fails (its [try] block throws the
    navigation's error) and no line is appended for it: the append throws,
    the log is as it was, and after the whole run there is still no error
    log. *)
Lemma failed_entry_leaves_no_line :
  (dump_try (js "BAD") (js "https://simplywall.st/broken")
     w_log_is_directory_after_aapl).1
  = Throw navigation_timeout
  /\ appends (trace (dump_row row_bad w_log_is_directory_after_aapl).2) = []
  /\ error_log (dump_row row_bad w_log_is_directory_after_aapl).2
     = error_log w_log_is_directory_after_aapl
  /\ appends (trace (main w_log_is_directory).2) = []
  /\ error_log (main w_log_is_directory).2 = [].
Proof. vm_compute. repeat split. Qed.

(* ===================================================================== *)
(** ** The theorems on the example *)
(* ===================================================================== *)

Lemma failing_entry_does_not_abort_batch_witness :
  (forall ticker, htmlPath (E:=Sim) ticker <> ERROR_LOG)
  /\ for_of [row_aapl] dump_row w_begun = (Ok tt, w_after_aapl)
  /\ row_bad !! js "tickers" = Some (js " BAD ")
  /\ row_bad !! js "canonical_url" = Some (js "/broken ")
  /\ (page_goto (BASE_URL ++ trim (js "/broken ")) networkidle2 60000
        (host w_after_aapl)
      = (Abrupt navigation_timeout, host w_bad_thrown)
      \/ (exists h1,
            page_goto (BASE_URL ++ trim (js "/broken ")) networkidle2 60000
              (host w_after_aapl)
            = (Normal tt, h1)
            /\ page_content (wait_timeout 5000 h1)
               = (Abrupt navigation_timeout, host w_bad_thrown)))
  /\ fs_error
       (FsAppend ERROR_LOG
          (logMsg (Date_toISOString (host w_bad_thrown)) (trim (js " BAD "))
             (err_message navigation_timeout)))
       (files w_after_aapl) (dirs w_after_aapl) (host w_bad_thrown)
     = None
  /\ exists r wk' block,
      let line :=
        logMsg (Date_toISOString (host w_bad_thrown)) (trim (js " BAD "))
          (err_message navigation_timeout) in
      dump_row row_bad w_after_aapl = (r, wk')
      /\ trace wk' = trace w_after_aapl ++ block
      /\ gotos block = [BASE_URL ++ trim (js "/broken ")]
      /\ writes block = []
      /\ (forall p, p <> ERROR_LOG ->
                    files wk' !! p = files w_after_aapl !! p)
      /\ (forall ticker,
            files wk' !! htmlPath ticker
            = files w_after_aapl !! htmlPath ticker)
      /\ r = Ok tt
      /\ appends block = [(ERROR_LOG, line)]
      /\ error_log wk' = error_log w_after_aapl ++ line
      /\ for_of ([row_aapl] ++ row_bad :: [row_msft]) dump_row w_begun
         = for_of [row_msft] dump_row wk'
      /\ exists r' wn visited blocks tail,
          for_of [row_msft] dump_row wk' = (r', wn)
          /\ trace wn = trace wk' ++ concat blocks ++ tail
          /\ Forall2 visit_of visited blocks
          /\ loop_end [row_msft] r' visited tail.
Proof.
  assert (H0 : forall ticker, htmlPath (E:=Sim) ticker <> ERROR_LOG)
    by exact sim_html_not_log.
  assert (H1 : for_of [row_aapl] dump_row w_begun = (Ok tt, w_after_aapl))
    by (vm_compute; reflexivity).
  assert (H2 : row_bad !! js "tickers" = Some (js " BAD "))
    by (vm_compute; reflexivity).
  assert (H3 : row_bad !! js "canonical_url" = Some (js "/broken "))
    by (vm_compute; reflexivity).
  assert (H4 : page_goto (BASE_URL ++ trim (js "/broken ")) networkidle2 60000
                 (host w_after_aapl)
               = (Abrupt navigation_timeout, host w_bad_thrown)
               \/ (exists h1,
                     page_goto (BASE_URL ++ trim (js "/broken "))
                       networkidle2 60000 (host w_after_aapl)
                     = (Normal tt, h1)
                     /\ page_content (wait_timeout 5000 h1)
                        = (Abrupt navigation_timeout, host w_bad_thrown)))
    by (left; vm_compute; reflexivity).
  assert (H5 : fs_error
                 (FsAppend ERROR_LOG
                    (logMsg (Date_toISOString (host w_bad_thrown))
                       (trim (js " BAD ")) (err_message navigation_timeout)))
                 (files w_after_aapl) (dirs w_after_aapl) (host w_bad_thrown)
               = None)
    by (vm_compute; reflexivity).
  repeat (split; [assumption|]).
  exact (failing_entry_does_not_abort_batch [row_aapl] [row_msft] row_bad
           (js " BAD ") (js "/broken ") w_begun w_after_aapl
           navigation_timeout (host w_bad_thrown) None H0 H1 H2 H3 H4 H5).
Defined.


Lemma missing_column_aborts_batch_witness :
  ~ complete row_short
  /\ dumpHTML_begin w_ready = (Ok tt, w_begun)
  /\ for_of [row_aapl] dump_row w_begun = (Ok tt, w_after_aapl)
  /\ dump_row row_short w_after_aapl = (Throw trim_of_undefined, w_after_aapl)
  /\ dumpHTML ([row_aapl] ++ row_short :: [row_msft]) w_ready
     = (Throw trim_of_undefined, w_after_aapl)
  /\ (forall w,
        readCSV w = (Ok ([row_aapl] ++ row_short :: [row_msft]), w_ready) ->
        main w
        = (Ok tt,
           mkWorld (host w_after_aapl) (files w_after_aapl)
             (dirs w_after_aapl)
             (console w_after_aapl
              ++ [(Stderr, [LStr (js "🚨 Fatal error:");
                            LStr (err_message trim_of_undefined)])])
             (trace w_after_aapl)))
  /\ (forall w : World Sim,
        (for_of ([row_aapl] ++ row_short :: [row_msft]) dump_row w).1
        <> Ok tt
        /\ (for_of ([row_aapl] ++ row_short :: [row_msft]) dump_row w).2
           = (for_of [row_aapl] dump_row w).2).
Proof.
  assert (H1 : ~ complete row_short).
  { intros [_ [cell Hcell]]. vm_compute in Hcell. discriminate. }
  assert (H2 : dumpHTML_begin w_ready = (Ok tt, w_begun))
    by (vm_compute; reflexivity).
  assert (H3 : for_of [row_aapl] dump_row w_begun = (Ok tt, w_after_aapl))
    by (vm_compute; reflexivity).
  repeat (split; [assumption|]).
  exact (missing_column_aborts_batch [row_aapl] [row_msft] row_short
           w_ready w_begun w_after_aapl H1 H2 H3).
Defined.

Lemma entry_fields_are_trimmed_witness :
  row_bad !! js "tickers" = Some (js " BAD ")
  /\ row_bad !! js "canonical_url" = Some (js "/broken ")
  /\ (exists l r, js " BAD " = l ++ trim (js " BAD ") ++ r
                  /\ all_spaces l /\ all_spaces r
                  /\ stripped (trim (js " BAD ")))
  /\ (exists l r, js "/broken " = l ++ trim (js "/broken ") ++ r
                  /\ all_spaces l /\ all_spaces r
                  /\ stripped (trim (js "/broken ")))
  /\ exists res w' rest,
      dump_row row_bad w_after_aapl = (res, w')
      /\ trace w'
         = trace w_after_aapl
           ++ EvGoto (BASE_URL ++ trim (js "/broken ")) networkidle2 60000
                :: rest
      /\ gotos rest = []
      /\ ((res = Ok tt
           /\ exists html,
            writes rest
            = [(path_join HTML_DUMP_FOLDER (trim (js " BAD ") ++ js ".html"),
                html)]
            /\ appends rest = [])
          \/ (res = Ok tt
           /\ exists now message,
            writes rest = []
            /\ appends rest
               = [(ERROR_LOG,
                   now ++ js " | " ++ trim (js " BAD ") ++ js " | " ++ message
                   ++ newline)])
          \/ (exists e now message,
            res = Throw e
            /\ writes rest = []
            /\ appends rest = []
            /\ last rest
               = Some (EvAppendFileThrew ERROR_LOG
                         (now ++ js " | " ++ trim (js " BAD ") ++ js " | "
                          ++ message ++ newline) e))).
Proof.
  assert (H1 : row_bad !! js "tickers" = Some (js " BAD "))
    by (vm_compute; reflexivity).
  assert (H2 : row_bad !! js "canonical_url" = Some (js "/broken "))
    by (vm_compute; reflexivity).
  repeat (split; [assumption|]).
  exact (entry_fields_are_trimmed row_bad (js " BAD ") (js "/broken ")
           w_after_aapl H1 H2).
Defined.

Lemma failed_login_navigation_writes_nothing_witness :
  puppeteer_launch (mkLaunch chrome (Some profilePath)) (host w_offline)
  = (Normal tt, host w_offline)
  /\ browser_newPage (host w_offline) = (Normal tt, host w_offline)
  /\ page_goto LOGIN_URL domcontentloaded 60000 (host w_offline)
     = (Abrupt (name_not_resolved LOGIN_URL), host w_offline)
  /\ exists w',
      login_js w_offline = (Throw (name_not_resolved LOGIN_URL), w')
      /\ files w' = files w_offline
      /\ files w' !! cookiePath = files w_offline !! cookiePath
      /\ dirs w' = dirs w_offline
      /\ console w' = console w_offline
      /\ trace w'
         = trace w_offline
           ++ [EvLaunch (mkLaunch chrome (Some profilePath)); EvNewPage;
               EvGoto LOGIN_URL domcontentloaded 60000].
Proof.
  assert (H1 : puppeteer_launch (mkLaunch chrome (Some profilePath))
                 (host w_offline)
               = (Normal tt, host w_offline)) by reflexivity.
  assert (H2 : browser_newPage (host w_offline) = (Normal tt, host w_offline))
    by reflexivity.
  assert (H3 : page_goto LOGIN_URL domcontentloaded 60000 (host w_offline)
               = (Abrupt (name_not_resolved LOGIN_URL), host w_offline))
    by (vm_compute; reflexivity).
  repeat (split; [assumption|]).
  exact (failed_login_navigation_writes_nothing w_offline (host w_offline)
           (host w_offline) (host w_offline) (name_not_resolved LOGIN_URL)
           H1 H2 H3).
Defined.

Lemma completed_batch_closes_browser_witness :
  dumpHTML example_rows w_ready = (Ok tt, w_done)
  /\ exists w1 w2 before blocks,
      dumpHTML_begin w_ready = (Ok tt, w1)
      /\ for_of example_rows dump_row w1 = (Ok tt, w2)
      /\ trace w1 = trace w_ready ++ before
      /\ silent before
      /\ trace w2 = trace w1 ++ concat blocks
      /\ Forall2 visit_of example_rows blocks
      /\ trace w_done = trace w2 ++ [EvClose]
      /\ console w_done
         = console w2 ++ [(Stdout, [LStr (js "✅ All HTML files created")])]
      /\ last_line w_done
         = Some (Stdout, [LStr (js "✅ All HTML files created")])
      /\ files w_done = files w2
      /\ Forall (fun block =>
                   (length (writes block) + length (appends block) = 1)%nat)
           blocks
      /\ (length (writes (concat blocks)) + length (appends (concat blocks))
          = length example_rows)%nat.
Proof.
  assert (H1 : dumpHTML example_rows w_ready = (Ok tt, w_done))
    by (vm_compute; reflexivity).
  split; [assumption|].
  exact (completed_batch_closes_browser example_rows w_ready w_done H1).
Defined.


(** The run without a session, on the example: the manifest is read, the
    browser launched, and the error that tells to run login.js first is
    printed as fatal. *)
Example no_session_example :
  (main w_no_session).1 = Ok tt
  /\ last_line (main w_no_session).2
     = Some (Stderr,
             [LStr (js "🚨 Fatal error:");
              LStr (js "Cookies file " ++ dquote ++ js "cookies.json" ++ dquote
                    ++ js " not found. Run login.js first.")])
  /\ trace (main w_no_session).2
     = [EvCreateReadStream CSV_FILE; EvLaunch (mkLaunch chrome None);
        EvNewPage; EvExists COOKIES_FILE].
Proof. vm_compute. repeat split. Qed.

Lemma error_log_is_append_only_witness :
  (forall ticker, htmlPath (E:=Sim) ticker <> ERROR_LOG)
  /\ row_bad !! js "tickers" = Some (js " BAD ")
  /\ row_bad !! js "canonical_url" = Some (js "/broken ")
  /\ dump_try (trim (js " BAD ")) (BASE_URL ++ trim (js "/broken "))
       w_after_aapl
     = (Throw navigation_timeout, w_bad_thrown)
  /\ fs_error
       (FsAppend ERROR_LOG
          (Date_toISOString (host w_bad_thrown) ++ js " | "
           ++ trim (js " BAD ") ++ js " | "
           ++ err_message navigation_timeout ++ newline))
       (files w_after_aapl) (dirs w_after_aapl) (host w_bad_thrown)
     = None
  /\ (exists r w' block,
        let line :=
          Date_toISOString (host w_bad_thrown) ++ js " | "
          ++ trim (js " BAD ") ++ js " | "
          ++ err_message navigation_timeout ++ newline in
        dump_row row_bad w_after_aapl = (r, w')
        /\ trace w' = trace w_after_aapl ++ block
        /\ r = Ok tt
        /\ appends block = [(ERROR_LOG, line)]
        /\ error_log w' = error_log w_after_aapl ++ line)
  /\ (forall w : World Sim,
        exists evs lines,
          trace (main w).2 = trace w ++ evs
          /\ appends evs = List.map (pair ERROR_LOG) lines
          /\ Forall (fun line => exists now ticker message,
                         line = now ++ js " | " ++ ticker ++ js " | "
                                ++ message ++ newline) lines
          /\ error_log (main w).2 = error_log w ++ concat lines)
  /\ (forall w : World Sim,
        exists lines1 lines2,
          error_log (main w).2 = error_log w ++ concat lines1
          /\ error_log (main (main w).2).2
             = error_log w ++ concat lines1 ++ concat lines2)
  /\ (forall row cell1 cell2 (w : World Sim),
        row !! js "tickers" = Some cell1 ->
        row !! js "canonical_url" = Some cell2 ->
        exists r w' block,
          dump_row row w = (r, w')
          /\ trace w' = trace w ++ block
          /\ forall html,
              In (htmlPath (trim cell1), html) (writes block) ->
              r = Ok tt
              /\ files w' = <[htmlPath (trim cell1) := html]> (files w)
              /\ error_log w' = error_log w
              /\ (is_Some (files w !! htmlPath (trim cell1)) ->
                  dom (files w') = dom (files w))).
Proof.
  assert (H0 : forall ticker, htmlPath (E:=Sim) ticker <> ERROR_LOG)
    by exact sim_html_not_log.
  assert (H1 : row_bad !! js "tickers" = Some (js " BAD "))
    by (vm_compute; reflexivity).
  assert (H2 : row_bad !! js "canonical_url" = Some (js "/broken "))
    by (vm_compute; reflexivity).
  assert (H3 : dump_try (trim (js " BAD ")) (BASE_URL ++ trim (js "/broken "))
                 w_after_aapl
               = (Throw navigation_timeout, w_bad_thrown))
    by (vm_compute; reflexivity).
  assert (H4 : fs_error
                 (FsAppend ERROR_LOG
                    (Date_toISOString (host w_bad_thrown) ++ js " | "
                     ++ trim (js " BAD ") ++ js " | "
                     ++ err_message navigation_timeout ++ newline))
                 (files w_after_aapl) (dirs w_after_aapl) (host w_bad_thrown)
               = None)
    by (vm_compute; reflexivity).
  repeat (split; [assumption|]).
  exact (error_log_is_append_only row_bad (js " BAD ") (js "/broken ")
           w_after_aapl w_bad_thrown navigation_timeout None H0 H1 H2 H3 H4).
Defined.

(** A second run of the example: the two pages are written again over
    themselves, and the log holds the line of the first run, then the line
    of the second. *)
Example rerun_example :
  let w1 := (main w_ready).2 in
  let w2 := (main w1).2 in
  size (files w1) = 5%nat
  /\ size (files w2) = 5%nat
  /\ files w2 !! js "html_dump/AAPL.html" = Some (js "<html>AAPL</html>")
  /\ files w2 !! js "errors.log"
     = Some (js "2025-03-01T09:30:00.000Z | BAD | Navigation timeout of 60000 ms exceeded"
             ++ newline
             ++ js "2025-03-01T09:30:00.000Z | BAD | Navigation timeout of 60000 ms exceeded"
             ++ newline).
Proof. vm_compute. repeat split. Qed.

(** login.js on the example: the tracker's cookie is dropped. *)
Example login_example :
  (login_js w_login).1 = Ok tt
  /\ files (login_js w_login).2 !! js "/srv/final_project/cookies.json"
     = Some (sim_stringify [session_cookie; lookalike_cookie]).
Proof. vm_compute. split; reflexivity. Qed.

(** A page that breaks while its content is captured is logged like one that
    does not load, and the next page is dumped. *)
Example capture_failure_example :
  let w' := (main (world_of site_flaky [] ready)).2 in
  files w' !! js "html_dump/AAPL.html" = None
  /\ files w' !! js "html_dump/MSFT.html" = Some (js "<html>MSFT</html>")
  /\ files w' !! js "errors.log"
     = Some (js "2025-03-01T09:30:00.000Z | AAPL | Protocol error (Page.getFrameTree): Target closed"
             ++ newline
             ++ js "2025-03-01T09:30:00.000Z | BAD | Navigation timeout of 60000 ms exceeded"
             ++ newline).
Proof. vm_compute. repeat split. Qed.

(* ===================================================================== *)
(** ** Further properties: kinds of calls *)
(* ===================================================================== *)

Section Emits.
Context {E : Type} `{Host E}.
Implicit Types (w : World E) (P : Event -> Prop).

Lemma emits_ret {A} P (a : A) : emits P (ret (E:=E) a).
Proof. intros w. exists []. split; [by rewrite app_nil_r | constructor]. Qed.

Lemma emits_throw {A} P e : emits P (throw (E:=E) (A:=A) e).
Proof. intros w. exists []. split; [by rewrite app_nil_r | constructor]. Qed.

Lemma emits_eval {A} P (c : Completion A) : emits P (eval (E:=E) c).
Proof. intros w. exists []. split; [by rewrite app_nil_r | constructor]. Qed.

Lemma emits_console P s args : emits P (console_print (E:=E) s args).
Proof. intros w. exists []. split; [by rewrite app_nil_r | constructor]. Qed.

Lemma emits_call {A} P (ev : Event) (f : E -> Completion A * E) :
  P ev -> emits P (call ev f).
Proof. intros Hev w. exists [ev]. split; [done | by constructor]. Qed.

Lemma emits_fs_step {A} P (ev : Event)
    (f : gmap jsstring jsstring -> gset jsstring ->
         Result A * gmap jsstring jsstring * gset jsstring) :
  P ev -> emits P (fs_step (E:=E) ev f).
Proof. intros Hev w. exists [ev]. split; [done | by constructor]. Qed.

Lemma emits_bind {A B} P (m : M E A) (k : A -> M E B) :
  emits P m -> (forall a, emits P (k a)) -> emits P (bind m k).
Proof.
  intros Hm Hk w. unfold bind. destruct (Hm w) as (evs & Ht & HP).
  destruct (m w) as [[a|e|e] w1]; simpl in *; [|by exists evs ..].
  destruct (Hk a w1) as (evs' & Ht' & HP').
  exists (evs ++ evs'). split; [by rewrite Ht', Ht, app_assoc|].
  by apply Forall_app.
Qed.

Lemma emits_try_catch {A} P (m : M E A) (k : JsError -> M E A) :
  emits P m -> (forall e, emits P (k e)) -> emits P (try_catch m k).
Proof.
  intros Hm Hk w. unfold try_catch. destruct (Hm w) as (evs & Ht & HP).
  destruct (m w) as [[a|e|e] w1]; simpl in *; [by exists evs| |by exists evs].
  destruct (Hk e w1) as (evs' & Ht' & HP').
  exists (evs ++ evs'). split; [by rewrite Ht', Ht, app_assoc|].
  by apply Forall_app.
Qed.

Lemma emits_if {A} P (b : bool) (m1 m2 : M E A) :
  emits P m1 -> emits P m2 -> emits P (if b then m1 else m2).
Proof. by destruct b. Qed.

Lemma emits_for_of {A} P (xs : list A) (body : A -> M E unit) :
  (forall x, emits P (body x)) -> emits P (for_of xs body).
Proof.
  intros Hbody. induction xs as [|x xs IH]; simpl.
  - apply emits_ret.
  - by apply emits_bind.
Qed.

Lemma emits_writeFileSync P p data :
  (forall ev, ev <> EvClose -> P ev) -> emits P (writeFileSync (E:=E) p data).
Proof.
  intros HP w. unfold writeFileSync.
  destruct (fs_error _ _ _ _) as [e|]; eexists [_];
    (split; [done|]); constructor; [by apply HP | done | by apply HP | done].
Qed.

Lemma emits_appendFileSync P p data :
  (forall ev, ev <> EvClose -> P ev) -> emits P (appendFileSync (E:=E) p data).
Proof.
  intros HP w. unfold appendFileSync.
  destruct (fs_error _ _ _ _) as [e|]; eexists [_];
    (split; [done|]); constructor; [by apply HP | done | by apply HP | done].
Qed.

Lemma emits_readCSV P :
  P (EvCreateReadStream CSV_FILE) -> emits P readCSV.
Proof.
  intros Hev w. exists [EvCreateReadStream CSV_FILE]. unfold readCSV.
  split; [|by constructor].
  destruct (files w !! CSV_FILE) as [text|]; [|done].
  by destruct (csv text).2.
Qed.

Lemma caught_ret {A} (a : A) : caught (ret (E:=E) a).
Proof. by intros w e. Qed.

Lemma caught_throw {A} e : caught (throw (E:=E) (A:=A) e).
Proof. by intros w e'. Qed.

Lemma caught_eval {A} (c : Completion A) : caught (eval (E:=E) c).
Proof. intros w e. by destruct c. Qed.

Lemma caught_console s args : caught (console_print (E:=E) s args).
Proof. by intros w e. Qed.

Lemma caught_call {A} (ev : Event) (f : E -> Completion A * E) : caught (call ev f).
Proof. intros w e. unfold call. cbn. by destruct (f (host w)).1. Qed.

Lemma caught_bind {A B} (m : M E A) (k : A -> M E B) :
  caught m -> (forall a, caught (k a)) -> caught (bind m k).
Proof.
  intros Hm Hk w e. unfold bind. specialize (Hm w).
  destruct (m w) as [[a|e'|e'] w1]; simpl in *; [apply Hk | done |].
  by destruct (Hm e').
Qed.

Lemma caught_try_catch {A} (m : M E A) (k : JsError -> M E A) :
  caught m -> (forall e, caught (k e)) -> caught (try_catch m k).
Proof.
  intros Hm Hk w e. unfold try_catch. specialize (Hm w).
  destruct (m w) as [[a|e'|e'] w1]; simpl in *; [done | apply Hk |].
  by destruct (Hm e').
Qed.

Lemma caught_if {A} (b : bool) (m1 m2 : M E A) :
  caught m1 -> caught m2 -> caught (if b then m1 else m2).
Proof. by destruct b. Qed.

Lemma caught_for_of {A} (xs : list A) (body : A -> M E unit) :
  (forall x, caught (body x)) -> caught (for_of xs body).
Proof.
  intros Hbody. induction xs as [|x xs IH]; simpl.
  - apply caught_ret.
  - by apply caught_bind.
Qed.

Lemma caught_existsSync p : caught (existsSync (E:=E) p).
Proof. by intros w e. Qed.

Lemma caught_mkdirSync p : caught (mkdirSync (E:=E) p).
Proof.
  intros w e. unfold mkdirSync, fs_step. cbn. by destruct (exists_in _ _ _).
Qed.

Lemma caught_readFileSync p : caught (readFileSync (E:=E) p).
Proof.
  intros w e. unfold readFileSync, fs_step. cbn. by destruct (files w !! p).
Qed.

Lemma caught_writeFileSync p data : caught (writeFileSync (E:=E) p data).
Proof. intros w e. unfold writeFileSync. by destruct (fs_error _ _ _ _). Qed.

Lemma caught_appendFileSync p data : caught (appendFileSync (E:=E) p data).
Proof. intros w e. unfold appendFileSync. by destruct (fs_error _ _ _ _). Qed.

Lemma caught_dumpHTML_begin : caught dumpHTML_begin.
Proof.
  unfold dumpHTML_begin, applyCookies.
  repeat first
    [ apply caught_existsSync | apply caught_mkdirSync
    | apply caught_readFileSync | apply caught_eval | apply caught_throw
    | apply caught_ret | apply caught_console | apply caught_call
    | apply caught_if | apply caught_bind; [|intros ?] ].
Qed.

Lemma caught_dump_row row : caught (dump_row row).
Proof.
  unfold dump_row, trimmed.
  apply caught_bind;
    [destruct (row !! _); [apply caught_ret | apply caught_throw]|].
  intros ticker.
  apply caught_bind;
    [destruct (row !! _); [apply caught_ret | apply caught_throw]|].
  intros pathUrl. apply caught_try_catch.
  - unfold dump_try.
    repeat first
      [ apply caught_writeFileSync | apply caught_console | apply caught_call
      | apply caught_bind; [|intros ?] ].
  - intros e. unfold dump_catch, logError.
    repeat first
      [ apply caught_appendFileSync | apply caught_console | apply caught_call
      | apply caught_bind; [|intros ?] ].
Qed.

Lemma caught_dumpHTML rows : caught (dumpHTML rows).
Proof.
  unfold dumpHTML, dumpHTML_end.
  repeat first
    [ apply caught_dumpHTML_begin | apply caught_console | apply caught_call
    | apply caught_for_of; apply caught_dump_row
    | apply caught_bind; [|intros ?] ].
Qed.

(** Everything the batch does before closing the browser is of a kind [P]
    that holds of every call but [browser.close()]. *)
Lemma emits_dumpHTML_begin P :
  (forall ev, ev <> EvClose -> P ev) -> emits P dumpHTML_begin.
Proof.
  intros HP. unfold dumpHTML_begin, applyCookies.
  repeat first
    [ apply emits_eval | apply emits_throw | apply emits_ret
    | apply emits_console | apply emits_call; by apply HP
    | apply emits_fs_step; by apply HP
    | apply emits_if | apply emits_bind; [|intros ?] ].
Qed.

Lemma emits_dump_row P row :
  (forall ev, ev <> EvClose -> P ev) -> emits P (dump_row row).
Proof.
  intros HP. unfold dump_row, trimmed.
  apply emits_bind;
    [destruct (row !! _); [apply emits_ret | apply emits_throw]|].
  intros ticker.
  apply emits_bind;
    [destruct (row !! _); [apply emits_ret | apply emits_throw]|].
  intros pathUrl. apply emits_try_catch.
  - unfold dump_try.
    repeat first
      [ apply emits_console | apply emits_call; by apply HP
      | by apply emits_writeFileSync
      | apply emits_bind; [|intros ?] ].
  - intros e. unfold dump_catch, logError.
    repeat first
      [ apply emits_console | apply emits_call; by apply HP
      | by apply emits_appendFileSync
      | apply emits_bind; [|intros ?] ].
Qed.

End Emits.

(* ===================================================================== *)
(** ** Further properties: restoring the session *)
(* ===================================================================== *)

Section Session.
Context {E : Type} `{Host E}.
Implicit Types (w : World E) (rows : list Row).

Lemma readFileSync_run p text w :
  files w !! p = Some text ->
  readFileSync p w
  = (Ok text,
     mkWorld (host w) (files w) (dirs w) (console w)
       (trace w ++ [EvReadFile p])).
Proof. intros Hp. unfold readFileSync, fs_step. cbn. by rewrite Hp. Qed.

Lemma mkdirSync_run p w :
  exists_in (files w) (dirs w) p = false ->
  mkdirSync p w
  = (Ok tt,
     mkWorld (host w) (files w) ({[p]} ∪ dirs w) (console w)
       (trace w ++ [EvMkdir p])).
Proof. intros Hp. unfold mkdirSync, fs_step. cbn. by rewrite Hp. Qed.

Lemma applyCookies_absent w :
  exists_in (files w) (dirs w) COOKIES_FILE = false ->
  applyCookies w
  = (Throw cookies_not_found,
     mkWorld (host w) (files w) (dirs w) (console w)
       (trace w ++ [EvExists COOKIES_FILE])).
Proof.
  intros Habsent. unfold applyCookies.
  rewrite (bind_ok _ _ _ _ _ (existsSync_run _ _)), Habsent.
  reflexivity.
Qed.

Lemma applyCookies_read text w :
  files w !! COOKIES_FILE = Some text ->
  applyCookies w
  = (cookies ← eval (JSON_parse text);
     setCookie cookies;;
     console_log [LStr (js "🍪 Cookies applied")])
      (mkWorld (host w) (files w) (dirs w) (console w)
         (trace w ++ [EvExists COOKIES_FILE; EvReadFile COOKIES_FILE])).
Proof.
  intros Hfile. unfold applyCookies.
  rewrite (bind_ok _ _ _ _ _ (existsSync_run _ _)).
  unfold exists_in. rewrite Hfile. cbn [negb].
  rewrite (bind_ok (ret tt) _ _ tt _ eq_refl).
  erewrite bind_ok by (by apply readFileSync_run).
  cbn [trace]. by rewrite <- app_assoc.
Qed.

Lemma applyCookies_unparsable text e w :
  files w !! COOKIES_FILE = Some text ->
  JSON_parse text = Abrupt e ->
  applyCookies w
  = (Throw e,
     mkWorld (host w) (files w) (dirs w) (console w)
       (trace w ++ [EvExists COOKIES_FILE; EvReadFile COOKIES_FILE])).
Proof.
  intros Hfile Hparse. rewrite (applyCookies_read text w Hfile).
  unfold bind, eval. by rewrite Hparse.
Qed.

Lemma applyCookies_parsed text cs w :
  files w !! COOKIES_FILE = Some text ->
  JSON_parse text = Normal cs ->
  applyCookies w
  = (match (page_setCookie cs (host w)).1 with
     | Normal _ => Ok tt
     | Abrupt e => Throw e
     end,
     mkWorld (page_setCookie cs (host w)).2 (files w) (dirs w)
       (console w
        ++ match (page_setCookie cs (host w)).1 with
           | Normal _ => [(Stdout, [LStr (js "🍪 Cookies applied")])]
           | Abrupt _ => []
           end)
       (trace w ++ [EvExists COOKIES_FILE; EvReadFile COOKIES_FILE;
                    EvSetCookie cs])).
Proof.
  intros Hfile Hparse. rewrite (applyCookies_read text w Hfile).
  unfold bind at 1, eval. rewrite Hparse. cbn [completed].
  unfold bind, setCookie, call, console_log, console_print. cbn.
  destruct (page_setCookie cs (host w)) as [[[]|e] h]; cbn;
    by rewrite <- ?app_assoc, ?app_nil_r.
Qed.

(** [applyCookies] returns only after it has read [cookies.json], found
    cookies in it and handed them to the page. *)
Lemma applyCookies_ok_inv w w' :
  applyCookies w = (Ok tt, w') ->
  exists text cs,
    files w !! COOKIES_FILE = Some text
    /\ JSON_parse text = Normal cs
    /\ page_setCookie cs (host w) = (Normal tt, host w')
    /\ files w' = files w
    /\ dirs w' = dirs w
    /\ console w' = console w ++ [(Stdout, [LStr (js "🍪 Cookies applied")])]
    /\ trace w'
       = trace w ++ [EvExists COOKIES_FILE; EvReadFile COOKIES_FILE;
                     EvSetCookie cs].
Proof.
  intros Hrun.
  destruct (files w !! COOKIES_FILE) as [text|] eqn:Hfile.
  - destruct (JSON_parse text) as [cs|e] eqn:Hparse.
    + rewrite (applyCookies_parsed text cs w Hfile Hparse) in Hrun.
      destruct (page_setCookie cs (host w)) as [[[]|e] h] eqn:Hset;
        cbn in Hrun; [|done].
      injection Hrun as <-. by exists text, cs.
    + by rewrite (applyCookies_unparsable text e w Hfile Hparse) in Hrun.
  - revert Hrun. unfold applyCookies.
    rewrite (bind_ok _ _ _ _ _ (existsSync_run _ _)).
    unfold exists_in. rewrite Hfile.
    destruct (bool_decide (COOKIES_FILE ∈ dirs w)) eqn:Hdir; cbn [negb];
      [|done].
    rewrite (bind_ok (ret tt) _ _ tt _ eq_refl).
    unfold bind, readFileSync, fs_step. cbn. by rewrite Hfile.
Qed.

(** The steps before the loop, when they all succeed. *)
Lemma dumpHTML_begin_ok_inv w w1 :
  dumpHTML_begin w = (Ok tt, w1) ->
  exists text cs,
    files w !! COOKIES_FILE = Some text
    /\ JSON_parse text = Normal cs
    /\ files w1 = files w
    /\ dirs w1
       = (if exists_in (files w) (dirs w) HTML_DUMP_FOLDER then dirs w
          else {[HTML_DUMP_FOLDER]} ∪ dirs w)
    /\ console w1 = console w ++ [(Stdout, [LStr (js "🍪 Cookies applied")])]
    /\ trace w1
       = trace w
         ++ [EvLaunch (mkLaunch chrome None); EvNewPage;
             EvExists COOKIES_FILE; EvReadFile COOKIES_FILE; EvSetCookie cs;
             EvExists HTML_DUMP_FOLDER]
         ++ (if exists_in (files w) (dirs w) HTML_DUMP_FOLDER then []
             else [EvMkdir HTML_DUMP_FOLDER]).
Proof.
  intros Hrun. unfold dumpHTML_begin in Hrun.
  apply bind_inv in Hrun as [([] & wa & Ha & Hrun) | [(? & _ & [=]) | (? & _ & [=])]].
  apply call_inv in Ha as (Hfa & Hda & Hca & Hta & _).
  apply bind_inv in Hrun as [([] & wb & Hb & Hrun) | [(? & _ & [=]) | (? & _ & [=])]].
  apply call_inv in Hb as (Hfb & Hdb & Hcb & Htb & _).
  apply bind_inv in Hrun as [([] & wc & Hc & Hrun) | [(? & _ & [=]) | (? & _ & [=])]].
  apply applyCookies_ok_inv in Hc
    as (text & cs & Hfile & Hparse & _ & Hfc & Hdc & Hcc & Htc).
  rewrite (bind_ok _ _ _ _ _ (existsSync_run _ _)) in Hrun.
  assert (Hf : files wc = files w) by congruence.
  assert (Hd : dirs wc = dirs w) by congruence.
  exists text, cs. split; [congruence|]. split; [done|].
  rewrite Hf, Hd in Hrun.
  destruct (exists_in (files w) (dirs w) HTML_DUMP_FOLDER) eqn:Hdir;
    cbn [negb] in Hrun.
  - injection Hrun as <-. cbn.
    rewrite Htc, Htb, Hta, Hcc, Hcb, Hca, <- !app_assoc. done.
  - rewrite mkdirSync_run in Hrun by exact Hdir.
    injection Hrun as <-. cbn.
    rewrite Htc, Htb, Hta, Hcc, Hcb, Hca, <- !app_assoc. done.
Qed.

End Session.

Section Setup.
Context {E : Type} `{Host E}.
Implicit Types (w : World E) (rows : list Row).

(** X1. No page is visited before the saved session is restored.  In every
    run of [dumpHTML], either nothing is navigated to at all, or
    [cookies.json] was there, held cookies, and these very cookies were
    handed to the page ([page.setCookie]) before the first navigation. *)
Theorem cookies_are_restored_before_any_visit rows w :
  exists evs,
    trace (dumpHTML rows w).2 = trace w ++ evs
    /\ (gotos evs = []
        \/ exists text cs pre post,
            files w !! COOKIES_FILE = Some text
            /\ JSON_parse text = Normal cs
            /\ evs = pre ++ EvSetCookie cs :: post
            /\ gotos pre = []).
Proof.
  unfold dumpHTML, bind at 1.
  destruct (dumpHTML_begin w) as [[[]|e|e] w1] eqn:Hbegin.
  - destruct (dumpHTML_begin_ok_inv w w1 Hbegin)
      as (text & cs & Hfile & Hparse & _ & _ & _ & Ht).
    assert (Hrest : emits (fun _ => True)
                      (for_of rows dump_row;; dumpHTML_end)).
    { apply emits_bind; [|intros ?].
      - apply emits_for_of. intros row. by apply emits_dump_row.
      - unfold dumpHTML_end. apply emits_bind; [by apply emits_call|].
        intros ?. apply emits_console. }
    destruct (Hrest w1) as (rest & Ht' & _).
    eexists. split; [rewrite Ht', Ht, <- !app_assoc; reflexivity|].
    right. exists text, cs.
    exists [EvLaunch (mkLaunch chrome None); EvNewPage;
            EvExists COOKIES_FILE; EvReadFile COOKIES_FILE].
    eexists. split; [done|]. split; [done|]. split; reflexivity.
  - destruct (quiet_dumpHTML_begin w) as (_ & evs & Ht & Hg & _).
    rewrite Hbegin in Ht. exists evs. split; [done | by left].
  - destruct (quiet_dumpHTML_begin w) as (_ & evs & Ht & Hg & _).
    rewrite Hbegin in Ht. exists evs. split; [done | by left].
Qed.

(** X2. A [cookies.json] that does not hold JSON stops the batch before
    anything is visited: with the browser launched, [JSON.parse] throws and
    [dumpHTML] throws the same error, no cookie having been set, the output
    directory not created, no page visited, the browser left open. *)
Theorem unreadable_session_stops_the_batch rows w h1 h2 text (e : JsError) :
  puppeteer_launch (mkLaunch chrome None) (host w) = (Normal tt, h1) ->
  browser_newPage h1 = (Normal tt, h2) ->
  files w !! COOKIES_FILE = Some text ->
  JSON_parse text = Abrupt e ->
  dumpHTML rows w
  = (Throw e,
     mkWorld h2 (files w) (dirs w) (console w)
       (trace w ++ [EvLaunch (mkLaunch chrome None); EvNewPage;
                    EvExists COOKIES_FILE; EvReadFile COOKIES_FILE])).
Proof.
  intros Hlaunch Hpage Hfile Hparse. unfold dumpHTML.
  erewrite bind_throw; [reflexivity|]. unfold dumpHTML_begin.
  erewrite bind_ok by (apply call_normal; exact Hlaunch).
  erewrite bind_ok by (apply call_normal; exact Hpage).
  erewrite bind_throw; [reflexivity|].
  rewrite (applyCookies_unparsable text e) by done.
  cbn. by rewrite <- !app_assoc.
Qed.

(** X3. The output directory is there when the loop starts, and is created
    only when it was missing.  When the steps before the loop succeed,
    [html_dump] exists; if it existed already nothing is created and
    [fs.mkdirSync] is not called; otherwise it is the one directory added.
    No file is touched. *)
Theorem output_directory_is_ensured w w1 :
  dumpHTML_begin w = (Ok tt, w1) ->
  exists_in (files w1) (dirs w1) HTML_DUMP_FOLDER = true
  /\ files w1 = files w
  /\ exists evs,
      trace w1 = trace w ++ evs
      /\ (if exists_in (files w) (dirs w) HTML_DUMP_FOLDER
          then dirs w1 = dirs w /\ ~ In (EvMkdir HTML_DUMP_FOLDER) evs
          else dirs w1 = {[HTML_DUMP_FOLDER]} ∪ dirs w
               /\ In (EvMkdir HTML_DUMP_FOLDER) evs).
Proof.
  intros Hbegin.
  destruct (dumpHTML_begin_ok_inv w w1 Hbegin)
    as (text & cs & _ & _ & Hf & Hd & _ & Ht).
  destruct (exists_in (files w) (dirs w) HTML_DUMP_FOLDER) eqn:Hdir.
  - split; [by rewrite Hf, Hd|]. split; [done|].
    eexists. split; [exact Ht|]. split; [done|]. rewrite app_nil_r. simpl.
    intros [?|[?|[?|[?|[?|[?|[]]]]]]]; discriminate.
  - split; [|split; [done|]].
    + unfold exists_in. rewrite Hf, Hd.
      destruct (files w !! HTML_DUMP_FOLDER); [done|].
      apply bool_decide_eq_true, elem_of_union. left.
      by apply elem_of_singleton.
    + eexists. split; [exact Ht|]. split; [done|].
      apply in_app_iff. right. by left.
Qed.


(** X5. When the csv stream reports an error, the rows emitted before it
    are dropped: the promise of [readCSV] is rejected, [main] prints the
    error as fatal, and neither a browser is launched nor a page visited nor
    a file touched. *)
Theorem csv_error_discards_the_rows w text emitted (e : JsError) :
  files w !! CSV_FILE = Some text ->
  csv text = (emitted, Some e) ->
  main w
  = (Ok tt,
     mkWorld (host w) (files w) (dirs w)
       (console w
        ++ [(Stderr, [LStr (js "🚨 Fatal error:"); LStr (err_message e)])])
       (trace w ++ [EvCreateReadStream CSV_FILE])).
Proof.
  intros Hfile Htext. unfold main, try_catch, bind, readCSV.
  by rewrite Hfile, Htext.
Qed.

(** X6. Once the manifest opens, [main] never fails: whatever the browser,
    the network and the rows do, its promise is fulfilled, and the last line
    it prints is either "All HTML files created" or a fatal error. *)
Theorem main_fulfils_when_the_manifest_opens w :
  is_Some (files w !! CSV_FILE) ->
  (main w).1 = Ok tt
  /\ (last_line (main w).2
      = Some (Stdout, [LStr (js "✅ All HTML files created")])
      \/ exists message,
          last_line (main w).2
          = Some (Stderr, [LStr (js "🚨 Fatal error:"); LStr message])).
Proof.
  intros [text Hfile]. unfold main, try_catch, bind, readCSV. rewrite Hfile.
  destruct (csv text).2 as [e|].
  - cbn. split; [done|]. right. exists (err_message e).
    unfold last_line. cbn. by rewrite last_snoc.
  - set (w0 := mkWorld _ _ _ _ _).
    destruct (dumpHTML_run (push_all (csv text).1) w0)
      as (r & w1 & before & visited & blocks & tail & after
          & Hrun & _ & _ & _ & _ & Hr).
    pose proof (caught_dumpHTML (push_all (csv text).1) w0) as Hcaught.
    rewrite Hrun in *. destruct r as [[]|e|e].
    + split; [done|]. left.
      destruct Hr as [(? & w2 & ? & _ & _ & _ & _
                       & [(_ & _ & _ & Hlast) | (Hne & <- & _)])
                     |(_ & _ & _ & Hne & _)]; [|done..].
      unfold last_line. cbn. rewrite (Hlast eq_refl). by rewrite last_snoc.
    + cbn. split; [done|]. right. exists (err_message e).
      unfold last_line. cbn. by rewrite last_snoc.
    + by destruct (Hcaught e).
Qed.

(** X7. The browser is closed only by a loop that came to its end.  In a
    run of [dumpHTML], when the steps before the loop and every iteration
    succeed, [browser.close()] is the last call and the only one of its
    kind; in every other run (a step before the loop failed, a row lacks a
    column, the error log did not take a line) [dumpHTML] throws and the
    browser is never closed. *)
Theorem browser_is_closed_only_after_the_loop rows w :
  exists evs,
    trace (dumpHTML rows w).2 = trace w ++ evs
    /\ ((exists w1 w2 evs',
           dumpHTML_begin w = (Ok tt, w1)
           /\ for_of rows dump_row w1 = (Ok tt, w2)
           /\ evs = evs' ++ [EvClose]
           /\ ~ In EvClose evs')
        \/ ((forall w1 w2, dumpHTML_begin w = (Ok tt, w1) ->
                           for_of rows dump_row w1 <> (Ok tt, w2))
            /\ ~ In EvClose evs
            /\ exists e, (dumpHTML rows w).1 = Throw e)).
Proof.
  assert (Hnot : forall evs, Forall (fun ev => ev <> EvClose) evs ->
                             ~ In EvClose evs).
  { intros evs Hevs Hin. rewrite List.Forall_forall in Hevs.
    by apply (Hevs _ Hin). }
  destruct (emits_dumpHTML_begin (fun ev => ev <> EvClose) (fun _ Hev => Hev) w)
    as (evs1 & Ht1 & Hevs1).
  pose proof (caught_dumpHTML_begin w) as Hc1.
  destruct (dumpHTML_begin w) as [[[]|e|e] w1] eqn:Hbegin; cbn [fst snd] in *.
  - destruct (emits_for_of (fun ev => ev <> EvClose) rows dump_row
                (fun row => emits_dump_row _ row (fun _ Hev => Hev)) w1)
      as (evs2 & Ht2 & Hevs2).
    pose proof (caught_for_of rows dump_row caught_dump_row w1) as Hc2.
    destruct (for_of rows dump_row w1) as [[[]|e|e] w2] eqn:Hloop;
      cbn [fst snd] in *.
    + assert (Hrun : dumpHTML rows w = dumpHTML_end w2).
      { unfold dumpHTML.
        by rewrite (bind_ok _ _ _ _ _ Hbegin), (bind_ok _ _ _ _ _ Hloop). }
      rewrite Hrun. exists ((evs1 ++ evs2) ++ [EvClose]). split.
      * destruct (dumpHTML_end_run w2) as [[e ->] | ->]; cbn;
          by rewrite Ht2, Ht1, <- !app_assoc.
      * left. exists w1, w2, (evs1 ++ evs2). do 3 (split; [done|]).
        apply Hnot. by apply Forall_app.
    + assert (Hrun : dumpHTML rows w = (Throw e, w2)).
      { unfold dumpHTML.
        by rewrite (bind_ok _ _ _ _ _ Hbegin), (bind_throw _ _ _ _ _ Hloop). }
      rewrite Hrun. exists (evs1 ++ evs2).
      split; [cbn; by rewrite Ht2, Ht1, app_assoc|].
      right. split; [intros ? ? [= <-] Heq; congruence|].
      split; [apply Hnot; by apply Forall_app | by exists e].
    + by destruct (Hc2 e).
  - assert (Hrun : dumpHTML rows w = (Throw e, w1)).
    { unfold dumpHTML. by rewrite (bind_throw _ _ _ _ _ Hbegin). }
    rewrite Hrun. exists evs1. split; [done|]. right.
    split; [by intros ? ? [=]|]. split; [by apply Hnot | by exists e].
  - by destruct (Hc1 e).
Qed.

End Setup.

(* ===================================================================== *)
(** ** Further properties: what a batch does to the files *)
(* ===================================================================== *)

Section Store.
Context {E : Type} `{Host E}.
Implicit Types (w : World E) (rows : list Row)
  (fs : gmap jsstring jsstring) (evs : list Event).

Lemma replay_app evs1 evs2 fs :
  replay (evs1 ++ evs2) fs = replay evs2 (replay evs1 fs).
Proof. apply foldl_app. Qed.

Lemma replay_silent evs fs :
  writes evs = [] -> appends evs = [] -> replay evs fs = fs.
Proof.
  revert fs. induction evs as [|ev evs IH]; intros fs Hw Ha; [done|].
  change (replay evs (apply_event fs ev) = fs).
  destruct ev; simpl in *; try discriminate; by apply IH.
Qed.

Lemma replay_keeps evs fs p :
  is_Some (fs !! p) -> is_Some (replay evs fs !! p).
Proof.
  revert fs. induction evs as [|ev evs IH]; intros fs Hp; [done|].
  change (is_Some (replay evs (apply_event fs ev) !! p)). apply IH.
  destruct ev; simpl; try done.
  - destruct (decide (p0 = p)) as [->|Hne];
      [by rewrite lookup_insert_eq | by rewrite lookup_insert_ne].
  - destruct (decide (p0 = p)) as [->|Hne];
      [by rewrite lookup_insert_eq | by rewrite lookup_insert_ne].
Qed.


(** The block of events of an iteration, replayed, gives the files the
    iteration leaves. *)
Lemma dump_row_store row cell1 cell2 w :
  row !! js "tickers" = Some cell1 ->
  row !! js "canonical_url" = Some cell2 ->
  exists r w' block,
    dump_row row w = (r, w')
    /\ trace w' = trace w ++ block
    /\ files w' = replay block (files w)
    /\ ((r = Ok tt /\ iteration (trim cell1) (BASE_URL ++ trim cell2) block)
        \/ (exists e,
              r = Throw e
              /\ aborted (trim cell1) (BASE_URL ++ trim cell2) e block)).
Proof.
  intros H1 H2.
  destruct (dump_row_complete row cell1 cell2 w H1 H2)
    as (r & w' & block & Hrun & _ & Ht & Hcases).
  exists r, w', block. do 2 (split; [done|]).
  destruct Hcases as [(-> & html & -> & Hf)
                     |[(-> & rest & now & msg & Hrest & -> & Hf)
                      |(e & rest & now & msg & -> & Hrest & -> & Hf)]].
  - split; [done|]. left. split; [done | constructor].
  - split; [rewrite Hf; by destruct Hrest|].
    left. split; [done | by constructor].
  - split; [rewrite Hf; by destruct Hrest|].
    right. exists e. split; [done | by constructor].
Qed.

(** The loop: the files it leaves are those of the blocks of the rows it
    ran to their end; a row that the error log ended has changed nothing. *)
Lemma loop_store rows w :
  exists visited blocks tail rest,
    trace (for_of rows dump_row w).2 = trace w ++ concat blocks ++ tail
    /\ Forall2 visit_of visited blocks
    /\ rows = visited ++ rest
    /\ files (for_of rows dump_row w).2 = replay (concat blocks) (files w)
    /\ (tail = []
        \/ exists row rest' e, rest = row :: rest' /\ abort_of row e tail)
    /\ ((for_of rows dump_row w).1 = Ok tt -> rest = [] /\ tail = []).
Proof.
  revert w. induction rows as [|row rows IH]; intros w.
  - exists [], [], [], []. simpl. rewrite app_nil_r.
    repeat split; [constructor | by left].
  - destruct (complete_dec row) as [[[c1 H1] [c2 H2]] | Hrow].
    + destruct (dump_row_store row c1 c2 w H1 H2)
        as (r & w1 & block & Hrun & Ht & Hf & [[-> Hit] | (e & -> & Hab)]).
      * destruct (IH w1) as (visited & blocks & tail & rest
                             & Ht' & Hv & -> & Hf' & Htail & Hr).
        rewrite (for_of_cons_ok _ _ _ _ _ Hrun).
        exists (row :: visited), (block :: blocks), tail, rest.
        split; [simpl; by rewrite Ht', Ht, <- !app_assoc|].
        split; [constructor; [by exists c1, c2 | done]|].
        split; [done|].
        split; [simpl; by rewrite replay_app, <- Hf|done].
      * rewrite (for_of_cons_throw _ _ _ _ _ _ Hrun).
        exists [], [], block, (row :: rows). cbn [fst snd concat app].
        split; [done|]. split; [constructor|]. split; [done|].
        split; [|split; [|done]].
        -- rewrite Hf. destruct (aborted_silent _ _ _ _ Hab).
           by apply replay_silent.
        -- right. exists row, rows, e. split; [done|]. by exists c1, c2.
    + rewrite (for_of_cons_throw _ _ _ _ _ _ (dump_row_incomplete row w Hrow)).
      exists [], [], [], (row :: rows). simpl. rewrite app_nil_r.
      split; [done|]. split; [constructor|]. do 2 (split; [done|]).
      split; [by left | done].
Qed.

Lemma dumpHTML_store rows w :
  exists before visited blocks tail after rest,
    trace (dumpHTML rows w).2
    = trace w ++ before ++ concat blocks ++ tail ++ after
    /\ silent before
    /\ (after = [] \/ after = [EvClose])
    /\ Forall2 visit_of visited blocks
    /\ rows = visited ++ rest
    /\ (tail = []
        \/ exists row rest' e, rest = row :: rest' /\ abort_of row e tail)
    /\ files (dumpHTML rows w).2 = replay (concat blocks) (files w).
Proof.
  destruct (dumpHTML_begin w) as [r1 w1] eqn:Hbegin.
  destruct (quiet_run _ _ _ _ quiet_dumpHTML_begin Hbegin)
    as (Hf1 & before & Ht1 & Hs1).
  destruct r1 as [[]|e|e].
  - destruct (loop_store rows w1)
      as (visited & blocks & tail & rest & Ht2 & Hv & Hrows & Hf2 & Htail & Hr).
    destruct (for_of rows dump_row w1) as [r2 w2] eqn:Hloop.
    cbn [fst snd] in *.
    destruct r2 as [[]|e|e].
    + assert (Hrun : dumpHTML rows w = dumpHTML_end w2).
      { unfold dumpHTML.
        by rewrite (bind_ok _ _ _ _ _ Hbegin), (bind_ok _ _ _ _ _ Hloop). }
      rewrite Hrun. exists before, visited, blocks, tail, [EvClose], rest.
      destruct (dumpHTML_end_run w2) as [[e ->] | ->]; cbn;
        (split; [by rewrite Ht2, Ht1, <- !app_assoc|]);
        (split; [done|]); (split; [by right|]);
        do 3 (split; [done|]); by rewrite Hf2, Hf1.
    + assert (Hrun : dumpHTML rows w = (Throw e, w2)).
      { unfold dumpHTML.
        by rewrite (bind_ok _ _ _ _ _ Hbegin), (bind_throw _ _ _ _ _ Hloop). }
      rewrite Hrun. exists before, visited, blocks, tail, [], rest. cbn.
      split; [by rewrite Ht2, Ht1, app_nil_r, <- !app_assoc|].
      split; [done|]. split; [by left|].
      do 3 (split; [done|]). by rewrite Hf2, Hf1.
    + by destruct (caught_for_of rows dump_row caught_dump_row w1 e);
        rewrite Hloop.
  - assert (Hrun : dumpHTML rows w = (Throw e, w1)).
    { unfold dumpHTML. by rewrite (bind_throw _ _ _ _ _ Hbegin). }
    rewrite Hrun. exists before, [], [], [], [], rows. cbn.
    split; [by rewrite Ht1, !app_nil_r|]. split; [done|]. split; [by left|].
    split; [constructor|]. split; [done|]. split; [by left | done].
  - by destruct (caught_dumpHTML_begin w e); rewrite Hbegin.
Qed.

Lemma main_store w :
  exists before visited blocks tail after rest,
    trace (main w).2
    = trace w
      ++ EvCreateReadStream CSV_FILE
           :: before ++ concat blocks ++ tail ++ after
    /\ silent before
    /\ (after = [] \/ after = [EvClose])
    /\ Forall2 visit_of visited blocks
    /\ manifest w = visited ++ rest
    /\ (tail = []
        \/ exists row rest' e, rest = row :: rest' /\ abort_of row e tail)
    /\ files (main w).2 = replay (concat blocks) (files w).
Proof.
  destruct (readCSV_run w) as (r0 & Hcsv & Hrows).
  unfold main, try_catch, bind. rewrite Hcsv.
  destruct r0 as [rows|e|e].
  - destruct (Hrows rows eq_refl) as (-> & _).
    set (w0 := mkWorld (host w) (files w) (dirs w) (console w)
                 (trace w ++ [EvCreateReadStream CSV_FILE])).
    destruct (dumpHTML_store (manifest w) w0)
      as (before & visited & blocks & tail & after & rest
          & Ht & Hs & Ha & Hv & Hrows' & Htail & Hf).
    exists before, visited, blocks, tail, after, rest.
    destruct (dumpHTML (manifest w) w0) as [[[]|e|e] w1]; cbn in *;
      by rewrite Ht, <- app_assoc.
  - exists [], [], [], [], [], (manifest w). cbn.
    split; [done|]. split; [apply silent_nil|]. split; [by left|].
    split; [constructor|]. split; [done|]. split; [by left | done].
  - exists [], [], [], [], [], (manifest w). cbn.
    split; [done|]. split; [apply silent_nil|]. split; [by left|].
    split; [constructor|]. split; [done|]. split; [by left | done].
Qed.

End Store.

Section Dumps.
Context {E : Type} `{Host E}.
Implicit Types (w : World E) (rows : list Row)
  (fs : gmap jsstring jsstring) (evs : list Event).


Lemma visits_changed (visited : list Row) blocks :
  Forall2 visit_of visited blocks ->
  forall fs p,
    replay (concat blocks) fs !! p <> fs !! p ->
    p = ERROR_LOG
    \/ exists row cell,
        In row visited /\ row !! js "tickers" = Some cell
        /\ p = htmlPath (trim cell).
Proof.
  induction 1 as [|row block visited blocks (c1 & c2 & H1 & _ & Hit) _ IH];
    intros fs p Hne; [done|].
  simpl in Hne. rewrite replay_app in Hne.
  destruct (decide (replay block fs !! p = fs !! p)) as [Heq|Hblock].
  - rewrite <- Heq in Hne.
    destruct (IH _ _ Hne) as [-> | (row' & cell & Hin & Hcell & ->)];
      [by left | right].
    exists row', cell. split; [by right | done].
  - destruct Hit as [html | rest now msg []]; cbn in Hblock.
    + right. exists row, c1. split; [by left|]. split; [done|].
      destruct (decide (htmlPath (trim c1) = p)) as [<-|Hp]; [done|].
      by rewrite lookup_insert_ne in Hblock.
    + left. destruct (decide (ERROR_LOG = p)) as [<-|Hp]; [done|].
      by rewrite lookup_insert_ne in Hblock.
    + left. destruct (decide (ERROR_LOG = p)) as [<-|Hp]; [done|].
      by rewrite lookup_insert_ne in Hblock.
    + left. destruct (decide (ERROR_LOG = p)) as [<-|Hp]; [done|].
      by rewrite lookup_insert_ne in Hblock.
Qed.


(** X8. A batch touches only the error log and the dumps of its tickers,
    and removes nothing.  After any run of [main], a path whose content
    differs from before is [errors.log] or the output path of the ticker of
    a row of the manifest; every file that was there is still there. *)
Theorem batch_touches_only_the_log_and_the_dumps w :
  (forall p,
      files (main w).2 !! p <> files w !! p ->
      p = ERROR_LOG
      \/ exists row cell,
          In row (manifest w) /\ row !! js "tickers" = Some cell
          /\ p = htmlPath (trim cell))
  /\ (forall p, is_Some (files w !! p) -> is_Some (files (main w).2 !! p)).
Proof.
  destruct (main_store w) as (before & visited & blocks & tail & after & rest
                              & _ & _ & _ & Hv & Hrows & _ & Hf).
  rewrite Hf. split.
  - intros p Hne.
    destruct (visits_changed visited blocks Hv _ _ Hne)
      as [-> | (row & cell & Hin & Hcell & ->)]; [by left | right].
    exists row, cell. split; [|done].
    rewrite Hrows. apply in_app_iff. by left.
  - intros p. apply replay_keeps.
Qed.


(** X10. An empty manifest (its file holds a header only, or cannot be
    read) dumps nothing: the files are as they were, and the run neither
    navigates nor writes. *)
Theorem empty_manifest_dumps_nothing w :
  manifest w = [] ->
  files (main w).2 = files w
  /\ exists evs, trace (main w).2 = trace w ++ evs /\ silent evs.
Proof.
  intros Hempty.
  destruct (main_store w) as (before & visited & blocks & tail & after & rest
                              & Ht & Hs & Ha & Hv & Hrows & Htail & Hf).
  rewrite Hempty in Hrows. symmetry in Hrows.
  apply app_eq_nil in Hrows as [-> ->].
  apply Forall2_nil_inv_l in Hv as ->.
  destruct Htail as [-> | (row & rest' & e & [=] & _)].
  split; [done|]. eexists. split; [exact Ht|].
  change (silent ([EvCreateReadStream CSV_FILE]
                    ++ before ++ [] ++ [] ++ after)).
  apply silent_app; [by repeat split|].
  apply silent_app; [done|].
  destruct Ha as [-> | ->]; by repeat split.
Qed.

End Dumps.

(* ===================================================================== *)
(** ** Further properties: one visit, and the capture of the session *)
(* ===================================================================== *)

(** Projections of a world that is written out. *)
Ltac flat := cbn [host files dirs console trace].

Section Visits.
Context {E : Type} `{Host E}.
Implicit Types (w : World E) (row : Row) (rows : list Row).

Lemma dump_row_cells row cell1 cell2 w :
  row !! js "tickers" = Some cell1 ->
  row !! js "canonical_url" = Some cell2 ->
  dump_row row w
  = try_catch (dump_try (trim cell1) (BASE_URL ++ trim cell2))
      (dump_catch (trim cell1)) w.
Proof. intros H1 H2. unfold dump_row, trimmed. by rewrite H1, H2. Qed.

Lemma dump_try_fails ticker fullUrl w h e :
  page_goto fullUrl networkidle2 60000 (host w) = (Abrupt e, h) ->
  dump_try ticker fullUrl w
  = (Throw e,
     mkWorld h (files w) (dirs w)
       (console w ++ [(Stdout, [LStr (js "🌐 Visiting " ++ fullUrl)])])
       (trace w ++ [EvGoto fullUrl networkidle2 60000])).
Proof.
  intros Hgoto. unfold dump_try.
  rewrite (bind_ok _ _ _ _ _ (console_log_run _ _)).
  by erewrite bind_throw by (apply call_abrupt; exact Hgoto).
Qed.

Lemma dump_try_loaded ticker fullUrl w h1 h2 html :
  page_goto fullUrl networkidle2 60000 (host w) = (Normal tt, h1) ->
  page_content (wait_timeout 5000 h1) = (Normal html, h2) ->
  dump_try ticker fullUrl w
  = (writeFileSync (htmlPath ticker) html;;
     console_log [LStr (js "📝 HTML dumped for " ++ ticker)])
      (mkWorld h2 (files w) (dirs w)
         (console w ++ [(Stdout, [LStr (js "🌐 Visiting " ++ fullUrl)])])
         (trace w ++ [EvGoto fullUrl networkidle2 60000; EvTimeout 5000;
                      EvContent])).
Proof.
  intros Hgoto Hcontent. unfold dump_try.
  rewrite (bind_ok _ _ _ _ _ (console_log_run _ _)); flat.
  erewrite bind_ok by (apply call_normal; exact Hgoto).
  erewrite bind_ok by (by apply call_normal).
  erewrite bind_ok by (apply call_normal; exact Hcontent).
  flat. by rewrite <- !app_assoc.
Qed.

Lemma dump_catch_eq ticker e w :
  fs_error
    (FsAppend ERROR_LOG
       (logMsg (Date_toISOString (host w)) ticker (err_message e)))
    (files w) (dirs w) (host w) = None ->
  dump_catch ticker e w
  = (Ok tt,
     mkWorld (host w)
       (<[ERROR_LOG :=
            error_log w
            ++ logMsg (Date_toISOString (host w)) ticker (err_message e)]>
          (files w))
       (dirs w)
       (console w
        ++ [(Stderr,
             [LStr (js "❌ Error dumping " ++ ticker ++ js ": "
                    ++ err_message e)])])
       (trace w
        ++ [EvDate;
            EvAppendFile ERROR_LOG
              (logMsg (Date_toISOString (host w)) ticker (err_message e))])).
Proof.
  intros Happend.
  unfold dump_catch, logError, bind, console_error, console_print,
    toISOString, appendFileSync, call, error_log.
  cbn [fst snd completed]. flat. rewrite Happend. by rewrite <- app_assoc.
Qed.

(** X11. A page that loads is dumped as it is after the settle delay.  When
    the navigation of a row succeeds, [page.content()], called once
    5000 ms have passed, returns [html], and the write of the file returns,
    the iteration writes exactly [html] at the output path of the trimmed
    ticker, appends nothing to the error log, and prints the visit and the
    dump. *)
Theorem page_is_dumped_after_the_settle_delay
    row cell1 cell2 w h1 h2 (html : jsstring) :
  row !! js "tickers" = Some cell1 ->
  row !! js "canonical_url" = Some cell2 ->
  page_goto (BASE_URL ++ trim cell2) networkidle2 60000 (host w)
  = (Normal tt, h1) ->
  page_content (wait_timeout 5000 h1) = (Normal html, h2) ->
  fs_error (FsWrite (htmlPath (trim cell1)) html) (files w) (dirs w) h2
  = None ->
  dump_row row w
  = (Ok tt,
     mkWorld h2 (<[htmlPath (trim cell1) := html]> (files w)) (dirs w)
       (console w
        ++ [(Stdout, [LStr (js "🌐 Visiting " ++ BASE_URL ++ trim cell2)]);
            (Stdout, [LStr (js "📝 HTML dumped for " ++ trim cell1)])])
       (trace w
        ++ [EvGoto (BASE_URL ++ trim cell2) networkidle2 60000;
            EvTimeout 5000; EvContent;
            EvWriteFile (htmlPath (trim cell1)) html])).
Proof.
  intros H1 H2 Hgoto Hcontent Hwrite.
  rewrite (dump_row_cells row cell1 cell2 w H1 H2).
  unfold try_catch.
  rewrite (dump_try_loaded _ _ w h1 h2 html Hgoto Hcontent).
  erewrite bind_ok by (apply writeFileSync_returns; exact Hwrite); flat.
  rewrite console_log_run; flat. by rewrite <- !app_assoc.
Qed.

(** X12. A navigation that fails is logged at once: the iteration neither
    waits nor asks for the content of the page; it prints the error and,
    the error log taking the line, appends it, both with the trimmed ticker
    and the message of the error thrown, and writes no file. *)
Theorem failed_navigation_is_logged_at_once
    row cell1 cell2 w h (e : JsError) :
  row !! js "tickers" = Some cell1 ->
  row !! js "canonical_url" = Some cell2 ->
  page_goto (BASE_URL ++ trim cell2) networkidle2 60000 (host w)
  = (Abrupt e, h) ->
  fs_error
    (FsAppend ERROR_LOG
       (logMsg (Date_toISOString h) (trim cell1) (err_message e)))
    (files w) (dirs w) h = None ->
  dump_row row w
  = (Ok tt,
     mkWorld h
       (<[ERROR_LOG :=
            error_log w
            ++ logMsg (Date_toISOString h) (trim cell1) (err_message e)]>
          (files w))
       (dirs w)
       (console w
        ++ [(Stdout, [LStr (js "🌐 Visiting " ++ BASE_URL ++ trim cell2)]);
            (Stderr,
             [LStr (js "❌ Error dumping " ++ trim cell1 ++ js ": "
                    ++ err_message e)])])
       (trace w
        ++ [EvGoto (BASE_URL ++ trim cell2) networkidle2 60000; EvDate;
            EvAppendFile ERROR_LOG
              (logMsg (Date_toISOString h) (trim cell1) (err_message e))])).
Proof.
  intros H1 H2 Hgoto Happend.
  rewrite (dump_row_cells row cell1 cell2 w H1 H2).
  unfold try_catch. rewrite (dump_try_fails _ _ w h e Hgoto).
  rewrite dump_catch_eq by exact Happend. unfold error_log.
  cbn [host files dirs console trace]. by rewrite <- !app_assoc.
Qed.

(** X13. Only the trimmed [tickers] and [canonical_url] cells of the rows
    matter.  Two manifests whose rows agree, one by one, on those two cells
    up to white space at their ends (whatever their other columns) make
    [dumpHTML] do the same thing in every world. *)
Theorem only_the_trimmed_cells_matter rows rows' w :
  Forall2 (fun row row' =>
             trim <$> row !! js "tickers" = trim <$> row' !! js "tickers"
             /\ trim <$> row !! js "canonical_url"
                = trim <$> row' !! js "canonical_url") rows rows' ->
  dumpHTML rows w = dumpHTML rows' w.
Proof.
  intros Hrows.
  assert (Hrow : forall row row' w1,
             trim <$> row !! js "tickers" = trim <$> row' !! js "tickers" ->
             trim <$> row !! js "canonical_url"
             = trim <$> row' !! js "canonical_url" ->
             dump_row row w1 = dump_row row' w1).
  { intros row row' w1 Ht Hu. unfold dump_row, trimmed, bind, ret, throw.
    destruct (row !! js "tickers"), (row' !! js "tickers");
      simplify_eq/=; [|done].
    destruct (row !! js "canonical_url"), (row' !! js "canonical_url");
      simplify_eq/=; [|done].
    congruence. }
  assert (Hloop : forall w1, for_of rows dump_row w1 = for_of rows' dump_row w1).
  { induction Hrows as [|row row' rows rows' [Ht Hu] _ IH]; intros w1; [done|].
    simpl. unfold bind. rewrite (Hrow row row' w1 Ht Hu).
    destruct (dump_row row' w1) as [[[]|e|e] w2]; [apply IH | done | done]. }
  unfold dumpHTML, bind.
  destruct (dumpHTML_begin w) as [[[]|e|e] w1]; [|done|done].
  by rewrite Hloop.
Qed.


End Visits.

Section Saved.
Context {E : Type} `{Host E}.
Implicit Types (w : World E).

Lemma no_session_cookie (jar : list Cookie) :
  Forall (fun c => includes (cookie_domain c) (js "simplywall.st") = false)
    jar ->
  List.filter is_session_cookie jar = [].
Proof.
  induction 1 as [|c jar Hc _ IH]; [done|].
  simpl. unfold is_session_cookie at 1. by rewrite Hc.
Qed.

(** X14. login.js saves whatever the browser holds after the wait, logged
    in or not, and saves it before closing the browser.  When the browser
    is launched, the login page loads, [page.cookies()], called once
    30000 ms have passed, returns [jar], and the write of the file returns,
    the filtered jar replaces whatever [cookiePath] held, and only then is
    the browser closed: the run ends as [browser.close()] does, the session
    saved either way.  In particular, when no cookie of the jar has
    [simplywall.st] in its domain (nobody logged in), the session saved is
    the empty list. *)
Theorem session_is_saved_whatever_the_login w h1 h2 h3 h4 jar :
  puppeteer_launch (mkLaunch chrome (Some profilePath)) (host w)
  = (Normal tt, h1) ->
  browser_newPage h1 = (Normal tt, h2) ->
  page_goto LOGIN_URL domcontentloaded 60000 h2 = (Normal tt, h3) ->
  page_cookies (wait_timeout 30000 h3) = (Normal jar, h4) ->
  fs_error
    (FsWrite cookiePath (JSON_stringify (List.filter is_session_cookie jar)))
    (files w) (dirs w) h4 = None ->
  (login_js w).1 = completed (browser_close h4).1
  /\ host (login_js w).2 = (browser_close h4).2
  /\ files (login_js w).2
     = <[cookiePath := JSON_stringify (List.filter is_session_cookie jar)]>
         (files w)
  /\ trace (login_js w).2
     = trace w
       ++ [EvLaunch (mkLaunch chrome (Some profilePath)); EvNewPage;
           EvGoto LOGIN_URL domcontentloaded 60000; EvTimeout 30000;
           EvCookies;
           EvWriteFile cookiePath
             (JSON_stringify (List.filter is_session_cookie jar));
           EvClose]
  /\ (Forall (fun c => includes (cookie_domain c) (js "simplywall.st")
                       = false) jar ->
      files (login_js w).2 !! cookiePath = Some (JSON_stringify [])).
Proof.
  intros Hlaunch Hpage Hgoto Hjar Hwrite.
  assert (Hrun : login_js w
                 = close
                     (mkWorld h4
                        (<[cookiePath :=
                             JSON_stringify
                               (List.filter is_session_cookie jar)]> (files w))
                        (dirs w)
                        (console w
                         ++ [(Stdout,
                              [LStr (js "🧑‍💻 Please log in manually in the opened browser...")]);
                             (Stdout,
                              [LStr (js "⏳ Waiting 30 seconds for login and session to persist...")]);
                             (Stdout,
                              [LStr (js "🍪 Simply Wall Street session cookies:");
                               LCookies (List.filter is_session_cookie jar)]);
                             (Stdout,
                              [LStr (js "✅ Saved session cookies to "
                                     ++ cookiePath)])])
                        (trace w
                         ++ [EvLaunch (mkLaunch chrome (Some profilePath));
                             EvNewPage;
                             EvGoto LOGIN_URL domcontentloaded 60000;
                             EvTimeout 30000; EvCookies;
                             EvWriteFile cookiePath
                               (JSON_stringify
                                  (List.filter is_session_cookie jar))]))).
  { unfold login_js.
    erewrite bind_ok by (apply call_normal; exact Hlaunch).
    erewrite bind_ok by (apply call_normal; exact Hpage).
    erewrite bind_ok by (apply call_normal; exact Hgoto).
    rewrite (bind_ok _ _ _ _ _ (console_log_run _ _)); flat.
    rewrite (bind_ok _ _ _ _ _ (console_log_run _ _)); flat.
    erewrite bind_ok by (by apply call_normal).
    erewrite bind_ok by (apply call_normal; exact Hjar).
    rewrite (bind_ok _ _ _ _ _ (console_log_run _ _)); flat.
    erewrite bind_ok by (apply writeFileSync_returns; exact Hwrite); flat.
    rewrite (bind_ok _ _ _ _ _ (console_log_run _ _)); flat.
    by rewrite <- !app_assoc. }
  rewrite Hrun. unfold close, call. cbn.
  do 3 (split; [done|]). split; [by rewrite <- app_assoc|].
  intros Hnone. by rewrite lookup_insert_eq, (no_session_cookie jar Hnone).
Qed.

End Saved.

(* ===================================================================== *)
(** ** The further properties on the example *)
(* ===================================================================== *)

(** Of two rows with one ticker, the later gives the dump. *)
Example duplicate_ticker_example :
  files (for_of [row_aapl; row_aapl_again] dump_row w_begun).2
    !! js "html_dump/AAPL.html"
  = Some (js "<html>MSFT</html>").
Proof. vm_compute. reflexivity. Qed.

Lemma unreadable_session_stops_the_batch_witness :
  puppeteer_launch (mkLaunch chrome None) (host w_bad_session)
  = (Normal tt, host w_bad_session)
  /\ browser_newPage (host w_bad_session) = (Normal tt, host w_bad_session)
  /\ files w_bad_session !! COOKIES_FILE = Some (js "<html>login</html>")
  /\ JSON_parse (js "<html>login</html>") = Abrupt unexpected_token
  /\ dumpHTML example_rows w_bad_session
     = (Throw unexpected_token,
        mkWorld (host w_bad_session) (files w_bad_session)
          (dirs w_bad_session) (console w_bad_session)
          (trace w_bad_session
           ++ [EvLaunch (mkLaunch chrome None); EvNewPage;
               EvExists COOKIES_FILE; EvReadFile COOKIES_FILE])).
Proof.
  assert (H1 : puppeteer_launch (mkLaunch chrome None) (host w_bad_session)
               = (Normal tt, host w_bad_session)) by reflexivity.
  assert (H2 : browser_newPage (host w_bad_session)
               = (Normal tt, host w_bad_session)) by reflexivity.
  assert (H3 : files w_bad_session !! COOKIES_FILE
               = Some (js "<html>login</html>")) by (vm_compute; reflexivity).
  assert (H4 : JSON_parse (js "<html>login</html>") = Abrupt unexpected_token)
    by (vm_compute; reflexivity).
  repeat (split; [assumption|]).
  exact (unreadable_session_stops_the_batch example_rows w_bad_session
           (host w_bad_session) (host w_bad_session)
           (js "<html>login</html>") unexpected_token H1 H2 H3 H4).
Defined.

Lemma output_directory_is_ensured_witness :
  dumpHTML_begin w_ready = (Ok tt, w_begun)
  /\ exists_in (files w_begun) (dirs w_begun) HTML_DUMP_FOLDER = true
  /\ files w_begun = files w_ready
  /\ exists evs,
      trace w_begun = trace w_ready ++ evs
      /\ (if exists_in (files w_ready) (dirs w_ready) HTML_DUMP_FOLDER
          then dirs w_begun = dirs w_ready
               /\ ~ In (EvMkdir HTML_DUMP_FOLDER) evs
          else dirs w_begun = {[HTML_DUMP_FOLDER]} ∪ dirs w_ready
               /\ In (EvMkdir HTML_DUMP_FOLDER) evs).
Proof.
  assert (H1 : dumpHTML_begin w_ready = (Ok tt, w_begun))
    by (vm_compute; reflexivity).
  split; [assumption|].
  exact (output_directory_is_ensured w_ready w_begun H1).
Defined.


(** The manifest missing, and the manifest being a directory. *)
Example unreadable_manifest_example :
  (main w_no_manifest).1 = Uncaught (ENOENT CSV_FILE)
  /\ (main w_manifest_is_directory).1 = Uncaught EISDIR
  /\ console (main w_manifest_is_directory).2 = [].
Proof. vm_compute. repeat split. Qed.

Lemma csv_error_discards_the_rows_witness :
  files w_ready !! CSV_FILE = Some manifest_text
  /\ @csv Sim sim_host_bad_csv manifest_text = ([row_aapl], Some malformed_csv)
  /\ @main Sim sim_host_bad_csv w_ready
     = (Ok tt,
        mkWorld (host w_ready) (files w_ready) (dirs w_ready)
          (console w_ready
           ++ [(Stderr, [LStr (js "🚨 Fatal error:");
                         LStr (err_message malformed_csv)])])
          (trace w_ready ++ [EvCreateReadStream CSV_FILE])).
Proof.
  assert (H1 : files w_ready !! CSV_FILE = Some manifest_text)
    by (vm_compute; reflexivity).
  assert (H2 : @csv Sim sim_host_bad_csv manifest_text
               = ([row_aapl], Some malformed_csv))
    by (vm_compute; reflexivity).
  repeat (split; [assumption|]).
  exact (@csv_error_discards_the_rows Sim sim_host_bad_csv w_ready
           manifest_text [row_aapl] malformed_csv H1 H2).
Defined.

Lemma main_fulfils_when_the_manifest_opens_witness :
  is_Some (files w_ready !! CSV_FILE)
  /\ (main w_ready).1 = Ok tt
  /\ (last_line (main w_ready).2
      = Some (Stdout, [LStr (js "✅ All HTML files created")])
      \/ exists message,
          last_line (main w_ready).2
          = Some (Stderr, [LStr (js "🚨 Fatal error:"); LStr message])).
Proof.
  assert (H1 : is_Some (files w_ready !! CSV_FILE))
    by (exists manifest_text; vm_compute; reflexivity).
  split; [assumption|].
  exact (main_fulfils_when_the_manifest_opens w_ready H1).
Defined.


Lemma empty_manifest_dumps_nothing_witness :
  manifest w_empty_manifest = []
  /\ files (main w_empty_manifest).2 = files w_empty_manifest
  /\ exists evs,
      trace (main w_empty_manifest).2 = trace w_empty_manifest ++ evs
      /\ silent evs.
Proof.
  assert (H1 : manifest w_empty_manifest = []) by (vm_compute; reflexivity).
  split; [assumption|].
  exact (empty_manifest_dumps_nothing w_empty_manifest H1).
Defined.

Lemma page_is_dumped_after_the_settle_delay_witness :
  row_aapl_spaced !! js "tickers" = Some ([9] ++ js " AAPL " ++ [13])
  /\ row_aapl_spaced !! js "canonical_url" = Some (js "  /stocks/aapl")
  /\ page_goto (BASE_URL ++ trim (js "  /stocks/aapl")) networkidle2 60000
       (host w_begun)
     = (Normal tt, h_aapl_loaded)
  /\ page_content (wait_timeout 5000 h_aapl_loaded)
     = (Normal (js "<html>AAPL</html>"), wait_timeout 5000 h_aapl_loaded)
  /\ fs_error
       (FsWrite (htmlPath (trim ([9] ++ js " AAPL " ++ [13])))
          (js "<html>AAPL</html>"))
       (files w_begun) (dirs w_begun) (wait_timeout 5000 h_aapl_loaded)
     = None
  /\ dump_row row_aapl_spaced w_begun
     = (Ok tt,
        mkWorld (wait_timeout 5000 h_aapl_loaded)
          (<[htmlPath (trim ([9] ++ js " AAPL " ++ [13]))
             := js "<html>AAPL</html>"]> (files w_begun))
          (dirs w_begun)
          (console w_begun
           ++ [(Stdout,
                [LStr (js "🌐 Visiting " ++ BASE_URL
                       ++ trim (js "  /stocks/aapl"))]);
               (Stdout,
                [LStr (js "📝 HTML dumped for "
                       ++ trim ([9] ++ js " AAPL " ++ [13]))])])
          (trace w_begun
           ++ [EvGoto (BASE_URL ++ trim (js "  /stocks/aapl")) networkidle2
                 60000;
               EvTimeout 5000; EvContent;
               EvWriteFile (htmlPath (trim ([9] ++ js " AAPL " ++ [13])))
                 (js "<html>AAPL</html>")])).
Proof.
  assert (H1 : row_aapl_spaced !! js "tickers"
               = Some ([9] ++ js " AAPL " ++ [13]))
    by (vm_compute; reflexivity).
  assert (H2 : row_aapl_spaced !! js "canonical_url"
               = Some (js "  /stocks/aapl")) by (vm_compute; reflexivity).
  assert (H3 : page_goto (BASE_URL ++ trim (js "  /stocks/aapl")) networkidle2
                 60000 (host w_begun)
               = (Normal tt, h_aapl_loaded)) by (vm_compute; reflexivity).
  assert (H4 : page_content (wait_timeout 5000 h_aapl_loaded)
               = (Normal (js "<html>AAPL</html>"),
                  wait_timeout 5000 h_aapl_loaded))
    by (vm_compute; reflexivity).
  assert (H5 : fs_error
                 (FsWrite (htmlPath (trim ([9] ++ js " AAPL " ++ [13])))
                    (js "<html>AAPL</html>"))
                 (files w_begun) (dirs w_begun)
                 (wait_timeout 5000 h_aapl_loaded)
               = None)
    by (vm_compute; reflexivity).
  repeat (split; [assumption|]).
  exact (page_is_dumped_after_the_settle_delay row_aapl_spaced
           ([9] ++ js " AAPL " ++ [13]) (js "  /stocks/aapl") w_begun
           h_aapl_loaded (wait_timeout 5000 h_aapl_loaded)
           (js "<html>AAPL</html>") H1 H2 H3 H4 H5).
Defined.


Lemma failed_navigation_is_logged_at_once_witness :
  row_bad !! js "tickers" = Some (js " BAD ")
  /\ row_bad !! js "canonical_url" = Some (js "/broken ")
  /\ page_goto (BASE_URL ++ trim (js "/broken ")) networkidle2 60000
       (host w_after_aapl)
     = (Abrupt navigation_timeout, host w_bad_thrown)
  /\ fs_error
       (FsAppend ERROR_LOG
          (logMsg (Date_toISOString (host w_bad_thrown)) (trim (js " BAD "))
             (err_message navigation_timeout)))
       (files w_after_aapl) (dirs w_after_aapl) (host w_bad_thrown)
     = None
  /\ dump_row row_bad w_after_aapl
     = (Ok tt,
        mkWorld (host w_bad_thrown)
          (<[ERROR_LOG :=
               error_log w_after_aapl
               ++ logMsg (Date_toISOString (host w_bad_thrown))
                    (trim (js " BAD ")) (err_message navigation_timeout)]>
             (files w_after_aapl))
          (dirs w_after_aapl)
          (console w_after_aapl
           ++ [(Stdout,
                [LStr (js "🌐 Visiting " ++ BASE_URL ++ trim (js "/broken "))]);
               (Stderr,
                [LStr (js "❌ Error dumping " ++ trim (js " BAD ") ++ js ": "
                       ++ err_message navigation_timeout)])])
          (trace w_after_aapl
           ++ [EvGoto (BASE_URL ++ trim (js "/broken ")) networkidle2 60000;
               EvDate;
               EvAppendFile ERROR_LOG
                 (logMsg (Date_toISOString (host w_bad_thrown))
                    (trim (js " BAD ")) (err_message navigation_timeout))])).
Proof.
  assert (H1 : row_bad !! js "tickers" = Some (js " BAD "))
    by (vm_compute; reflexivity).
  assert (H2 : row_bad !! js "canonical_url" = Some (js "/broken "))
    by (vm_compute; reflexivity).
  assert (H3 : page_goto (BASE_URL ++ trim (js "/broken ")) networkidle2 60000
                 (host w_after_aapl)
               = (Abrupt navigation_timeout, host w_bad_thrown))
    by (vm_compute; reflexivity).
  assert (H4 : fs_error
                 (FsAppend ERROR_LOG
                    (logMsg (Date_toISOString (host w_bad_thrown))
                       (trim (js " BAD ")) (err_message navigation_timeout)))
                 (files w_after_aapl) (dirs w_after_aapl) (host w_bad_thrown)
               = None)
    by (vm_compute; reflexivity).
  repeat (split; [assumption|]).
  exact (failed_navigation_is_logged_at_once row_bad (js " BAD ")
           (js "/broken ") w_after_aapl (host w_bad_thrown)
           navigation_timeout H1 H2 H3 H4).
Defined.

Lemma only_the_trimmed_cells_matter_witness :
  Forall2 (fun row row' =>
             trim <$> row !! js "tickers" = trim <$> row' !! js "tickers"
             /\ trim <$> row !! js "canonical_url"
                = trim <$> row' !! js "canonical_url")
    [row_aapl_spaced; row_bad] [row_aapl; row_bad]
  /\ dumpHTML [row_aapl_spaced; row_bad] w_ready
     = dumpHTML [row_aapl; row_bad] w_ready.
Proof.
  assert (H1 : Forall2 (fun row row' =>
                          trim <$> row !! js "tickers"
                          = trim <$> row' !! js "tickers"
                          /\ trim <$> row !! js "canonical_url"
                             = trim <$> row' !! js "canonical_url")
                 [row_aapl_spaced; row_bad] [row_aapl; row_bad]).
  { repeat constructor; vm_compute; reflexivity. }
  split; [assumption|].
  exact (only_the_trimmed_cells_matter [row_aapl_spaced; row_bad]
           [row_aapl; row_bad] w_ready H1).
Defined.

Lemma session_is_saved_whatever_the_login_witness :
  puppeteer_launch (mkLaunch chrome (Some profilePath)) (host w_logged_out)
  = (Normal tt, host w_logged_out)
  /\ browser_newPage (host w_logged_out) = (Normal tt, host w_logged_out)
  /\ page_goto LOGIN_URL domcontentloaded 60000 (host w_logged_out)
     = (Normal tt, h_login_loaded)
  /\ page_cookies
       (wait_timeout 30000 h_login_loaded)
     = (Normal [tracker_cookie],
        wait_timeout 30000 h_login_loaded)
  /\ fs_error
       (FsWrite cookiePath
          (JSON_stringify (List.filter is_session_cookie [tracker_cookie])))
       (files w_logged_out) (dirs w_logged_out)
       (wait_timeout 30000 h_login_loaded)
     = None
  /\ (login_js w_logged_out).1
     = completed
         (browser_close
            (wait_timeout 30000 h_login_loaded)).1
  /\ host (login_js w_logged_out).2
     = (browser_close
          (wait_timeout 30000 h_login_loaded)).2
  /\ files (login_js w_logged_out).2
     = <[cookiePath
         := JSON_stringify (List.filter is_session_cookie [tracker_cookie])]>
         (files w_logged_out)
  /\ trace (login_js w_logged_out).2
     = trace w_logged_out
       ++ [EvLaunch (mkLaunch chrome (Some profilePath)); EvNewPage;
           EvGoto LOGIN_URL domcontentloaded 60000; EvTimeout 30000;
           EvCookies;
           EvWriteFile cookiePath
             (JSON_stringify
                (List.filter is_session_cookie [tracker_cookie]));
           EvClose]
  /\ (Forall (fun c => includes (cookie_domain c) (js "simplywall.st")
                       = false) [tracker_cookie] ->
      files (login_js w_logged_out).2 !! cookiePath
      = Some (JSON_stringify [])).
Proof.
  assert (H1 : puppeteer_launch (mkLaunch chrome (Some profilePath))
                 (host w_logged_out)
               = (Normal tt, host w_logged_out)) by reflexivity.
  assert (H2 : browser_newPage (host w_logged_out)
               = (Normal tt, host w_logged_out)) by reflexivity.
  assert (H3 : page_goto LOGIN_URL domcontentloaded 60000 (host w_logged_out)
               = (Normal tt, h_login_loaded))
    by (vm_compute; reflexivity).
  assert (H4 : page_cookies
                 (wait_timeout 30000
                    h_login_loaded)
               = (Normal [tracker_cookie],
                  wait_timeout 30000
                    h_login_loaded))
    by (vm_compute; reflexivity).
  assert (H5 : fs_error
                 (FsWrite cookiePath
                    (JSON_stringify
                       (List.filter is_session_cookie [tracker_cookie])))
                 (files w_logged_out) (dirs w_logged_out)
                 (wait_timeout 30000 h_login_loaded)
               = None)
    by (vm_compute; reflexivity).
  repeat (split; [assumption|]).
  exact (session_is_saved_whatever_the_login w_logged_out
           (host w_logged_out) (host w_logged_out)
           h_login_loaded
           (wait_timeout 30000 h_login_loaded)
           [tracker_cookie] H1 H2 H3 H4 H5).
Defined.

(** Nobody logged in: the session saved by the earlier run is gone. *)
Example logged_out_example :
  files w_logged_out !! js "/srv/final_project/cookies.json"
  = Some (sim_stringify [session_cookie])
  /\ files (login_js w_logged_out).2 !! js "/srv/final_project/cookies.json"
     = Some (js "[]").
Proof. vm_compute. split; reflexivity. Qed.
